(** * kafka-orchestrator sidecar: a shallow embedding and its properties

    The development follows the Go packages of the repository:
    - [GoStd]     : the parts of Go's [strings], [strconv] and [fmt]
                    that the sidecar calls;
    - [Discovery] : [pkg/sidecar/discovery] (broker identity, bootstrap
                    address list);
    - [Health]    : [pkg/sidecar/health] (admin client, the four checks,
                    liveness and readiness);
    - [Metrics]   : [pkg/sidecar/metrics] (cgroup v1 and v2 readers).

    Go strings are byte strings and are modelled by [string] (one [ascii]
    per byte).  Go integers are modelled by [Z] with the wrap-around of
    the source written out where it can occur. *)

From Stdlib Require Import ZArith Lia Ascii String List Bool.
From Stdlib Require Import DecimalString.
From Stdlib Require DecimalZ.
From Stdlib Require Import Floats.SpecFloat.
From stdpp Require Import base option list gmap strings.

Local Open Scope Z_scope.

(** Go functions return a value and an [error]; where the value is only
    meaningful when the error is nil we use a sum. *)
Inductive result (E A : Type) : Type :=
| Ok (a : A)
| Err (e : E).
Arguments Ok {E A} a.
Arguments Err {E A} e.

Definition is_ok {E A} (r : result E A) : bool :=
  match r with Ok _ => true | Err _ => false end.

Definition is_err {E A} (r : result E A) : bool := negb (is_ok r).

(* ===================================================================== *)
(** * Go standard library                                                 *)
(* ===================================================================== *)

Module GoStd.

(** The value of a byte. *)
Definition byte (c : ascii) : Z := Z.of_N (N_of_ascii c).

(** [len(s)] *)
Definition len (s : string) : Z := Z.of_nat (String.length s).

(** [s[i:]] for [0 <= i <= len(s)] (Go panics outside that range; the
    callers below establish the range before slicing). *)
Definition slice_from (s : string) (i : Z) : string :=
  String.substring (Z.to_nat i) (String.length s - Z.to_nat i)%nat s.

(** [bytealg.LastIndexByteString]:
    [for i := len(s) - 1; i >= 0; i-- { if s[i] == c { return i } }; return -1].
    The argument [n] is [i + 1]. *)
Fixpoint LastIndexByte_from (s : string) (c : ascii) (n : nat) : Z :=
  match n with
  | O => -1
  | S i =>
      match String.get i s with
      | Some a => if Ascii.eqb a c then Z.of_nat i else LastIndexByte_from s c i
      | None => LastIndexByte_from s c i
      end
  end.

(** [strings.LastIndex(s, substr)] for a one-byte [substr], which is the
    only way the sidecar calls it. *)
Definition LastIndexByte (s : string) (c : ascii) : Z :=
  LastIndexByte_from s c (String.length s).

(** [strings.Join]: no element gives the empty string, one element gives
    that element, otherwise the separator is written before every element
    but the first. *)
Definition Join (elems : list string) (sep : string) : string :=
  match elems with
  | [] => ""
  | [e] => e
  | e :: rest => fold_left (fun b s => b +:+ sep +:+ s) rest e
  end.

(** [%d] of [fmt.Sprintf] for a Go [int]. *)
Definition FormatInt (z : Z) : string := NilZero.string_of_int (Z.to_int z).

(** ** strconv *)

Definition maxUint64 : Z := 2 ^ 64 - 1.

Inductive NumErrKind := ErrSyntax | ErrRange | ErrBase | ErrBitSize.

(** [strconv.NumError] *)
Record NumError := mkNumError {
  Func : string;
  Num : string;
  Kind : NumErrKind
}.

(** [lower(c)] of strconv: [c | ('x' - 'X')]. *)
Definition lower (c : ascii) : Z := Z.lor (byte c) 32.

(** The digit loop of [strconv.ParseUint].  [n] is the value accumulated
    so far; the result is the pair (value, error kind) the Go function
    returns, the error being [None] for nil. *)
Fixpoint ParseUint_loop (base cutoff maxVal : Z) (s : string) (n : Z)
  : Z * option NumErrKind :=
  match s with
  | EmptyString => (n, None)
  | String c r =>
      let d :=
        if (byte "0" <=? byte c) && (byte c <=? byte "9") then Some (byte c - byte "0")
        else if (byte "a" <=? lower c) && (lower c <=? byte "z")
             then Some (lower c - byte "a" + 10)
             else None in
      match d with
      | None => (0, Some ErrSyntax)
      | Some d =>
          if d >=? base then (0, Some ErrSyntax)
          else if n >=? cutoff then (maxVal, Some ErrRange)
          else
            let n' := (n * base) mod 2 ^ 64 in
            let n1 := (n' + d) mod 2 ^ 64 in
            if (n1 <? n') || (n1 >? maxVal) then (maxVal, Some ErrRange)
            else ParseUint_loop base cutoff maxVal r n1
      end
  end.

(** [strconv.ParseUint(s, base, bitSize)] for an explicit base (the
    sidecar always passes 10; base 0, with its prefixes and underscores,
    is not modelled and reported as [ErrBase]). *)
Definition ParseUint (s : string) (base bitSize : Z) : Z * option NumError :=
  if String.eqb s "" then (0, Some (mkNumError "ParseUint" s ErrSyntax))
  else if negb ((2 <=? base) && (base <=? 36))
  then (0, Some (mkNumError "ParseUint" s ErrBase))
  else
    let bitSize := if bitSize =? 0 then 64 else bitSize in
    if (bitSize <? 0) || (bitSize >? 64)
    then (0, Some (mkNumError "ParseUint" s ErrBitSize))
    else
      let cutoff := maxUint64 / base + 1 in
      let maxVal := 2 ^ bitSize - 1 in
      match ParseUint_loop base cutoff maxVal s 0 with
      | (n, None) => (n, None)
      | (n, Some k) => (n, Some (mkNumError "ParseUint" s k))
      end.

(** [strconv.ParseInt(s, base, bitSize)]: the sign is picked off, the rest
    goes through [ParseUint], and the magnitude is checked against
    [1 << (bitSize - 1)]. *)
Definition ParseInt (s : string) (base bitSize : Z) : Z * option NumError :=
  match s with
  | EmptyString => (0, Some (mkNumError "ParseInt" s ErrSyntax))
  | String c0 r =>
      let '(neg, s1) :=
        if Ascii.eqb c0 "+" then (false, r)
        else if Ascii.eqb c0 "-" then (true, r)
        else (false, s) in
      let '(un, err) := ParseUint s1 base bitSize in
      let fatal :=
        match err with
        | Some e => match Kind e with ErrRange => None | k => Some k end
        | None => None
        end in
      match fatal with
      | Some k => (0, Some (mkNumError "ParseInt" s k))
      | None =>
          let bitSize := if bitSize =? 0 then 64 else bitSize in
          let cutoff := 2 ^ (bitSize - 1) in
          if negb neg && (un >=? cutoff)
          then (cutoff - 1, Some (mkNumError "ParseInt" s ErrRange))
          else if neg && (un >? cutoff)
          then (- cutoff, Some (mkNumError "ParseInt" s ErrRange))
          else ((if neg then - un else un), None)
      end
  end.

(** ** Case mapping and white space

    For strings with a byte outside ASCII, Go decodes UTF-8 and consults
    its Unicode tables ([unicode.ToUpper], [unicode.IsSpace]).  The tables
    are not part of this repository; the slow paths are taken as
    parameters, the ASCII fast paths are modelled in full. *)
Class Unicode := {
  (** [strings.Map(unicode.ToUpper, s)] *)
  MapToUpper : string -> string;
  (** [strings.TrimFunc(s, unicode.IsSpace)] *)
  TrimFuncIsSpace : string -> string;
  (** [strings.TrimRightFunc(s, unicode.IsSpace)] *)
  TrimRightFuncIsSpace : string -> string;
  (** [strings.FieldsFunc(s, unicode.IsSpace)] *)
  FieldsFuncIsSpace : string -> list string
}.

(** No table is consulted for ASCII strings; the instance that leaves
    every other string unchanged serves where a concrete one is needed. *)
Definition asciiOnly : Unicode :=
  {| MapToUpper s := s;
     TrimFuncIsSpace s := s;
     TrimRightFuncIsSpace s := s;
     FieldsFuncIsSpace s := [s] |}.

(** [utf8.RuneSelf] *)
Definition RuneSelf : Z := 128.

Fixpoint all_bytes (p : ascii -> bool) (s : string) : bool :=
  match s with
  | EmptyString => true
  | String c r => p c && all_bytes p r
  end.

Fixpoint map_bytes (f : ascii -> ascii) (s : string) : string :=
  match s with
  | EmptyString => EmptyString
  | String c r => String (f c) (map_bytes f r)
  end.

Definition is_ascii_lower (c : ascii) : bool :=
  (byte "a" <=? byte c) && (byte c <=? byte "z").

(** [c -= 'a' - 'A'] for a lower-case letter, other bytes unchanged. *)
Definition upper_byte (c : ascii) : ascii :=
  if is_ascii_lower c then ascii_of_N (Z.to_N (byte c - 32)) else c.

(** [strings.ToUpper] *)
Definition ToUpper `{Unicode} (s : string) : string :=
  let isASCII := all_bytes (fun c => byte c <? RuneSelf) s in
  let hasLower := negb (all_bytes (fun c => negb (is_ascii_lower c)) s) in
  if isASCII then
    if negb hasLower then s else map_bytes upper_byte s
  else MapToUpper s.

(** The table [asciiSpace] of package strings:
    tab, newline, vertical tab, form feed, carriage return, space. *)
Definition asciiSpace (c : ascii) : bool :=
  let b := byte c in
  (b =? 9) || (b =? 10) || (b =? 11) || (b =? 12) || (b =? 13) || (b =? 32).

(** Second loop of [strings.TrimSpace],
    [for ; stop > start; stop-- { c := s[stop-1]; ... }],
    on the reversed bytes of [s[start:]]: ASCII spaces are dropped from
    the end; a non-ASCII byte hands [s[start:stop]] to [TrimRightFunc];
    any other byte ends the loop with [s[start:stop]]. *)
Fixpoint trim_right_rev `{Unicode} (r : list ascii) : string :=
  match r with
  | [] => EmptyString
  | c :: r' =>
      if RuneSelf <=? byte c
      then TrimRightFuncIsSpace (string_of_list_ascii (rev r))
      else if asciiSpace c then trim_right_rev r'
      else string_of_list_ascii (rev r)
  end.

(** [strings.TrimSpace]: the first loop scans from the start and hands
    [s[start:]] to [TrimFunc] at a non-ASCII byte; at the first byte that
    is not a space the second loop takes over. *)
Fixpoint TrimSpace `{Unicode} (s : string) : string :=
  match s with
  | EmptyString => EmptyString
  | String c r =>
      if RuneSelf <=? byte c then TrimFuncIsSpace s
      else if asciiSpace c then TrimSpace r
      else trim_right_rev (rev (list_ascii_of_string s))
  end.

(** ASCII fast path of [strings.Fields]: [field] is the field being read
    ([s[fieldStart:i]]), [acc] the fields already stored. *)
Fixpoint fields_ascii (s : string) (field : string) (acc : list string)
  : list string :=
  match s with
  | EmptyString =>
      if String.eqb field "" then acc else acc ++ [field]
  | String c r =>
      if asciiSpace c then
        if String.eqb field "" then fields_ascii r "" acc
        else fields_ascii r "" (acc ++ [field])
      else fields_ascii r (field +:+ String c EmptyString) acc
  end.

(** [strings.Fields] *)
Definition Fields `{Unicode} (s : string) : list string :=
  if all_bytes (fun c => byte c <? RuneSelf) s
  then fields_ascii s "" []
  else FieldsFuncIsSpace s.

(** ** Further functions of package strings *)

(** [s[:i]] for [0 <= i <= len(s)]. *)
Definition slice_to (s : string) (i : Z) : string :=
  String.substring 0 (Z.to_nat i) s.

(** [strings.IndexByte], to which [strings.Index(s, substr)] reduces for
    a one-byte [substr]: the first position of [c] in [s], or -1. *)
Fixpoint IndexByte (s : string) (c : ascii) : Z :=
  match s with
  | EmptyString => -1
  | String a r =>
      if Ascii.eqb a c then 0
      else let j := IndexByte r c in if j <? 0 then -1 else j + 1
  end.

(** The search loop of [strings.LastIndex] for a [substr] of [n] bytes,
    [n >= 2]: the positions [i = k - 1, ..., 0] are tried from the right
    and the first with [s[i:i+n] == substr] is returned.  (Go keeps a
    rolling hash of [s[i:i+n]] and compares the strings only when the
    hashes agree; equal strings have equal hashes, so the hash skips
    nothing but comparisons that fail.) *)
Fixpoint LastIndex_from (s substr : string) (k : nat) : Z :=
  match k with
  | O => -1
  | S i =>
      if String.eqb (String.substring i (String.length substr) s) substr
      then Z.of_nat i
      else LastIndex_from s substr i
  end.

(** [strings.LastIndex(s, substr)]. *)
Definition LastIndex (s substr : string) : Z :=
  let n := String.length substr in
  match n with
  | O => len s
  | S O =>
      match substr with
      | String c _ => LastIndexByte s c
      | EmptyString => -1
      end
  | _ =>
      if (n =? String.length s)%nat then
        if String.eqb substr s then 0 else -1
      else if (String.length s <? n)%nat then -1
      else LastIndex_from s substr (String.length s - n + 1)
  end.

(** [strings.Count(s, substr)] for a one-byte [substr]. *)
Fixpoint CountByte (s : string) (c : ascii) : nat :=
  match s with
  | EmptyString => O
  | String a r => if Ascii.eqb a c then S (CountByte r c) else CountByte r c
  end.

(** The loop of [genSplit] for a one-byte separator:
    [for i < n { m := Index(s, sep); if m < 0 { break };
                 a[i] = s[:m]; s = s[m+1:]; i++ }; a[i] = s].
    [fuel] is [n - i], the slots left before the last one. *)
Fixpoint genSplit_loop (fuel : nat) (s : string) (sep : ascii)
  (a : list string) : list string :=
  match fuel with
  | O => a ++ [s]
  | S fuel' =>
      let m := IndexByte s sep in
      if m <? 0 then a ++ [s]
      else genSplit_loop fuel' (slice_from s (m + 1)) sep (a ++ [slice_to s m])
  end.

(** [strings.Split(s, sep)] for a one-byte [sep]: [n] is
    [Count(s, sep) + 1] and the loop fills [n - 1] slots. *)
Definition SplitByte (s : string) (sep : ascii) : list string :=
  genSplit_loop (CountByte s sep) s sep [].


End GoStd.

(* ===================================================================== *)
(** * pkg/sidecar/discovery                                               *)
(* ===================================================================== *)

Module Discovery.
Import GoStd.

(** The errors of [ParseBrokerIDFromHostname], one constructor for each
    [fmt.Errorf] of the source, with the values it formats. *)
Inductive error :=
| ErrNoHyphen (hostname : string)
    (* "invalid hostname format (no hyphen): %s" *)
| ErrTrailingHyphen (hostname : string)
    (* "invalid hostname format (trailing hyphen): %s" *)
| ErrParseIndex (hostname : string) (cause : NumError)
    (* "failed to parse replica index from hostname %s: %w" *).

(** The conversion [int32(x)] of an [int64]: the low 32 bits, signed. *)
Definition int32 (x : Z) : Z := (x + 2 ^ 31) mod 2 ^ 32 - 2 ^ 31.

(** [ParseBrokerIDFromHostname] *)
Definition ParseBrokerIDFromHostname (hostname : string) : result error Z :=
  let lastHyphen := LastIndexByte hostname "-" in
  if lastHyphen =? -1 then Err (ErrNoHyphen hostname)
  else if lastHyphen =? len hostname - 1 then Err (ErrTrailingHyphen hostname)
  else
    let indexStr := slice_from hostname (lastHyphen + 1) in
    match ParseInt indexStr 10 32 with
    | (_, Some err) => Err (ErrParseIndex hostname err)
    | (index, None) => Ok (int32 index)
    end.

(** [fmt.Sprintf("replica-%d.%s.%s.%s.cpln.local:%d", i, workloadName,
    location, gvcName, port)] *)
Definition replicaAddress (workloadName location gvcName : string)
  (port i : Z) : string :=
  "replica-" +:+ FormatInt i +:+ "." +:+ workloadName +:+ "." +:+ location
  +:+ "." +:+ gvcName +:+ ".cpln.local:" +:+ FormatInt port.

(** The loop [for i := 0; i < replicaCount; i++ { servers[i] = ... }];
    [fuel] bounds the number of iterations still to run. *)
Fixpoint fillServers (workloadName location gvcName : string) (port : Z)
  (replicaCount : Z) (fuel : nat) (i : Z) (servers : list string)
  : list string :=
  match fuel with
  | O => servers
  | S fuel' =>
      if i <? replicaCount then
        fillServers workloadName location gvcName port replicaCount fuel'
          (i + 1)
          (<[Z.to_nat i := replicaAddress workloadName location gvcName port i]>
             servers)
      else servers
  end.

(** [BuildBootstrapServers]; [make([]string, replicaCount)] is taken to
    succeed, memory not being modelled. *)
Definition BuildBootstrapServers (workloadName location gvcName : string)
  (replicaCount port : Z) : string :=
  let replicaCount := if replicaCount <=? 0 then 1 else replicaCount in
  let servers := replicate (Z.to_nat replicaCount) EmptyString in
  let servers :=
    fillServers workloadName location gvcName port replicaCount
      (Z.to_nat replicaCount) 0 servers in
  Join servers ",".

(** ** Discovery from the environment *)

(** [os.Getenv]: the value of a variable, empty when it is not set. *)
Definition Env : Type := string -> string.

(** The errors of the [Discover...] functions and of
    [ParseWorkloadNameFromLink]. *)
Inductive discoverError :=
| ErrEnvNotSet (variable : string)
    (* "<variable> environment variable not set" *)
| ErrBrokerID (cause : error)
| ErrMissingWorkload (link : string)
    (* "invalid CPLN_WORKLOAD format (missing /workload/): %s" *)
| ErrEmptyWorkload (link : string)
    (* "invalid CPLN_WORKLOAD format (empty workload name): %s" *).

(** [DiscoverBrokerID] *)
Definition DiscoverBrokerID (getenv : Env) : result discoverError Z :=
  let hostname := getenv "HOSTNAME" in
  if String.eqb hostname "" then Err (ErrEnvNotSet "HOSTNAME")
  else
    match ParseBrokerIDFromHostname hostname with
    | Ok id => Ok id
    | Err e => Err (ErrBrokerID e)
    end.

(** [ParseWorkloadNameFromLink] *)
Definition ParseWorkloadNameFromLink (link : string)
  : result discoverError string :=
  let prefix := "/workload/" in
  let idx := LastIndex link prefix in
  if idx =? -1 then Err (ErrMissingWorkload link)
  else
    let name := slice_from link (idx + len prefix) in
    if String.eqb name "" then Err (ErrEmptyWorkload link)
    else
      (* Remove any trailing path segments *)
      let slashIdx := IndexByte name "/" in
      if negb (slashIdx =? -1) then Ok (slice_to name slashIdx) else Ok name.

(** [DiscoverWorkloadName] *)
Definition DiscoverWorkloadName (getenv : Env) : result discoverError string :=
  let cplnWorkload := getenv "CPLN_WORKLOAD" in
  if String.eqb cplnWorkload "" then Err (ErrEnvNotSet "CPLN_WORKLOAD")
  else ParseWorkloadNameFromLink cplnWorkload.

(** [DiscoverGvcAlias] *)
Definition DiscoverGvcAlias (getenv : Env) : result discoverError string :=
  let gvcAlias := getenv "CPLN_GVC_ALIAS" in
  if String.eqb gvcAlias "" then Err (ErrEnvNotSet "CPLN_GVC_ALIAS")
  else Ok gvcAlias.

(** [DiscoverGvcName] *)
Definition DiscoverGvcName (getenv : Env) : result discoverError string :=
  let gvcName := getenv "CPLN_GVC" in
  if String.eqb gvcName "" then Err (ErrEnvNotSet "CPLN_GVC")
  else Ok gvcName.

(** [DiscoverLocation] *)
Definition DiscoverLocation (getenv : Env) : result discoverError string :=
  let location := getenv "CPLN_LOCATION" in
  if String.eqb location "" then Err (ErrEnvNotSet "CPLN_LOCATION")
  else Ok (slice_from location (LastIndexByte location "/" + 1)).


End Discovery.

(* ===================================================================== *)
(** * pkg/sidecar/health                                                  *)
(* ===================================================================== *)

Module Health.
Import GoStd.

(** ** The administrative client (franz-go [kadm]) at its interface

    The records keep the fields the sidecar reads.  Broker IDs and
    partition numbers are [int32]; Go maps are [gmap]s; a Go [error] is
    represented by its message, [None] being nil. *)

Record BrokerDetail := mkBroker { NodeID : Z }.

Record PartitionDetail := mkPartition {
  Partition : Z;
  Replicas : list Z;
  ISR : list Z
}.

Record TopicDetail := mkTopic {
  Partitions : gmap Z PartitionDetail
}.

Record MetadataT := mkMetadata {
  Controller : Z;
  Brokers : list BrokerDetail;
  Topics : gmap string TopicDetail
}.

Record DescribedLogDirPartition := mkLogDirPartition {
  LogTopic : string;
  LogPartition : Z;
  IsFuture : bool
}.

Record DescribedLogDir := mkLogDir {
  Dir : string;
  DirErr : option string;
  DirTopics : gmap string (gmap Z DescribedLogDirPartition)
}.

(** [range] over a Go map visits every entry once, in an order the
    language leaves open; [map_to_list] fixes one such order. *)
Definition range_map {K A} `{Countable K} (m : gmap K A) : list (K * A) :=
  map_to_list m.

(** The loop of [kadm.DescribedLogDirs.Error]:
    [for _, d := range ds { if d.Err != nil { return d.Err } }; return nil]. *)
Fixpoint firstDirErr (l : list (string * DescribedLogDir)) : option string :=
  match l with
  | [] => None
  | (_, d) :: r =>
      match DirErr d with
      | Some e => Some e
      | None => firstDirErr r
      end
  end.

(** [kadm.DescribedLogDirs.Error]: the first directory error met while
    ranging over the directories, nil if there is none. *)
Definition DescribedLogDirs_Error (ds : gmap string DescribedLogDir)
  : option string :=
  firstDirErr (range_map ds).

(** [kadm.DescribedLogDirs.EachPartition]: calls [fn] for every partition
    of every topic of every directory.  The callback of the source
    updates a captured variable; here [fn] threads that state. *)
Definition DescribedLogDirs_EachPartition {S : Type}
  (ds : gmap string DescribedLogDir)
  (fn : DescribedLogDirPartition -> S -> S) (s : S) : S :=
  fold_left (fun s '(_, d) =>
    fold_left (fun s '(_, ps) =>
      fold_left (fun s '(_, p) => fn p s) (range_map ps) s)
      (range_map (DirTopics d)) s)
    (range_map ds) s.

(** Calls received by the client, in order.  [CallCleanup] is the
    release function the factory hands out with the client. *)
Inductive Call :=
| CallMetadata
| CallDescribeBrokerLogDirs (broker : Z)
| CallCleanup.

#[global] Instance Call_eq_dec : EqDecision Call.
Proof. solve_decision. Defined.

(** [KafkaAdminClient]: the two operations of the interface.  What a
    client answers may depend on the calls it has received before (a
    fake may count calls, a live cluster changes). *)
Record KafkaAdminClient := mkClient {
  Metadata : list Call -> result string MetadataT;
  DescribeBrokerLogDirs :
    list Call -> Z -> result string (gmap string DescribedLogDir)
}.

(** Computations that talk to the client: the state is the call log. *)
Definition M (A : Type) : Type := list Call -> A * list Call.

Definition ret {A} (a : A) : M A := fun log => (a, log).

Definition bind {A B} (m : M A) (k : A -> M B) : M B :=
  fun log => let '(a, log') := m log in k a log'.

#[global] Instance M_ret : MRet M := @ret.
#[global] Instance M_bind : MBind M := fun A B k m => bind m k.

Definition run {A} (m : M A) : A * list Call := m [].

(** [adm.Metadata(ctx)] *)
Definition callMetadata (adm : KafkaAdminClient)
  : M (result string MetadataT) :=
  fun log => (Metadata adm log, log ++ [CallMetadata]).

(** [adm.DescribeBrokerLogDirs(ctx, broker, nil)] *)
Definition callDescribeBrokerLogDirs (adm : KafkaAdminClient) (broker : Z)
  : M (result string (gmap string DescribedLogDir)) :=
  fun log => (DescribeBrokerLogDirs adm log broker,
              log ++ [CallDescribeBrokerLogDirs broker]).

(** The deferred [cleanup()]. *)
Definition callCleanup : M unit := fun log => (tt, log ++ [CallCleanup]).

(** ** The checker *)

Record SASLConfig := mkSASL {
  Enabled : bool;
  Mechanism : string;
  Username : string;
  Password : string
}.

(** The options handed to [kgo.NewClient]. *)
Inductive Opt :=
| SeedBrokers (servers : list string)
| SASLPlain (user pass : string)
| SASLScramSha256 (user pass : string)
| SASLScramSha512 (user pass : string).

(** [ClientFactory]: a client (with its cleanup) or an error. *)
Definition ClientFactory := result string KafkaAdminClient.

(** [Checker]; the timeout and the logger have no part in the verdicts
    and are left out. *)
Record Checker := mkChecker {
  brokerID : Z;
  bootstrapServers : list string;
  saslConfig : SASLConfig;
  clientFactory : ClientFactory
}.

(** [getSASLOpt] *)
Definition getSASLOpt `{Unicode} (c : Checker) : result string Opt :=
  let mechanism := ToUpper (Mechanism (saslConfig c)) in
  if String.eqb mechanism "PLAIN" then
    Ok (SASLPlain (Username (saslConfig c)) (Password (saslConfig c)))
  else if String.eqb mechanism "SCRAM-SHA-256" then
    Ok (SASLScramSha256 (Username (saslConfig c)) (Password (saslConfig c)))
  else if String.eqb mechanism "SCRAM-SHA-512" then
    Ok (SASLScramSha512 (Username (saslConfig c)) (Password (saslConfig c)))
  else
    Err ("unsupported SASL mechanism: " +:+ mechanism
         +:+ " (supported: PLAIN, SCRAM-SHA-256, SCRAM-SHA-512)").

(** [defaultClientFactory]; [NewClient] stands for [kgo.NewClient]
    followed by [kadm.NewClient]. *)
Definition defaultClientFactory `{Unicode}
  (NewClient : list Opt -> result string KafkaAdminClient) (c : Checker)
  : ClientFactory :=
  let opts := [SeedBrokers (bootstrapServers c)] in
  let build (opts : list Opt) :=
    match NewClient opts with
    | Err e => Err ("failed to create kafka client: " +:+ e)
    | Ok adm => Ok adm
    end in
  if Enabled (saslConfig c) then
    match getSASLOpt c with
    | Err e => Err ("failed to configure SASL: " +:+ e)
    | Ok saslOpt => build (opts ++ [saslOpt])
    end
  else build opts.

(** [CheckResult] *)
Record CheckResult := mkResult {
  Healthy : bool;
  Message : string
}.

(** The loop [for _, x := range xs { if x == id { found = true; break } }] *)
Fixpoint containsID (xs : list Z) (id : Z) : bool :=
  match xs with
  | [] => false
  | x :: r => if x =? id then true else containsID r id
  end.

(** The loop of [BrokerInMetadata] over [metadata.Brokers]. *)
Fixpoint brokerListed (bs : list BrokerDetail) (id : Z) : bool :=
  match bs with
  | [] => false
  | b :: r => if NodeID b =? id then true else brokerListed r id
  end.

(** [BrokerInMetadata] *)
Definition BrokerInMetadata (c : Checker) (adm : KafkaAdminClient)
  : M (bool * option string) :=
  r ← callMetadata adm;
  match r with
  | Err e => ret (false, Some ("failed to fetch metadata: " +:+ e))
  | Ok metadata => ret (brokerListed (Brokers metadata) (brokerID c), None)
  end.

(** [ControllerElected] *)
Definition ControllerElected (c : Checker) (adm : KafkaAdminClient)
  : M (bool * option string) :=
  r ← callMetadata adm;
  match r with
  | Err e => ret (false, Some ("failed to fetch metadata: " +:+ e))
  | Ok metadata => ret (Controller metadata >=? 0, None)
  end.

(** Body of the inner loop of [UnderReplicatedPartitions] for one
    partition; the counter is a Go [int] and cannot overflow, there being
    fewer partitions than addressable memory. *)
Definition countPartition (id : Z) (partition : PartitionDetail)
  (underReplicated : Z) : Z :=
  let isReplica := containsID (Replicas partition) id in
  if negb isReplica then underReplicated
  else
    let inISR := containsID (ISR partition) id in
    if negb inISR then underReplicated + 1 else underReplicated.

(** The two nested [range] loops of [UnderReplicatedPartitions]. *)
Definition countUnderReplicated (id : Z) (metadata : MetadataT) : Z :=
  fold_left (fun n '(_, topic) =>
    fold_left (fun n '(_, partition) => countPartition id partition n)
      (range_map (Partitions topic)) n)
    (range_map (Topics metadata)) 0.

(** [UnderReplicatedPartitions] *)
Definition UnderReplicatedPartitions (c : Checker) (adm : KafkaAdminClient)
  : M (Z * option string) :=
  r ← callMetadata adm;
  match r with
  | Err e => ret (-1, Some ("failed to fetch metadata: " +:+ e))
  | Ok metadata => ret (countUnderReplicated (brokerID c) metadata, None)
  end.

(** [LogDirsHealthy] *)
Definition LogDirsHealthy (c : Checker) (adm : KafkaAdminClient)
  : M (bool * option string) :=
  r ← callDescribeBrokerLogDirs adm (brokerID c);
  match r with
  | Err e => ret (false, Some ("failed to describe log dirs: " +:+ e))
  | Ok logDirs =>
      match DescribedLogDirs_Error logDirs with
      | Some _ => ret (false, None)
      | None =>
          let foundFuture :=
            DescribedLogDirs_EachPartition logDirs
              (fun p foundFuture => if IsFuture p then true else foundFuture)
              false in
          ret (negb foundFuture, None)
      end
  end.

(** ** Liveness *)

(** [LivenessResponse] *)
Record LivenessResponse := mkLiveness {
  LStatus : string;
  LBrokerID : Z;
  BrokerFound : bool;
  LErrorMessage : string
}.

Definition StatusOK : Z := 200.
Definition StatusServiceUnavailable : Z := 503.

(** [defer cleanup()]: the body runs, then the cleanup, and the value of
    the body is returned. *)
Definition withCleanup {A} (body : M A) : M A :=
  a ← body;
  _ ← callCleanup;
  ret a.

(** [LivenessHandler]; the result is the status code and the body passed
    to [web.ReturnResponseWithCode] or [web.ReturnResponse]. *)
Definition LivenessHandler (c : Checker) : M (Z * LivenessResponse) :=
  let response st found msg := mkLiveness st (brokerID c) found msg in
  match clientFactory c with
  | Err e => ret (StatusServiceUnavailable, response "unhealthy" false e)
  | Ok adm =>
      withCleanup (
        '(brokerFound, err) ← BrokerInMetadata c adm;
        match err with
        | Some e => ret (StatusServiceUnavailable, response "unhealthy" false e)
        | None =>
            if negb brokerFound then
              ret (StatusServiceUnavailable,
                   response "unhealthy" brokerFound
                     "broker not found in cluster metadata")
            else ret (StatusOK, response "healthy" brokerFound "")
        end)
  end.

(** [CheckLiveness] *)
Definition CheckLiveness (c : Checker) : M CheckResult :=
  match clientFactory c with
  | Err e => ret (mkResult false e)
  | Ok adm =>
      withCleanup (
        '(brokerFound, err) ← BrokerInMetadata c adm;
        match err with
        | Some e => ret (mkResult false e)
        | None =>
            if negb brokerFound then
              ret (mkResult false "broker not found in cluster metadata")
            else ret (mkResult true "")
        end)
  end.

(** ** Readiness *)

(** [ReadinessResponse] *)
Record ReadinessResponse := mkReadiness {
  RStatus : string;
  RBrokerID : Z;
  BrokerRegistered : bool;
  RControllerElected : bool;
  RUnderReplicatedPartitions : Z;
  RLogDirsHealthy : bool;
  RErrorMessage : string
}.

(** [ReadinessHandler]; the fields of [response] not yet assigned keep
    their zero values. *)
Definition ReadinessHandler (c : Checker) : M (Z * ReadinessResponse) :=
  let unhealthy reg ctl urp ld msg :=
    (StatusServiceUnavailable,
     mkReadiness "unhealthy" (brokerID c) reg ctl urp ld msg) in
  match clientFactory c with
  | Err e => ret (unhealthy false false 0 false e)
  | Ok adm =>
      withCleanup (
        (* Check 1: Broker registered in cluster metadata *)
        '(brokerRegistered, err) ← BrokerInMetadata c adm;
        match err with
        | Some e => ret (unhealthy false false 0 false e)
        | None =>
        if negb brokerRegistered then
          ret (unhealthy brokerRegistered false 0 false
                 "broker not registered in cluster metadata")
        else
        (* Check 2: Controller elected *)
        '(controllerElected, err) ← ControllerElected c adm;
        match err with
        | Some e => ret (unhealthy brokerRegistered false 0 false e)
        | None =>
        if negb controllerElected then
          ret (unhealthy brokerRegistered controllerElected 0 false
                 "no controller elected")
        else
        (* Check 3: Zero under-replicated partitions *)
        '(underReplicated, err) ← UnderReplicatedPartitions c adm;
        match err with
        | Some e => ret (unhealthy brokerRegistered controllerElected 0 false e)
        | None =>
        if underReplicated >? 0 then
          ret (unhealthy brokerRegistered controllerElected underReplicated
                 false "broker has under-replicated partitions")
        else
        (* Check 4: Log directories healthy *)
        '(logDirsHealthy, err) ← LogDirsHealthy c adm;
        match err with
        | Some e =>
            ret (unhealthy brokerRegistered controllerElected underReplicated
                   false e)
        | None =>
        if negb logDirsHealthy then
          ret (unhealthy brokerRegistered controllerElected underReplicated
                 logDirsHealthy
                 "log directories unhealthy (future partitions detected)")
        else
          ret (StatusOK,
               mkReadiness "healthy" (brokerID c) brokerRegistered
                 controllerElected underReplicated logDirsHealthy "")
        end end end end)
  end.

(** [CheckReadiness] *)
Definition CheckReadiness (c : Checker) : M CheckResult :=
  match clientFactory c with
  | Err e => ret (mkResult false e)
  | Ok adm =>
      withCleanup (
        (* Check 1: Broker registered *)
        '(brokerRegistered, err) ← BrokerInMetadata c adm;
        match err with
        | Some e => ret (mkResult false e)
        | None =>
        if negb brokerRegistered then
          ret (mkResult false "broker not registered in cluster metadata")
        else
        (* Check 2: Controller elected *)
        '(controllerElected, err) ← ControllerElected c adm;
        match err with
        | Some e => ret (mkResult false e)
        | None =>
        if negb controllerElected then
          ret (mkResult false "no controller elected")
        else
        (* Check 3: No under-replicated partitions *)
        '(underReplicated, err) ← UnderReplicatedPartitions c adm;
        match err with
        | Some e => ret (mkResult false e)
        | None =>
        if underReplicated >? 0 then
          ret (mkResult false "broker has under-replicated partitions")
        else
        (* Check 4: Log dirs healthy *)
        '(logDirsHealthy, err) ← LogDirsHealthy c adm;
        match err with
        | Some e => ret (mkResult false e)
        | None =>
        if negb logDirsHealthy then
          ret (mkResult false "log directories unhealthy")
        else ret (mkResult true "")
        end end end end)
  end.

(** A fake client in the manner of the tests' [MockKafkaAdminClient]:
    every call answers with the same metadata and the same log-directory
    result. *)
Definition fakeClient (metadata : result string MetadataT)
  (logDirs : result string (gmap string DescribedLogDir))
  : KafkaAdminClient :=
  mkClient (fun _ => metadata) (fun _ _ => logDirs).

(** ** Construction *)

(** [NewChecker]: the server list is split at the commas and every
    entry trimmed; the client factory is the default one ([NewClient]
    standing for the franz-go constructors, as in
    [defaultClientFactory], which reads the servers and the SASL
    configuration of the checker and nothing else). *)
Definition NewChecker `{Unicode}
  (NewClient : list Opt -> result string KafkaAdminClient)
  (brokerID : Z) (bootstrapServers : string) (saslConfig : SASLConfig)
  : Checker :=
  let servers := SplitByte bootstrapServers "," in
  let servers := TrimSpace <$> servers in
  let c := mkChecker brokerID servers saslConfig (Err "") in
  mkChecker brokerID servers saslConfig (defaultClientFactory NewClient c).

(** [SetClientFactory] *)
Definition SetClientFactory (c : Checker) (factory : ClientFactory) : Checker :=
  mkChecker (brokerID c) (bootstrapServers c) (saslConfig c) factory.


End Health.

(* ===================================================================== *)
(** * pkg/sidecar/metrics                                                 *)
(* ===================================================================== *)

Module Metrics.
Import GoStd.

(** ** float64

    IEEE 754 binary64 (precision 53, maximal exponent 1024) as given by
    the reference implementation [SpecFloat] of the standard library. *)
Definition float64 : Type := spec_float.

(** The zero value of a [float64] field. *)
Definition float64_zero : float64 := S754_zero false.

(** The conversion [float64(x)] of a [uint64], rounding to nearest even. *)
Definition float64_of_uint64 (x : Z) : float64 :=
  binary_normalize 53 1024 x 0 false.

(** [x / y] on [float64]. *)
Definition float64_div (x y : float64) : float64 := SFdiv 53 1024 x y.

(** [MemoryMetrics]; the integer fields are [uint64]. *)
Record MemoryMetrics := mkMetrics {
  Usage : Z;
  Limit : Z;
  RSS : Z;
  InactiveFile : Z;
  WorkingSet : Z;
  OOMRatio : float64;
  OOMFloorRatio : float64
}.

(** The errors a read can return: an error of the operating system (by
    its message), an error of strconv, or one of these wrapped by
    [fmt.Errorf(prefix + ": %w", err)]. *)
Inductive error :=
| OsError (msg : string)
| ParseError (e : NumError)
| Wrapped (prefix : string) (cause : error).

(** The files as the reader sees them.  [ReadFile] is [os.ReadFile].
    [ScanFile] is [os.Open] followed by a [bufio.Scanner] run to its end:
    an error of [Open], or else the lines [scanner.Text()] yields
    together with the final [scanner.Err()]. *)
Record OS := mkOS {
  ReadFile : string -> result string string;
  ScanFile : string -> result string (list string * option string)
}.

(** [readUint64FromFile]; the pair is Go's (value, error). *)
Definition readUint64FromFile `{Unicode} (os : OS) (path : string)
  : Z * option error :=
  match ReadFile os path with
  | Err e => (0, Some (OsError e))
  | Ok data =>
      let value := TrimSpace data in
      (* Handle "max" value which indicates no limit *)
      if String.eqb value "max" then (0, None)
      else
        match ParseUint value 10 64 with
        | (v, None) => (v, None)
        | (v, Some e) => (v, Some (ParseError e))
        end
  end.

(** Body of the scanner loop of [readMemoryStat] for one line. *)
Definition statLine `{Unicode} (stats : gmap string Z) (line : string)
  : gmap string Z :=
  match Fields line with
  | [key; val] =>
      match ParseUint val 10 64 with
      | (value, None) => <[key := value]> stats
      | (_, Some _) => stats
      end
  | _ => stats
  end.

(** [stats[key]]: a missing key reads as the zero value. *)
Definition stat (stats : gmap string Z) (key : string) : Z :=
  default 0 (stats !! key).

(** The zero value [&MemoryMetrics{}]. *)
Definition zeroMetrics : MemoryMetrics :=
  mkMetrics 0 0 0 0 0 float64_zero float64_zero.

(** Field assignments [metrics.F = v]. *)
Definition setUsage (v : Z) (m : MemoryMetrics) : MemoryMetrics :=
  mkMetrics v (Limit m) (RSS m) (InactiveFile m) (WorkingSet m)
    (OOMRatio m) (OOMFloorRatio m).
Definition setLimit (v : Z) (m : MemoryMetrics) : MemoryMetrics :=
  mkMetrics (Usage m) v (RSS m) (InactiveFile m) (WorkingSet m)
    (OOMRatio m) (OOMFloorRatio m).
Definition setRSS (v : Z) (m : MemoryMetrics) : MemoryMetrics :=
  mkMetrics (Usage m) (Limit m) v (InactiveFile m) (WorkingSet m)
    (OOMRatio m) (OOMFloorRatio m).
Definition setInactiveFile (v : Z) (m : MemoryMetrics) : MemoryMetrics :=
  mkMetrics (Usage m) (Limit m) (RSS m) v (WorkingSet m)
    (OOMRatio m) (OOMFloorRatio m).
Definition setWorkingSet (v : Z) (m : MemoryMetrics) : MemoryMetrics :=
  mkMetrics (Usage m) (Limit m) (RSS m) (InactiveFile m) v
    (OOMRatio m) (OOMFloorRatio m).
Definition setOOMRatio (v : float64) (m : MemoryMetrics) : MemoryMetrics :=
  mkMetrics (Usage m) (Limit m) (RSS m) (InactiveFile m) (WorkingSet m)
    v (OOMFloorRatio m).
Definition setOOMFloorRatio (v : float64) (m : MemoryMetrics) : MemoryMetrics :=
  mkMetrics (Usage m) (Limit m) (RSS m) (InactiveFile m) (WorkingSet m)
    (OOMRatio m) v.

Module V1.

(** [CgroupV1Reader] *)
Record CgroupV1Reader := mkReader { basePath : string }.

(** [CgroupV1Reader.readMemoryStat] *)
Definition readMemoryStat `{Unicode} (os : OS) (r : CgroupV1Reader)
  : result error (gmap string Z) :=
  let statPath := basePath r +:+ "/memory.stat" in
  match ScanFile os statPath with
  | Err e => Err (OsError e)
  | Ok (lines, scanErr) =>
      let stats := fold_left statLine lines ∅ in
      match scanErr with
      | Some e => Err (OsError e)
      | None => Ok stats
      end
  end.

(** [CgroupV1Reader.ReadMemoryMetrics] *)
Definition ReadMemoryMetrics `{Unicode} (os : OS) (r : CgroupV1Reader)
  : result error MemoryMetrics :=
  let metrics := zeroMetrics in
  let usagePath := basePath r +:+ "/memory.usage_in_bytes" in
  let limitPath := basePath r +:+ "/memory.limit_in_bytes" in
  (* Read usage *)
  match readUint64FromFile os usagePath with
  | (_, Some err) => Err (Wrapped "failed to read memory usage" err)
  | (usage, None) =>
  let metrics := setUsage usage metrics in
  (* Read limit *)
  match readUint64FromFile os limitPath with
  | (_, Some err) => Err (Wrapped "failed to read memory limit" err)
  | (limit, None) =>
  let metrics := setLimit limit metrics in
  (* Read stats (rss and inactive_file) *)
  match readMemoryStat os r with
  | Err err => Err (Wrapped "failed to read memory stat" err)
  | Ok stats =>
  let metrics := setRSS (stat stats "rss") metrics in
  let metrics := setInactiveFile (stat stats "inactive_file") metrics in
  (* Calculate derived metrics *)
  let metrics :=
    if Usage metrics >=? InactiveFile metrics
    then setWorkingSet ((Usage metrics - InactiveFile metrics) mod 2 ^ 64) metrics
    else metrics in
  let metrics :=
    if Limit metrics >? 0 then
      let metrics :=
        setOOMRatio (float64_div (float64_of_uint64 (WorkingSet metrics))
                                 (float64_of_uint64 (Limit metrics))) metrics in
      setOOMFloorRatio (float64_div (float64_of_uint64 (RSS metrics))
                                    (float64_of_uint64 (Limit metrics))) metrics
    else metrics in
  Ok metrics
  end end end.

Definition defaultCgroupV1BasePath : string := "/sys/fs/cgroup/memory".

(** [NewCgroupV1Reader] *)
Definition NewCgroupV1Reader : CgroupV1Reader :=
  mkReader defaultCgroupV1BasePath.

(** [NewCgroupV1ReaderWithBasePath] *)
Definition NewCgroupV1ReaderWithBasePath (basePath : string) : CgroupV1Reader :=
  mkReader basePath.


End V1.

Module V2.

(** [CgroupV2Reader] *)
Record CgroupV2Reader := mkReader { basePath : string }.

(** [CgroupV2Reader.readMemoryStat] *)
Definition readMemoryStat `{Unicode} (os : OS) (r : CgroupV2Reader)
  : result error (gmap string Z) :=
  let statPath := basePath r +:+ "/memory.stat" in
  match ScanFile os statPath with
  | Err e => Err (OsError e)
  | Ok (lines, scanErr) =>
      let stats := fold_left statLine lines ∅ in
      match scanErr with
      | Some e => Err (OsError e)
      | None => Ok stats
      end
  end.

(** [CgroupV2Reader.ReadMemoryMetrics] *)
Definition ReadMemoryMetrics `{Unicode} (os : OS) (r : CgroupV2Reader)
  : result error MemoryMetrics :=
  let metrics := zeroMetrics in
  let usagePath := basePath r +:+ "/memory.current" in
  let limitPath := basePath r +:+ "/memory.max" in
  (* Read usage (memory.current) *)
  match readUint64FromFile os usagePath with
  | (_, Some err) => Err (Wrapped "failed to read memory.current" err)
  | (usage, None) =>
  let metrics := setUsage usage metrics in
  (* Read limit (memory.max) *)
  match readUint64FromFile os limitPath with
  | (_, Some err) => Err (Wrapped "failed to read memory.max" err)
  | (limit, None) =>
  let metrics := setLimit limit metrics in
  (* Read stats (anon -> rss, inactive_file) *)
  match readMemoryStat os r with
  | Err err => Err (Wrapped "failed to read memory.stat" err)
  | Ok stats =>
  (* In cgroup v2, "anon" is the equivalent of RSS (anonymous memory) *)
  let metrics := setRSS (stat stats "anon") metrics in
  let metrics := setInactiveFile (stat stats "inactive_file") metrics in
  (* Calculate derived metrics *)
  let metrics :=
    if Usage metrics >=? InactiveFile metrics
    then setWorkingSet ((Usage metrics - InactiveFile metrics) mod 2 ^ 64) metrics
    else metrics in
  let metrics :=
    if Limit metrics >? 0 then
      let metrics :=
        setOOMRatio (float64_div (float64_of_uint64 (WorkingSet metrics))
                                 (float64_of_uint64 (Limit metrics))) metrics in
      setOOMFloorRatio (float64_div (float64_of_uint64 (RSS metrics))
                                    (float64_of_uint64 (Limit metrics))) metrics
    else metrics in
  Ok metrics
  end end end.

Definition defaultCgroupV2BasePath : string := "/sys/fs/cgroup".

(** [NewCgroupV2Reader] *)
Definition NewCgroupV2Reader : CgroupV2Reader :=
  mkReader defaultCgroupV2BasePath.

(** [NewCgroupV2ReaderWithBasePath] *)
Definition NewCgroupV2ReaderWithBasePath (basePath : string) : CgroupV2Reader :=
  mkReader basePath.


End V2.

(** ** cgroup.go *)

Inductive CgroupVersion := CgroupUnknown | CgroupV1 | CgroupV2.

(** The interface [CgroupReader].  A value of it is a reader of one of
    the package's two types, or a value of another type that has the
    method (the mock readers of the tests), given by that method. *)
Inductive CgroupReader :=
| ReaderV1 (r : V1.CgroupV1Reader)
| ReaderV2 (r : V2.CgroupV2Reader)
| ReaderOther (read : OS -> result error MemoryMetrics).

(** The method call [reader.ReadMemoryMetrics()]. *)
Definition ReadMemoryMetrics `{Unicode} (os : OS) (reader : CgroupReader)
  : result error MemoryMetrics :=
  match reader with
  | ReaderV1 r => V1.ReadMemoryMetrics os r
  | ReaderV2 r => V2.ReadMemoryMetrics os r
  | ReaderOther read => read os
  end.

(** [DetectCgroupVersion].  [Stat path] is the error of [os.Stat(path)],
    [None] for nil. *)
Definition DetectCgroupVersion (Stat : string -> option string)
  : CgroupVersion :=
  (* Check for cgroup v2 first (unified hierarchy) *)
  match Stat "/sys/fs/cgroup/memory.current" with
  | None => CgroupV2
  | Some _ =>
      (* Check for cgroup v1 *)
      match Stat "/sys/fs/cgroup/memory/memory.usage_in_bytes" with
      | None => CgroupV1
      | Some _ => CgroupUnknown
      end
  end.

(** [NewCgroupReader] *)
Definition NewCgroupReader (Stat : string -> option string) : CgroupReader :=
  let version := DetectCgroupVersion Stat in
  match version with
  | CgroupV1 => ReaderV1 V1.NewCgroupV1Reader
  | CgroupV2 => ReaderV2 V2.NewCgroupV2Reader
  | CgroupUnknown => ReaderV2 V2.NewCgroupV2Reader
  end.

(** ** prometheus.go *)

Definition namespace : string := "kafka".
Definition subsystem : string := "memory".

(** [prometheus.BuildFQName]: the non-empty parts joined by "_", and the
    empty string when the name is empty. *)
Definition BuildFQName (namespace subsystem name : string) : string :=
  if String.eqb name "" then ""
  else
    let sb := "" in
    let sb := if negb (String.eqb namespace "")
              then sb +:+ namespace +:+ "_" else sb in
    let sb := if negb (String.eqb subsystem "")
              then sb +:+ subsystem +:+ "_" else sb in
    sb +:+ name.

(** The error [prometheus.NewDesc] records in a descriptor. *)
Inductive descError := NotValidMetricName (fqName : string).

(** [prometheus.Desc], as far as a descriptor without labels has it. *)
Record Desc := mkDesc {
  fqName : string;
  help : string;
  descErr : option descError
}.

(** [prometheus.NewDesc(fqName, help, nil, nil)].  Which names are valid
    is the library's configuration ([IsValidMetricName]). *)
Definition NewDesc (IsValidMetricName : string -> bool)
  (fqName help : string) : Desc :=
  if IsValidMetricName fqName then mkDesc fqName help None
  else mkDesc fqName help (Some (NotValidMetricName fqName)).

Inductive ValueType := CounterValue | GaugeValue | UntypedValue.

(** A constant metric: what [prometheus.NewConstMetric] keeps. *)
Record Metric := mkMetric {
  desc : Desc;
  valType : ValueType;
  val : float64
}.

(** [prometheus.MustNewConstMetric(desc, valueType, value)] without label
    values; [Err] is a panic. *)
Definition MustNewConstMetric (desc : Desc) (valueType : ValueType)
  (value : float64) : result descError Metric :=
  match descErr desc with
  | Some err => Err err
  | None => Ok (mkMetric desc valueType value)
  end.

(** [Collector] *)
Record Collector := mkCollector {
  reader : CgroupReader;
  usageDesc : Desc;
  limitDesc : Desc;
  rssDesc : Desc;
  inactiveFileDesc : Desc;
  workingSetDesc : Desc;
  nonReclaimableDesc : Desc;
  oomRatioDesc : Desc;
  oomFloorRatioDesc : Desc
}.

(** [NewCollectorWithReader] *)
Definition NewCollectorWithReader (IsValidMetricName : string -> bool)
  (reader : CgroupReader) : Collector :=
  let NewDesc := NewDesc IsValidMetricName in
  mkCollector reader
    (NewDesc (BuildFQName namespace subsystem "usage_bytes")
       "Total memory usage in bytes")
    (NewDesc (BuildFQName namespace subsystem "limit_bytes")
       "Memory limit in bytes (container limit)")
    (NewDesc (BuildFQName namespace subsystem "rss_bytes")
       "Resident set size (non-reclaimable memory) in bytes")
    (NewDesc (BuildFQName namespace subsystem "inactive_file_bytes")
       "Inactive file (reclaimable page cache) in bytes")
    (NewDesc (BuildFQName namespace subsystem "working_set_bytes")
       "Working set (usage - inactive_file) in bytes")
    (NewDesc (BuildFQName namespace subsystem "non_reclaimable_bytes")
       "Non-reclaimable memory (RSS only) in bytes")
    (NewDesc (BuildFQName namespace subsystem "oom_ratio")
       "OOM ratio (working_set / limit)")
    (NewDesc (BuildFQName namespace subsystem "oom_floor_ratio")
       "OOM floor ratio (rss / limit)").

(** [NewCollector] *)
Definition NewCollector (IsValidMetricName : string -> bool)
  (Stat : string -> option string) : Collector :=
  let reader := NewCgroupReader Stat in
  NewCollectorWithReader IsValidMetricName reader.

(** [Collector.Describe]: the descriptors sent on the channel, in order. *)
Definition Describe (c : Collector) : list Desc :=
  [usageDesc c; limitDesc c; rssDesc c; inactiveFileDesc c;
   workingSetDesc c; nonReclaimableDesc c; oomRatioDesc c;
   oomFloorRatioDesc c].

(** The statements [ch <- prometheus.MustNewConstMetric(...)] in a row:
    the metrics sent, and the panic that ended the row, if any. *)
Fixpoint sendAll (ms : list (result descError Metric))
  : list Metric * option descError :=
  match ms with
  | [] => ([], None)
  | Err err :: _ => ([], Some err)
  | Ok m :: rest => let '(sent, p) := sendAll rest in (m :: sent, p)
  end.

(** [Collector.Collect]: the metrics sent on the channel, in order, and
    the panic of the call, if any. *)
Definition Collect `{Unicode} (os : OS) (c : Collector)
  : list Metric * option descError :=
  match ReadMemoryMetrics os (reader c) with
  | Err _ => ([], None)
  | Ok metrics =>
      sendAll
        [MustNewConstMetric (usageDesc c) GaugeValue
           (float64_of_uint64 (Usage metrics));
         MustNewConstMetric (limitDesc c) GaugeValue
           (float64_of_uint64 (Limit metrics));
         MustNewConstMetric (rssDesc c) GaugeValue
           (float64_of_uint64 (RSS metrics));
         MustNewConstMetric (inactiveFileDesc c) GaugeValue
           (float64_of_uint64 (InactiveFile metrics));
         MustNewConstMetric (workingSetDesc c) GaugeValue
           (float64_of_uint64 (WorkingSet metrics));
         MustNewConstMetric (nonReclaimableDesc c) GaugeValue
           (float64_of_uint64 (RSS metrics));
         MustNewConstMetric (oomRatioDesc c) GaugeValue (OOMRatio metrics);
         MustNewConstMetric (oomFloorRatioDesc c) GaugeValue
           (OOMFloorRatio metrics)]
  end.


End Metrics.

(* ===================================================================== *)
(** * pkg/sidecar/types                                                   *)
(* ===================================================================== *)

Module Types.
Import GoStd Discovery.

(** [ConfigSchema]; [BrokerID] is an [int32], the other numbers are
    [int], [CheckTimeout] a [time.Duration]. *)
Record ConfigSchema := mkConfig {
  BrokerID : Z;
  WorkloadName : string;
  GvcAlias : string;
  GvcName : string;
  Location : string;
  ReplicaCount : Z;
  KafkaPort : Z;
  BootstrapServers : string;
  SASLEnabled : bool;
  SASLMechanism : string;
  SASLUsername : string;
  SASLPassword : string;
  CheckTimeout : Z;
  Port : Z;
  LogLevel : string
}.

(** The zero value [&ConfigSchema{}]. *)
Definition zeroConfig : ConfigSchema :=
  mkConfig 0 "" "" "" "" 0 0 "" false "" "" "" 0 0 "".

(** Field assignments [Config.F = v]. *)
Definition setBrokerID (v : Z) (c : ConfigSchema) : ConfigSchema :=
  mkConfig v (WorkloadName c) (GvcAlias c) (GvcName c) (Location c)
    (ReplicaCount c) (KafkaPort c) (BootstrapServers c) (SASLEnabled c)
    (SASLMechanism c) (SASLUsername c) (SASLPassword c) (CheckTimeout c)
    (Port c) (LogLevel c).

Definition setBootstrapServers (v : string) (c : ConfigSchema) : ConfigSchema :=
  mkConfig (BrokerID c) (WorkloadName c) (GvcAlias c) (GvcName c) (Location c)
    (ReplicaCount c) (KafkaPort c) v (SASLEnabled c)
    (SASLMechanism c) (SASLUsername c) (SASLPassword c) (CheckTimeout c)
    (Port c) (LogLevel c).

(** The errors [Initialize] returns: that of [config.ParseSchema], by its
    message, or that of a discovery. *)
Inductive initError :=
| SchemaError (msg : string)
| DiscoveryError (cause : discoverError).

(** [Initialize].  The result is the value of the package variable
    [Config] when the function returns, and the error returned.
    [ParseSchema] is [config.ParseSchema] of the configuration library:
    the structure it is given, as it leaves it, and its error. *)
Definition Initialize (getenv : Env)
  (ParseSchema : ConfigSchema -> ConfigSchema * option string)
  : ConfigSchema * option initError :=
  let Config := zeroConfig in
  match ParseSchema Config with
  | (Config, Some err) => (Config, Some (SchemaError err))
  | (Config, None) =>
  (* Auto-discover broker ID if BROKER_ID env var is not explicitly set *)
  match
    (if String.eqb (getenv "BROKER_ID") "" then
       match DiscoverBrokerID getenv with
       | Err err => (Config, Some err)
       | Ok brokerID => (setBrokerID brokerID Config, None)
       end
     else (Config, None))
  with
  | (Config, Some err) => (Config, Some (DiscoveryError err))
  | (Config, None) =>
  (* Auto-build bootstrap servers if not explicitly set *)
  if String.eqb (BootstrapServers Config) "" then
    (* Try to get workload name from config, or discover from CPLN_WORKLOAD *)
    let workloadName := WorkloadName Config in
    match (if String.eqb workloadName "" then DiscoverWorkloadName getenv
           else Ok workloadName) with
    | Err err => (Config, Some (DiscoveryError err))
    | Ok workloadName =>
    (* Try to get location from config, or discover from CPLN_LOCATION *)
    let location := Location Config in
    match (if String.eqb location "" then DiscoverLocation getenv
           else Ok location) with
    | Err err => (Config, Some (DiscoveryError err))
    | Ok location =>
    (* Try to get GVC name from config, or discover from CPLN_GVC *)
    let gvcName := GvcName Config in
    match (if String.eqb gvcName "" then DiscoverGvcName getenv
           else Ok gvcName) with
    | Err err => (Config, Some (DiscoveryError err))
    | Ok gvcName =>
        (setBootstrapServers
           (BuildBootstrapServers workloadName location gvcName
              (ReplicaCount Config) (KafkaPort Config))
           Config,
         None)
    end end end
  else (Config, None)
  end end.

End Types.

(* ===================================================================== *)
(** * cmd/sidecar                                                         *)
(* ===================================================================== *)

Module Main.
Import GoStd Health Types.

(** [Server], as far as [NewServer] fills it. *)
Record Server := mkServer {
  healthChecker : Checker
}.

(** [NewServer]; [Config] is the package variable [types.Config]. *)
Definition NewServer `{Unicode}
  (NewClient : list Opt -> result string KafkaAdminClient)
  (Config : ConfigSchema) : Server :=
  let saslConfig :=
    mkSASL (SASLEnabled Config) (SASLMechanism Config) (SASLUsername Config)
      (SASLPassword Config) in
  let healthChecker :=
    NewChecker NewClient (BrokerID Config) (BootstrapServers Config)
      saslConfig in
  mkServer healthChecker.

End Main.

(* ===================================================================== *)
(** * Vocabulary of the statements

    The notions the properties below are stated with, and the concrete
    inputs they are evaluated on.  Nothing here is executed by the
    sidecar; the definitions are independent of the functions they are
    compared with. *)
(* ===================================================================== *)

(** ** Numerals and bytes *)

Module GoStdSpec.
Import GoStd.

(** The integer a decimal numeral denotes, read independently of
    strconv: no cut-off, no bit size.  A digit is a byte from "0" (48) to
    "9" (57). *)
Definition is_digit (c : ascii) : bool :=
  (48 <=? byte c) && (byte c <=? 57).

(** Value of the digits of [s] appended to a numeral of value [acc];
    [None] when some byte of [s] is not a digit. *)
Fixpoint digitsValue (s : string) (acc : Z) : option Z :=
  match s with
  | EmptyString => Some acc
  | String c r =>
      if is_digit c then digitsValue r (10 * acc + (byte c - 48)) else None
  end.

(** An unsigned decimal numeral: one digit or more. *)
Definition decimalValue (s : string) : option Z :=
  match s with
  | EmptyString => None
  | _ => digitsValue s 0
  end.

(** A base-10 integer: an optional sign, then a decimal numeral. *)
Definition signedDecimalValue (s : string) : option Z :=
  match s with
  | String c r =>
      if Ascii.eqb c "+" then decimalValue r
      else if Ascii.eqb c "-" then Z.opp <$> decimalValue r
      else decimalValue s
  | EmptyString => None
  end.

(** The bytes of a string. *)
Definition bytes (s : string) : list ascii := list_ascii_of_string s.

(** The value of a decimal numeral of the standard library that follows a
    numeral of value [acc]. *)
Fixpoint uintValue (d : Decimal.uint) (acc : Z) : Z :=
  match d with
  | Decimal.Nil => acc
  | Decimal.D0 d => uintValue d (10 * acc + 0)
  | Decimal.D1 d => uintValue d (10 * acc + 1)
  | Decimal.D2 d => uintValue d (10 * acc + 2)
  | Decimal.D3 d => uintValue d (10 * acc + 3)
  | Decimal.D4 d => uintValue d (10 * acc + 4)
  | Decimal.D5 d => uintValue d (10 * acc + 5)
  | Decimal.D6 d => uintValue d (10 * acc + 6)
  | Decimal.D7 d => uintValue d (10 * acc + 7)
  | Decimal.D8 d => uintValue d (10 * acc + 8)
  | Decimal.D9 d => uintValue d (10 * acc + 9)
  end.

(** [sub] occurs in [s]. *)
Definition occursIn (sub s : string) : Prop :=
  exists p t, s = p +:+ sub +:+ t.


End GoStdSpec.

(** ** Address lists *)

Module DiscoverySpec.
Import GoStd GoStdSpec Discovery.

(** The comma-joined list as the specification reads it: the elements in
    order, one comma between neighbours, none at either end. *)
Fixpoint commaJoined (l : list string) : string :=
  match l with
  | [] => ""
  | [a] => a
  | a :: rest => a +:+ "," +:+ commaJoined rest
  end.

(** The last byte of a string, if any. *)
Definition lastByte (s : string) : option ascii := last (bytes s).

End DiscoverySpec.

(** ** Snapshots, verdicts and test fixtures *)

Module HealthSpec.
Import GoStd Health.

(** Every partition of every topic of the snapshot, once each. *)
Definition allPartitions (metadata : MetadataT) : list PartitionDetail :=
  concat ((fun kt => (map_to_list (Partitions kt.2)).*2)
          <$> map_to_list (Topics metadata)).

(** The broker is a replica of the partition and is not in its ISR. *)
Definition underReplicatedFor (id : Z) (p : PartitionDetail) : Prop :=
  id ∈ Replicas p /\ id ∉ ISR p.

#[global] Instance underReplicatedFor_dec id p : Decision (underReplicatedFor id p).
Proof. unfold underReplicatedFor. apply _. Defined.

(** Two topics, one partition each; broker 0 is a replica of both and in
    the ISR of neither (the case "multiple under-replicated partitions"
    of [TestUnderReplicatedPartitions]). *)
Definition twoTopics : MetadataT :=
  mkMetadata 1 [mkBroker 0; mkBroker 1]
    (<["topic1" := mkTopic {[ 0 := mkPartition 0 [0; 1] [1] ]}]>
       {[ "topic2" := mkTopic {[ 0 := mkPartition 0 [0; 2] [2] ]} ]}).

(** A checker as the tests build it: [NewChecker(id, "localhost:9092", ...)]
    with SASL off and the given client factory. *)
Definition testChecker (id : Z) (factory : ClientFactory) : Checker :=
  mkChecker id ["localhost:9092"] (mkSASL false "" "" "") factory.

(** Some directory of the result carries its own error. *)
Definition dirError (ds : gmap string DescribedLogDir) : Prop :=
  exists path d, ds !! path = Some d /\ is_Some (DirErr d).

(** Some partition placement, in some directory, is flagged future. *)
Definition futurePlacement (ds : gmap string DescribedLogDir) : Prop :=
  exists path d topic ps n p,
    ds !! path = Some d /\ DirTopics d !! topic = Some ps /\
    ps !! n = Some p /\ IsFuture p = true.

(** The callback of [LogDirsHealthy]. *)
Definition markFuture (p : DescribedLogDirPartition) (foundFuture : bool)
  : bool :=
  if IsFuture p then true else foundFuture.

(** A directory without error holding one future placement, and a
    directory with an error and no placement: the two cases of the
    tests of [LogDirsHealthy]. *)
Definition futureOnly : gmap string DescribedLogDir :=
  {[ "/var/kafka-logs" :=
       mkLogDir "/var/kafka-logs" None
         {[ "test-topic" := {[ 0 := mkLogDirPartition "test-topic" 0 true ]} ]} ]}.

Definition dirErrorOnly : gmap string DescribedLogDir :=
  {[ "/var/kafka-logs" :=
       mkLogDir "/var/kafka-logs" (Some "kafka storage error") ∅ ]}.

(** Brokers 0 and 1 registered, controller 1, no topic: the snapshot of
    the test "unhealthy - broker not registered", asked about broker 5. *)
Definition brokers01 : MetadataT := mkMetadata 1 [mkBroker 0; mkBroker 1] ∅.

(** Broker 0 registered and controller, no topic; the log directory holds
    a future placement: the case "unhealthy - log dirs unhealthy" of
    [TestCheckReadiness]. *)
Definition broker0 : MetadataT := mkMetadata 0 [mkBroker 0] ∅.

Definition futureChecker : Checker :=
  testChecker 0 (Ok (fakeClient (Ok broker0) (Ok futureOnly))).

Definition supportedMechanisms : list string :=
  ["PLAIN"; "SCRAM-SHA-256"; "SCRAM-SHA-512"].

Definition unsupported (mechanism : string) : string :=
  "unsupported SASL mechanism: " +:+ mechanism
  +:+ " (supported: PLAIN, SCRAM-SHA-256, SCRAM-SHA-512)".

(** The cleanup is the last entry of the call log and the only one of
    its kind. *)
Definition releasedOnce (log : list Call) : Prop :=
  exists calls, log = calls ++ [CallCleanup] /\ CallCleanup ∉ calls.

(** No partition of the snapshot has the broker among its replicas and
    outside its ISR. *)
Definition inSyncEverywhere (id : Z) (metadata : MetadataT) : Prop :=
  forall p, p ∈ allPartitions metadata -> id ∈ Replicas p -> id ∈ ISR p.


(** A client whose connection is lost after the first answer: the first
    metadata call succeeds, every later call fails. *)
Definition flakyClient : KafkaAdminClient :=
  mkClient
    (fun log => match log with
                | [] => Ok broker0
                | _ => Err "connection lost"
                end)
    (fun _ _ => Err "connection lost").

(** A client that sees the cluster change between calls: broker 0 is
    registered at the first call, the controller is gone at the second. *)
Definition changingClient : KafkaAdminClient :=
  mkClient
    (fun log => match log with
                | [] => Ok broker0
                | _ => Ok (mkMetadata (-1) [] ∅)
                end)
    (fun _ _ => Ok ∅).


(** The user name and password an authentication option carries. *)
Definition credentials (o : Opt) : option (string * string) :=
  match o with
  | SeedBrokers _ => None
  | SASLPlain user pass => Some (user, pass)
  | SASLScramSha256 user pass => Some (user, pass)
  | SASLScramSha512 user pass => Some (user, pass)
  end.

(** What the default factory makes of the answer of the client library. *)
Definition created (r : result string KafkaAdminClient) : ClientFactory :=
  match r with
  | Ok adm => Ok adm
  | Err e => Err ("failed to create kafka client: " +:+ e)
  end.


End HealthSpec.

(** ** Derived values and test fixtures *)

Module MetricsSpec.
Import GoStd GoStdSpec Metrics.

(** The values of a [uint64]. *)
Definition is_uint64 (v : Z) : Prop := 0 <= v < 2 ^ 64.

(** What the derived fields of a [MemoryMetrics] are to its raw fields. *)
Definition derivedFrom (m : MemoryMetrics) : Prop :=
  0 <= WorkingSet m /\
  WorkingSet m
  = (if Usage m >=? InactiveFile m then Usage m - InactiveFile m else 0) /\
  (Limit m = 0 ->
   OOMRatio m = float64_zero /\ OOMFloorRatio m = float64_zero) /\
  (0 < Limit m ->
   OOMRatio m = float64_div (float64_of_uint64 (WorkingSet m))
                            (float64_of_uint64 (Limit m)) /\
   OOMFloorRatio m = float64_div (float64_of_uint64 (RSS m))
                                 (float64_of_uint64 (Limit m))).

(** Files of a unified hierarchy under "/sys/fs/cgroup": usage 50, no
    limit, 100 bytes of inactive file cache (the case
    "UsageLessThanInactiveFile" of the tests, with the limit "max"). *)
Definition lowUsageFiles : OS :=
  mkOS
    (fun path =>
       if String.eqb path "/sys/fs/cgroup/memory.current" then Ok "50
"
       else if String.eqb path "/sys/fs/cgroup/memory.max" then Ok "max
"
       else Err "no such file or directory")
    (fun path =>
       if String.eqb path "/sys/fs/cgroup/memory.stat"
       then Ok (["anon 25"; "inactive_file 100"], None)
       else Err "no such file or directory").

(** Files of both hierarchies on one machine: the legacy files under
    "/sys/fs/cgroup/memory" with the key "rss", the unified files under
    "/sys/fs/cgroup" with the key "anon", the same numbers in both. *)
Definition bothHierarchies : OS :=
  mkOS
    (fun path =>
       if String.eqb path "/sys/fs/cgroup/memory/memory.usage_in_bytes"
       then Ok "1000"
       else if String.eqb path "/sys/fs/cgroup/memory/memory.limit_in_bytes"
       then Ok "3000"
       else if String.eqb path "/sys/fs/cgroup/memory.current" then Ok "1000"
       else if String.eqb path "/sys/fs/cgroup/memory.max" then Ok "3000"
       else Err "no such file or directory")
    (fun path =>
       if String.eqb path "/sys/fs/cgroup/memory/memory.stat"
       then Ok (["cache 700"; "rss 250"; "inactive_file 100"], None)
       else if String.eqb path "/sys/fs/cgroup/memory.stat"
       then Ok (["anon 250"; "file 700"; "inactive_file 100"], None)
       else Err "no such file or directory").

(** The statistics the two scans of [bothHierarchies] produce. *)
Definition legacyStats : gmap string Z :=
  <["inactive_file" := 100]> (<["rss" := 250]> {[ "cache" := 700 ]}).

Definition unifiedStats : gmap string Z :=
  <["inactive_file" := 100]> (<["file" := 700]> {[ "anon" := 250 ]}).

(** A file that holds a memory amount: after trimming, the token "max"
    or an unsigned decimal numeral of the [uint64] range. *)
Definition holdsAmount `{Unicode} (os : OS) (path : string) : Prop :=
  exists data, ReadFile os path = Ok data /\
    (TrimSpace data = "max" \/
     exists v, decimalValue (TrimSpace data) = Some v /\ v < 2 ^ 64).

(** A file that can be scanned to its end. *)
Definition scans (os : OS) (path : string) : Prop :=
  exists lines, ScanFile os path = Ok (lines, None).

(** A line of memory.stat that gives [key] the value [v]: two fields, the
    key and a decimal numeral of the [uint64] range. *)
Definition entry `{Unicode} (line key : string) (v : Z) : Prop :=
  exists val, Fields line = [key; val] /\
              decimalValue val = Some v /\ v < 2 ^ 64.

(** A line that gives [key] no value. *)
Definition silentOn `{Unicode} (line key : string) : Prop :=
  forall v, ~ entry line key v.

(** The statistics are those of the lines: a key no line gives a value is
    absent, and any other key has the value of the last line that gives
    it one. *)
Definition lastEntries `{Unicode} (lines : list string) (stats : gmap string Z)
  : Prop :=
  (forall key, (forall line, line ∈ lines -> silentOn line key) ->
               stats !! key = None /\ stat stats key = 0) /\
  (forall before line after key v,
     lines = before ++ line :: after -> entry line key v ->
     (forall l, l ∈ after -> silentOn l key) ->
     stats !! key = Some v /\ stat stats key = v).

(** The file whose presence decides the hierarchy that is read (the file
    of the unified hierarchy when none is present). *)
Definition probedFile (Stat : string -> option string) : string :=
  match Stat "/sys/fs/cgroup/memory.current",
        Stat "/sys/fs/cgroup/memory/memory.usage_in_bytes" with
  | Some _, None => "/sys/fs/cgroup/memory/memory.usage_in_bytes"
  | _, _ => "/sys/fs/cgroup/memory.current"
  end.

(** A machine with the legacy hierarchy only. *)
Definition legacyOnly (path : string) : option string :=
  if String.eqb path "/sys/fs/cgroup/memory/memory.usage_in_bytes"
  then None else Some "no such file or directory".

(** The metric names of the data model before UTF-8 names: a letter, "_"
    or ":" first, then letters, digits, "_" and ":". *)
Definition nameStart (c : ascii) : bool :=
  let b := byte c in
  ((97 <=? b) && (b <=? 122)) || ((65 <=? b) && (b <=? 90))
  || (b =? 95) || (b =? 58).

Definition nameRest (c : ascii) : bool := nameStart c || is_digit c.

Definition legacyName (s : string) : bool :=
  match s with
  | EmptyString => false
  | String c r => nameStart c && forallb nameRest (bytes r)
  end.

(** A reader of another type, with a fixed answer. *)
Definition fixedReader (answer : result error MemoryMetrics) : CgroupReader :=
  ReaderOther (fun _ => answer).


(** The names under which the collector exports its eight metrics. *)
Definition metricNames : list string :=
  ["kafka_memory_usage_bytes"; "kafka_memory_limit_bytes";
   "kafka_memory_rss_bytes"; "kafka_memory_inactive_file_bytes";
   "kafka_memory_working_set_bytes"; "kafka_memory_non_reclaimable_bytes";
   "kafka_memory_oom_ratio"; "kafka_memory_oom_floor_ratio"].

(** The values of the eight metrics, in the order of the names. *)
Definition metricValues (m : MemoryMetrics) : list float64 :=
  [float64_of_uint64 (Usage m); float64_of_uint64 (Limit m);
   float64_of_uint64 (RSS m); float64_of_uint64 (InactiveFile m);
   float64_of_uint64 (WorkingSet m); float64_of_uint64 (RSS m);
   OOMRatio m; OOMFloorRatio m].






End MetricsSpec.

(** ** Start-up *)

Module TypesSpec.
Import GoStd Discovery Types.

(** The settings of [cfg] other than the broker ID and the bootstrap
    servers are those of [parsed]. *)
Definition keepsSettings (parsed cfg : ConfigSchema) : Prop :=
  WorkloadName cfg = WorkloadName parsed /\
  GvcAlias cfg = GvcAlias parsed /\
  GvcName cfg = GvcName parsed /\
  Location cfg = Location parsed /\
  ReplicaCount cfg = ReplicaCount parsed /\
  KafkaPort cfg = KafkaPort parsed /\
  SASLEnabled cfg = SASLEnabled parsed /\
  SASLMechanism cfg = SASLMechanism parsed /\
  SASLUsername cfg = SASLUsername parsed /\
  SASLPassword cfg = SASLPassword parsed /\
  CheckTimeout cfg = CheckTimeout parsed /\
  Port cfg = Port parsed /\
  LogLevel cfg = LogLevel parsed.

(** The environment variables the discovery of [Initialize] reads. *)
Definition discoveryVariables : list string :=
  ["BROKER_ID"; "HOSTNAME"; "CPLN_WORKLOAD"; "CPLN_LOCATION"; "CPLN_GVC"].

(** The defaults of the schema, with three replicas. *)
Definition defaults : ConfigSchema :=
  mkConfig 0 "" "" "" "" 3 9092 "" false "PLAIN" "" "" 10000000000 8080 "info".

(** A parse that leaves the defaults. *)
Definition parseDefaults (_ : ConfigSchema) : ConfigSchema * option string :=
  (defaults, None).

(** A parse that finds the bootstrap servers set. *)
Definition parseExplicit (_ : ConfigSchema) : ConfigSchema * option string :=
  (setBootstrapServers "broker:9092" defaults, None).

(** The environment of replica 2 of the workload "kafka". *)
Definition replicaEnv : Env :=
  fun variable =>
    if String.eqb variable "HOSTNAME" then "kafka-2"
    else if String.eqb variable "CPLN_WORKLOAD"
    then "/org/acme/gvc/prod/workload/kafka"
    else if String.eqb variable "CPLN_LOCATION"
    then "/org/acme/location/aws-us-west-2"
    else if String.eqb variable "CPLN_GVC" then "prod"
    else "".

(** The same replica, outside the platform: only the host name is set. *)
Definition hostOnlyEnv : Env :=
  fun variable => if String.eqb variable "HOSTNAME" then "kafka-2" else "".

(** An environment with the broker ID set and nothing else. *)
Definition explicitEnv : Env :=
  fun variable => if String.eqb variable "BROKER_ID" then "7" else "".

End TypesSpec.

(* ===================================================================== *)
(** * Properties of the standard-library functions                        *)
(* ===================================================================== *)

Module GoStdFacts.
Import GoStd GoStdSpec.

(** ** strconv against the value of a numeral *)

(** Case split on every boolean comparison of integers in the goal. *)
Ltac split_comparisons :=
  repeat match goal with
         | |- context [(?x >=? ?y)] => destruct (Z.geb_spec x y)
         | |- context [(?x >? ?y)] => destruct (Z.gtb_spec x y)
         | |- context [(?x <? ?y)] => destruct (Z.ltb_spec x y)
         | |- context [(?x <=? ?y)] => destruct (Z.leb_spec x y)
         end.

Lemma byte_range (c : ascii) : 0 <= byte c < 256.
Proof.
  unfold byte. pose proof (N_ascii_bounded c). lia.
Qed.

Lemma digitsValue_ge (s : string) : forall acc v,
  0 <= acc -> digitsValue s acc = Some v -> acc <= v.
Proof.
  induction s as [|c r IH]; intros acc v Hacc Hv; simpl in Hv.
  - injection Hv as <-. lia.
  - destruct (is_digit c) eqn:Hd; [|discriminate].
    unfold is_digit in Hd. apply andb_prop in Hd as [H1 H2].
    apply Z.leb_le in H1, H2.
    apply IH in Hv; lia.
Qed.

(** A range error of the digit loop always carries [maxVal]. *)
Lemma ParseUint_loop_range (base cutoff maxVal : Z) (s : string) : forall n x,
  ParseUint_loop base cutoff maxVal s n = (x, Some ErrRange) -> x = maxVal.
Proof.
  induction s as [|c r IH]; intros n x H; simpl in H.
  - discriminate.
  - repeat match type of H with
           | context [if ?b then _ else _] => destruct b
           end; try (inversion H; fail); try (injection H as <- ; reflexivity);
      eauto.
Qed.

(** The digit loop for base 10 against the numeral's value: it returns
    the value when that fits in [maxVal], a range error carrying [maxVal]
    when it does not, and some error when a byte is not a digit. *)
Lemma ParseUint_loop_spec (maxVal : Z) (s : string) : forall n,
  0 <= n <= maxVal -> maxVal <= maxUint64 ->
  match digitsValue s n with
  | Some v =>
      ParseUint_loop 10 (maxUint64 / 10 + 1) maxVal s n =
        if v <=? maxVal then (v, None) else (maxVal, Some ErrRange)
  | None =>
      exists x k, ParseUint_loop 10 (maxUint64 / 10 + 1) maxVal s n = (x, Some k)
  end.
Proof.
  induction s as [|c r IH]; intros n Hn Hmax; simpl.
  - destruct (Z.leb_spec n maxVal); [reflexivity | lia].
  - pose proof (byte_range c) as Hb.
    unfold is_digit.
    change (byte "0") with 48. change (byte "9") with 57.
    change (byte "a") with 97. change (byte "z") with 122.
    destruct ((48 <=? byte c) && (byte c <=? 57)) eqn:Hd.
    + apply andb_prop in Hd as [H1 H2]. apply Z.leb_le in H1, H2.
      destruct (Z.geb_spec (byte c - 48) 10) as [?|_]; [lia|].
      unfold maxUint64 in *.
      change (2 ^ 64 - 1) with 18446744073709551615 in *.
      change (18446744073709551615 / 10 + 1) with 1844674407370955162.
      change (2 ^ 64) with 18446744073709551616.
      destruct (Z.geb_spec n 1844674407370955162) as [Hc|Hc].
      * destruct (digitsValue r (10 * n + (byte c - 48))) as [v|] eqn:Hv.
        -- apply digitsValue_ge in Hv; [|lia].
           destruct (Z.leb_spec v maxVal); [lia | reflexivity].
        -- eauto.
      * rewrite (Z.mod_small (n * 10)) by lia.
        destruct (Z_lt_ge_dec (n * 10 + (byte c - 48)) 18446744073709551616)
          as [Hs|Hs].
        -- rewrite (Z.mod_small (n * 10 + (byte c - 48))) by lia.
           destruct (Z.ltb_spec (n * 10 + (byte c - 48)) (n * 10)); [lia|].
           replace (10 * n + (byte c - 48)) with (n * 10 + (byte c - 48)) by lia.
           destruct (Z.gtb_spec (n * 10 + (byte c - 48)) maxVal) as [Hg|Hg];
             simpl.
           ++ destruct (digitsValue r _) as [v|] eqn:Hv; [|eauto].
              apply digitsValue_ge in Hv; [|lia].
              destruct (Z.leb_spec v maxVal); [lia | reflexivity].
           ++ apply IH; lia.
        -- assert (Hm : (n * 10 + (byte c - 48)) mod 18446744073709551616
                        = n * 10 + (byte c - 48) - 18446744073709551616).
           { symmetry. apply Z.mod_unique_pos with (q := 1); lia. }
           rewrite Hm.
           destruct (Z.ltb_spec (n * 10 + (byte c - 48) - 18446744073709551616)
                       (n * 10)); [|lia].
           simpl.
           destruct (digitsValue r _) as [v|] eqn:Hv; [|eauto].
           apply digitsValue_ge in Hv; [|lia].
           destruct (Z.leb_spec v maxVal); [lia | reflexivity].
    + destruct ((97 <=? lower c) && (lower c <=? 122)) eqn:Hl; [|eauto].
      apply andb_prop in Hl as [H1 H2]. apply Z.leb_le in H1, H2.
      destruct (Z.geb_spec (lower c - 97 + 10) 10); [eauto | lia].
Qed.

Lemma decimalValue_nonneg (s : string) (v : Z) :
  decimalValue s = Some v -> 0 <= v.
Proof.
  destruct s as [|a t]; [discriminate|].
  unfold decimalValue. intros Hv. apply digitsValue_ge in Hv; lia.
Qed.

(** [ParseUint] in base 10 against the numeral's value: the three ways it
    can end. *)
Lemma ParseUint_spec (s : string) (bitSize : Z) :
  1 <= bitSize <= 64 ->
  match decimalValue s with
  | Some v =>
      ParseUint s 10 bitSize =
        if v <=? 2 ^ bitSize - 1 then (v, None)
        else (2 ^ bitSize - 1, Some (mkNumError "ParseUint" s ErrRange))
  | None =>
      exists x e, ParseUint s 10 bitSize = (x, Some e) /\
                  (Kind e = ErrRange -> x = 2 ^ bitSize - 1)
  end.
Proof.
  intros Hb. unfold ParseUint, decimalValue.
  destruct s as [|c r]; [simpl; eexists _, _; split; [reflexivity|discriminate]|].
  change (String.eqb (String c r) "") with false. cbv iota.
  change (negb ((2 <=? 10) && (10 <=? 36))) with false. cbv iota.
  destruct (Z.eqb_spec bitSize 0) as [?|_]; [lia|].
  destruct (Z.ltb_spec bitSize 0) as [?|_]; [lia|].
  destruct (Z.gtb_spec bitSize 64) as [?|_]; [lia|]. cbn [orb]. cbv zeta.
  assert (Hpow : 1 <= 2 ^ bitSize <= 2 ^ 64).
  { split; [|apply Z.pow_le_mono_r; lia].
    pose proof (Z.pow_pos_nonneg 2 bitSize); lia. }
  pose proof (ParseUint_loop_spec (2 ^ bitSize - 1) (String c r) 0) as Hl.
  specialize (Hl ltac:(lia) ltac:(unfold maxUint64; lia)).
  destruct (digitsValue (String c r) 0) as [v|].
  - rewrite Hl. destruct (v <=? 2 ^ bitSize - 1); reflexivity.
  - destruct Hl as (x & k & Hl). rewrite Hl.
    eexists _, _; split; [reflexivity|]. simpl. intros ->.
    eapply ParseUint_loop_range; eauto.
Qed.

(** A successful [ParseUint] in base 10 returns a value of the bit size. *)
Lemma ParseUint_ok_range (s : string) (bitSize v : Z) :
  1 <= bitSize <= 64 ->
  ParseUint s 10 bitSize = (v, None) -> 0 <= v < 2 ^ bitSize.
Proof.
  intros Hb H. pose proof (ParseUint_spec s bitSize Hb) as Hs.
  destruct (decimalValue s) as [w|] eqn:Hw.
  - rewrite H in Hs. apply decimalValue_nonneg in Hw.
    destruct (Z.leb_spec w (2 ^ bitSize - 1)).
    + injection Hs as ->. lia.
    + discriminate.
  - destruct Hs as (x & e & Hs & _). congruence.
Qed.

(** The part of [ParseInt(_, 10, 32)] after the sign has been picked
    off, against the value of the unsigned numeral [s1]. *)
Lemma ParseInt32_tail (s0 s1 : string) (neg : bool) :
  let tail :=
    let '(un, err) := ParseUint s1 10 32 in
    let fatal :=
      match err with
      | Some e => match Kind e with ErrRange => None | k => Some k end
      | None => None
      end in
    match fatal with
    | Some k => (0, Some (mkNumError "ParseInt" s0 k))
    | None =>
        if negb neg && (un >=? 2147483648)
        then (2147483647, Some (mkNumError "ParseInt" s0 ErrRange))
        else if neg && (un >? 2147483648)
        then (- 2147483648, Some (mkNumError "ParseInt" s0 ErrRange))
        else ((if neg then - un else un), None)
    end in
  match decimalValue s1 with
  | Some u =>
      let v := if neg then - u else u in
      if (- 2147483648 <=? v) && (v <? 2147483648)
      then tail = (v, None)
      else exists x, tail = (x, Some (mkNumError "ParseInt" s0 ErrRange))
  | None => exists x e, tail = (x, Some e)
  end.
Proof.
  cbv zeta.
  pose proof (ParseUint_spec s1 32 ltac:(lia)) as H.
  change (2 ^ 32 - 1) with 4294967295 in H.
  destruct (decimalValue s1) as [u|] eqn:Hu.
  - rewrite H. apply decimalValue_nonneg in Hu.
    destruct (Z.leb_spec u 4294967295); simpl;
      destruct neg; simpl;
      split_comparisons; simpl; try lia; eauto.
  - destruct H as (x & [f n k] & -> & Hr). simpl in *.
    destruct k; simpl; eauto.
    rewrite Hr by reflexivity. destruct neg; simpl; eauto.
Qed.

(** [ParseInt(s, 10, 32)] against the value of the signed numeral: it
    succeeds exactly on the base-10 integers of the [int32] range, and
    then returns the integer. *)
Lemma ParseInt32_spec (s : string) :
  match signedDecimalValue s with
  | Some v =>
      if (- 2147483648 <=? v) && (v <? 2147483648)
      then ParseInt s 10 32 = (v, None)
      else exists x, ParseInt s 10 32 = (x, Some (mkNumError "ParseInt" s ErrRange))
  | None => exists x e, ParseInt s 10 32 = (x, Some e)
  end.
Proof.
  destruct s as [|c r]; [simpl; eauto|].
  unfold signedDecimalValue, ParseInt.
  change (2 ^ ((if 32 =? 0 then 64 else 32) - 1)) with 2147483648.
  destruct (Ascii.eqb c "+") eqn:Hplus; [|destruct (Ascii.eqb c "-") eqn:Hminus].
  - pose proof (ParseInt32_tail (String c r) r false) as H. cbv zeta in H.
    destruct (decimalValue r); exact H.
  - pose proof (ParseInt32_tail (String c r) r true) as H. cbv zeta in H.
    destruct (decimalValue r); exact H.
  - pose proof (ParseInt32_tail (String c r) (String c r) false) as H.
    cbv zeta in H. destruct (decimalValue (String c r)); exact H.
Qed.

(** ** Indexing, slicing and the last occurrence of a byte *)

Lemma string_length_app (p s : string) :
  String.length (p +:+ s) = (String.length p + String.length s)%nat.
Proof. induction p as [|a p IH]; simpl; [reflexivity | now rewrite IH]. Qed.

Lemma get_In (s : string) : forall i c,
  String.get i s = Some c -> In c (bytes s).
Proof.
  induction s as [|a s IH]; intros i c H; simpl in *; [discriminate|].
  destruct i as [|i]; [injection H as ->; now left | right; eauto].
Qed.

Lemma get_app_mid (p s : string) (c : ascii) :
  String.get (String.length p) (p +:+ String c s) = Some c.
Proof. induction p as [|a p IH]; simpl; [reflexivity | exact IH]. Qed.

Lemma get_app_right (p s : string) (c : ascii) (j : nat) :
  String.get (String.length p + S j) (p +:+ String c s) = String.get j s.
Proof. induction p as [|a p IH]; simpl; [reflexivity | exact IH]. Qed.

Lemma substring_all (s : string) : String.substring 0 (String.length s) s = s.
Proof. induction s as [|a s IH]; simpl; [reflexivity | now rewrite IH]. Qed.

Lemma substring_app_right (p s : string) (c : ascii) (m : nat) :
  String.substring (String.length p + 1) m (p +:+ String c s)
  = String.substring 0 m s.
Proof.
  induction p as [|a p IH]; simpl.
  - destruct s, m; reflexivity.
  - exact IH.
Qed.

(** [s[len(p)+1:]] of [s = p + c + t] is [t]. *)
Lemma slice_from_app (p t : string) (c : ascii) :
  slice_from (p +:+ String c t) (len p + 1) = t.
Proof.
  unfold slice_from, len.
  replace (Z.to_nat (Z.of_nat (String.length p) + 1))
    with (String.length p + 1)%nat by lia.
  rewrite string_length_app. simpl String.length.
  replace (String.length p + S (String.length t) - (String.length p + 1))%nat
    with (String.length t) by lia.
  rewrite substring_app_right. apply substring_all.
Qed.

(** The backward scan finds nothing when no position below [n] holds [c]. *)
Lemma LastIndexByte_from_none (s : string) (c : ascii) (n : nat) :
  (forall i, (i < n)%nat -> String.get i s <> Some c) ->
  LastIndexByte_from s c n = -1.
Proof.
  induction n as [|n IH]; intros H; simpl; [reflexivity|].
  destruct (String.get n s) as [a|] eqn:Hg.
  - destruct (Ascii.eqb_spec a c) as [->|_].
    + exfalso. apply (H n); [lia | assumption].
    + apply IH. intros i Hi. apply H. lia.
  - apply IH. intros i Hi. apply H. lia.
Qed.

(** The backward scan stops at the greatest position below [n] that
    holds [c]. *)
Lemma LastIndexByte_from_found (s : string) (c : ascii) (k n : nat) :
  (k < n)%nat -> String.get k s = Some c ->
  (forall j, (k < j < n)%nat -> String.get j s <> Some c) ->
  LastIndexByte_from s c n = Z.of_nat k.
Proof.
  induction n as [|n IH]; intros Hk Hg Hlast; [lia|]. simpl.
  destruct (Nat.eq_dec k n) as [->|Hne].
  - rewrite Hg, Ascii.eqb_refl. reflexivity.
  - assert (Hn : String.get n s <> Some c) by (apply Hlast; lia).
    destruct (String.get n s) as [a|] eqn:Hgn.
    + destruct (Ascii.eqb_spec a c) as [->|_]; [congruence|].
      apply IH; [lia | assumption | intros j Hj; apply Hlast; lia].
    + apply IH; [lia | assumption | intros j Hj; apply Hlast; lia].
Qed.

Lemma LastIndexByte_absent (s : string) (c : ascii) :
  ~ In c (bytes s) -> LastIndexByte s c = -1.
Proof.
  intros H. apply LastIndexByte_from_none. intros i _ Hg.
  apply H. eapply get_In; eauto.
Qed.

(** In [p + c + t] with no [c] in [t], the last [c] is the one shown. *)
Lemma LastIndexByte_app (p t : string) (c : ascii) :
  ~ In c (bytes t) -> LastIndexByte (p +:+ String c t) c = len p.
Proof.
  intros H. unfold LastIndexByte, len.
  apply LastIndexByte_from_found.
  - rewrite string_length_app. simpl. lia.
  - apply get_app_mid.
  - intros j Hj Hg.
    replace j with (String.length p + S (j - String.length p - 1))%nat in Hg
      by lia.
    rewrite get_app_right in Hg. apply H. eapply get_In; eauto.
Qed.

End GoStdFacts.

(* ===================================================================== *)
(** * Properties of pkg/sidecar/discovery                                 *)
(* ===================================================================== *)

Module DiscoveryProps.
Import GoStd GoStdSpec GoStdFacts Discovery DiscoverySpec.

(** ** Broker identity *)

Lemma int32_id (v : Z) : - 2 ^ 31 <= v < 2 ^ 31 -> int32 v = v.
Proof.
  intros Hv. unfold int32. rewrite Z.mod_small; lia.
Qed.

Lemma bytes_app (a b : string) : bytes (a +:+ b) = bytes a ++ bytes b.
Proof. induction a as [|c a IH]; simpl; [reflexivity | now rewrite IH]. Qed.

(** A numeral without ["-"] is not negative. *)
Lemma signedDecimalValue_nonneg (t : string) (v : Z) :
  ~ In "-"%char (bytes t) -> signedDecimalValue t = Some v -> 0 <= v.
Proof.
  destruct t as [|c r]; [discriminate|]. intros Hno. simpl.
  destruct (Ascii.eqb c "+"); [apply decimalValue_nonneg|].
  destruct (Ascii.eqb_spec c "-") as [->|_].
  - exfalso. apply Hno. now left.
  - intros H. apply (decimalValue_nonneg (String c r)). exact H.
Qed.

(** C3, as the code has it.  [ParseBrokerIDFromHostname] fails when the
    host name has no hyphen, when its last hyphen is its last byte, and
    when the bytes after the last hyphen are not a base-10 integer of the
    signed 32-bit range; otherwise it returns that integer.  The last
    hyphen delimits: "kafka-7" gives 7 and "my-kafka-cluster-2" gives 2. *)
Theorem ParseBrokerIDFromHostname_spec (hostname : string) :
  (~ In "-"%char (bytes hostname) ->
   ParseBrokerIDFromHostname hostname = Err (ErrNoHyphen hostname)) /\
  (forall p, hostname = p +:+ "-" ->
   ParseBrokerIDFromHostname hostname = Err (ErrTrailingHyphen hostname)) /\
  (forall p t, hostname = p +:+ "-" +:+ t -> t <> "" ->
   ~ In "-"%char (bytes t) ->
   match signedDecimalValue t with
   | Some v =>
       if v <? 2 ^ 31
       then ParseBrokerIDFromHostname hostname = Ok v
       else exists e, ParseBrokerIDFromHostname hostname
                      = Err (ErrParseIndex hostname e)
   | None =>
       exists e, ParseBrokerIDFromHostname hostname
                 = Err (ErrParseIndex hostname e)
   end) /\
  ParseBrokerIDFromHostname "kafka-7" = Ok 7 /\
  ParseBrokerIDFromHostname "my-kafka-cluster-2" = Ok 2.
Proof.
  split; [|split; [|split; [|split; reflexivity]]].
  - intros Hno. unfold ParseBrokerIDFromHostname.
    rewrite LastIndexByte_absent by assumption. reflexivity.
  - intros p ->. unfold ParseBrokerIDFromHostname.
    rewrite LastIndexByte_app by (simpl; tauto).
    unfold len. rewrite string_length_app. simpl String.length.
    destruct (Z.eqb_spec (Z.of_nat (String.length p)) (-1)); [lia|].
    destruct (Z.eqb_spec (Z.of_nat (String.length p))
                (Z.of_nat (String.length p + 1) - 1)); [reflexivity | lia].
  - intros p t -> Hne Hno. unfold ParseBrokerIDFromHostname.
    change (p +:+ "-" +:+ t) with (p +:+ String "-" t).
    rewrite LastIndexByte_app by assumption.
    rewrite slice_from_app.
    unfold len. rewrite string_length_app. simpl String.length.
    destruct (Z.eqb_spec (Z.of_nat (String.length p)) (-1)); [lia|].
    destruct (Z.eqb_spec (Z.of_nat (String.length p))
                (Z.of_nat (String.length p + S (String.length t)) - 1)) as [E|_].
    { destruct t; [congruence | simpl in E; lia]. }
    pose proof (ParseInt32_spec t) as Hp.
    pose proof (signedDecimalValue_nonneg t) as Hnn.
    destruct (signedDecimalValue t) as [v|].
    + specialize (Hnn v Hno eq_refl).
      change (2 ^ 31) with 2147483648.
      destruct (Z.leb_spec (-2147483648) v); [|lia].
      destruct (Z.ltb_spec v 2147483648); simpl in Hp.
      * rewrite Hp. rewrite int32_id by lia. reflexivity.
      * destruct Hp as (x & ->). eauto.
    + destruct Hp as (x & e & ->). eauto.
Qed.

(** The theorem at "kafka-7": the suffix "7" is the numeral of 7. *)
Lemma ParseBrokerIDFromHostname_spec_witness :
  "kafka-7" = "kafka" +:+ "-" +:+ "7" /\
  ParseBrokerIDFromHostname "kafka-7" = Ok 7.
Proof.
  split; [reflexivity|].
  exact (proj1 (proj2 (proj2 (ParseBrokerIDFromHostname_spec "kafka-7")))
           "kafka" "7" eq_refl
           ltac:(discriminate)
           ltac:(simpl; intros [H|[]]; discriminate)).
Defined.

(** C3 as worded does not hold: "2147483648" is a base-10 integer after
    the last hyphen, and the parse fails with a range error. *)
Lemma ParseBrokerIDFromHostname_out_of_range :
  signedDecimalValue "2147483648" = Some 2147483648 /\
  ParseBrokerIDFromHostname "kafka-2147483648"
  = Err (ErrParseIndex "kafka-2147483648"
           (mkNumError "ParseInt" "2147483648" ErrRange)).
Proof. split; vm_compute; reflexivity. Qed.

(** ** Bootstrap address list *)

Lemma append_assoc (a b c : string) : (a +:+ b) +:+ c = a +:+ b +:+ c.
Proof.
  induction a as [|x a IH]; [reflexivity|].
  change (String x ((a +:+ b) +:+ c) = String x (a +:+ b +:+ c)).
  f_equal. exact IH.
Qed.

Lemma commaJoined_prefix (x y : string) (r : list string) :
  commaJoined ((x +:+ y) :: r) = x +:+ commaJoined (y :: r).
Proof.
  destruct r as [|z r]; [reflexivity|].
  change (commaJoined ((x +:+ y) :: z :: r))
    with ((x +:+ y) +:+ "," +:+ commaJoined (z :: r)).
  change (commaJoined (y :: z :: r)) with (y +:+ "," +:+ commaJoined (z :: r)).
  apply append_assoc.
Qed.

Lemma Join_fold (rest : list string) : forall e,
  fold_left (fun b s => b +:+ "," +:+ s) rest e = commaJoined (e :: rest).
Proof.
  induction rest as [|a rest IH]; intros e; [reflexivity|].
  cbn [fold_left]. rewrite IH.
  rewrite commaJoined_prefix, commaJoined_prefix.
  destruct rest; reflexivity.
Qed.

Lemma Join_commaJoined (l : list string) : Join l "," = commaJoined l.
Proof.
  destruct l as [|e [|a rest]]; try reflexivity.
  unfold Join. apply Join_fold.
Qed.

(** The loop writes the addresses of [i], [i+1], ... over the empty
    slots that are left. *)
Lemma fillServers_spec (w l g : string) (port rc : Z) (fuel : nat) :
  forall (i : Z) (pre : list string),
  length pre = Z.to_nat i -> 0 <= i -> i + Z.of_nat fuel = rc ->
  fillServers w l g port rc fuel i (pre ++ replicate fuel EmptyString)
  = pre ++ (replicaAddress w l g port <$> seqZ i (Z.of_nat fuel)).
Proof.
  induction fuel as [|fuel IH]; intros i pre Hlen Hi Hrc.
  - simpl. reflexivity.
  - cbn [fillServers].
    destruct (Z.ltb_spec i rc); [|lia].
    rewrite insert_app_r_alt by lia.
    rewrite <- Hlen, Nat.sub_diag. cbn [replicate].
    change (<[0%nat:=?x]> (?y :: ?r)) with (x :: r).
    rewrite (seqZ_cons i (Z.of_nat (S fuel))) by lia.
    replace (Z.pred (Z.of_nat (S fuel))) with (Z.of_nat fuel) by lia.
    rewrite fmap_cons.
    rewrite (cons_middle _ pre), (cons_middle (replicaAddress w l g port i) pre).
    rewrite !app_assoc.
    apply IH; [rewrite length_app; simpl; lia | lia | lia].
Qed.

(** The decimal rendering of an integer is not empty and holds no comma. *)
Lemma string_of_uint_no_comma (d : Decimal.uint) :
  ~ In ","%char (bytes (NilEmpty.string_of_uint d)).
Proof.
  induction d; simpl; [tauto|..]; intros [H|H]; try discriminate; auto.
Qed.

Lemma FormatInt_no_comma (z : Z) : ~ In ","%char (bytes (FormatInt z)).
Proof.
  unfold FormatInt, NilZero.string_of_int, NilZero.string_of_uint.
  destruct (Z.to_int z) as [d|d].
  - destruct d; try apply (string_of_uint_no_comma (_ _)).
    simpl. intros [H|[]]. discriminate.
  - simpl. intros [H|H]; [discriminate|]. revert H.
    destruct d; try apply (string_of_uint_no_comma (_ _)).
    simpl. intros [H|[]]. discriminate.
Qed.

Lemma FormatInt_nonempty (z : Z) : FormatInt z <> "".
Proof.
  unfold FormatInt, NilZero.string_of_int, NilZero.string_of_uint.
  destruct (Z.to_int z) as [d|d]; [|discriminate].
  destruct d; discriminate.
Qed.

Lemma lastByte_app (a b : string) :
  b <> "" -> lastByte (a +:+ b) = lastByte b.
Proof.
  intros Hb. unfold lastByte. rewrite bytes_app, last_app.
  destruct b as [|c b]; [congruence|].
  destruct (last (bytes (String c b))) eqn:E; [reflexivity|].
  apply last_None in E. discriminate.
Qed.

Lemma lastByte_In (s : string) (c : ascii) :
  lastByte s = Some c -> In c (bytes s).
Proof.
  unfold lastByte. intros H. apply list_elem_of_In.
  rewrite last_lookup in H. eapply list_elem_of_lookup_2; eauto.
Qed.

Lemma replicaAddress_last (w l g : string) (port i : Z) :
  lastByte (replicaAddress w l g port i) = lastByte (FormatInt port).
Proof.
  unfold replicaAddress.
  pose proof (FormatInt_nonempty port) as Hne.
  assert (Hcons : forall a b, b <> "" -> a +:+ b <> "").
  { intros [|? ?] b Hb; simpl; [assumption | discriminate]. }
  repeat (rewrite lastByte_app; [|repeat (apply Hcons); assumption]).
  reflexivity.
Qed.

Lemma commaJoined_last (f : Z -> string) (c : option ascii) (l : list Z) :
  l <> [] -> (forall i, f i <> "") -> (forall i, lastByte (f i) = c) ->
  lastByte (commaJoined (f <$> l)) = c.
Proof.
  intros Hl Hne Hc. induction l as [|a [|b r] IH]; [congruence| |].
  - simpl. apply Hc.
  - change (commaJoined (f <$> a :: b :: r))
      with (f a +:+ "," +:+ commaJoined (f <$> b :: r)).
    assert (Hr : commaJoined (f <$> b :: r) <> "").
    { specialize (Hne b). destruct r; simpl.
      - assumption.
      - destruct (f b); [congruence | discriminate]. }
    rewrite lastByte_app; [|discriminate].
    rewrite (lastByte_app ","); [|assumption].
    apply IH. discriminate.
Qed.

Lemma BuildBootstrapServers_joined (w l g : string) (rc port : Z) :
  BuildBootstrapServers w l g rc port
  = commaJoined (replicaAddress w l g port <$> seqZ 0 (Z.max rc 1)).
Proof.
  unfold BuildBootstrapServers.
  assert (Hn : (if rc <=? 0 then 1 else rc) = Z.max rc 1).
  { destruct (Z.leb_spec rc 0); lia. }
  rewrite Hn. rewrite Join_commaJoined.
  pose proof (fillServers_spec w l g port (Z.max rc 1)
                (Z.to_nat (Z.max rc 1)) 0 []) as H.
  simpl app in H. rewrite H by (simpl; lia).
  rewrite Z2Nat.id by lia. reflexivity.
Qed.

(** C4.  [BuildBootstrapServers] is a total function to strings; its
    value is the comma-joined list of the addresses
    "replica-{i}.{workload}.{location}.{gvc}.cpln.local:{port}" for [i]
    from 0 to [max(replicaCount, 1) - 1], and does not end in a comma.  A
    replica count of 0, of -1, or of any value that is not positive gives
    what a count of 1 gives, and the example of the specification
    evaluates to the three addresses it lists. *)
Theorem BuildBootstrapServers_spec (w l g : string) (rc port : Z) :
  BuildBootstrapServers w l g rc port
  = commaJoined (replicaAddress w l g port <$> seqZ 0 (Z.max rc 1)) /\
  (forall s, BuildBootstrapServers w l g rc port <> s +:+ ",") /\
  (rc <= 0 ->
   BuildBootstrapServers w l g rc port = BuildBootstrapServers w l g 1 port) /\
  BuildBootstrapServers w l g 0 port = BuildBootstrapServers w l g 1 port /\
  BuildBootstrapServers w l g (-1) port = BuildBootstrapServers w l g 1 port /\
  BuildBootstrapServers "kafka" "aws-us-west-2" "test-gvc" 3 9092
  = "replica-0.kafka.aws-us-west-2.test-gvc.cpln.local:9092,replica-1.kafka.aws-us-west-2.test-gvc.cpln.local:9092,replica-2.kafka.aws-us-west-2.test-gvc.cpln.local:9092".
Proof.
  split; [apply BuildBootstrapServers_joined|].
  split; [|split; [|repeat split; reflexivity]].
  - intros s Hs.
    assert (Hlast : lastByte (BuildBootstrapServers w l g rc port)
                    = lastByte (FormatInt port)).
    { rewrite BuildBootstrapServers_joined.
      apply commaJoined_last.
      - rewrite (seqZ_cons 0) by lia. discriminate.
      - intros i. unfold replicaAddress. discriminate.
      - intros i. apply replicaAddress_last. }
    rewrite Hs, lastByte_app in Hlast by discriminate.
    symmetry in Hlast. apply lastByte_In in Hlast.
    exact (FormatInt_no_comma port Hlast).
  - intros Hrc. rewrite !BuildBootstrapServers_joined.
    replace (Z.max rc 1) with (Z.max 1 1) by lia. reflexivity.
Qed.

(** The theorem at a replica count of -3. *)
Lemma BuildBootstrapServers_spec_witness :
  -3 <= 0 /\
  BuildBootstrapServers "kafka" "loc" "gvc" (-3) 9092
  = BuildBootstrapServers "kafka" "loc" "gvc" 1 9092.
Proof.
  split; [lia|].
  apply (proj1 (proj2 (proj2
           (BuildBootstrapServers_spec "kafka" "loc" "gvc" (-3) 9092)))).
  lia.
Defined.

(** ** The cases of the package's tests, evaluated *)

Example TestParseBrokerIDFromHostname :
  ParseBrokerIDFromHostname "kafka-0" = Ok 0 /\
  ParseBrokerIDFromHostname "kafka-1" = Ok 1 /\
  ParseBrokerIDFromHostname "kafka-99" = Ok 99 /\
  ParseBrokerIDFromHostname "my-kafka-cluster-2" = Ok 2 /\
  ParseBrokerIDFromHostname "kafka" = Err (ErrNoHyphen "kafka") /\
  ParseBrokerIDFromHostname "kafka-" = Err (ErrTrailingHyphen "kafka-") /\
  ParseBrokerIDFromHostname "kafka-abc"
  = Err (ErrParseIndex "kafka-abc" (mkNumError "ParseInt" "abc" ErrSyntax)) /\
  ParseBrokerIDFromHostname "" = Err (ErrNoHyphen "").
Proof. repeat split; vm_compute; reflexivity. Qed.

Example TestBuildBootstrapServers :
  BuildBootstrapServers "kafka" "aws-us-west-2" "test-gvc" 1 9092
  = "replica-0.kafka.aws-us-west-2.test-gvc.cpln.local:9092" /\
  BuildBootstrapServers "kafka" "aws-eu-west-1" "test-gvc" 2 9094
  = "replica-0.kafka.aws-eu-west-1.test-gvc.cpln.local:9094,replica-1.kafka.aws-eu-west-1.test-gvc.cpln.local:9094" /\
  BuildBootstrapServers "kafka" "aws-us-west-2" "test-gvc" 0 9092
  = "replica-0.kafka.aws-us-west-2.test-gvc.cpln.local:9092" /\
  BuildBootstrapServers "kafka" "aws-us-west-2" "test-gvc" (-1) 9092
  = "replica-0.kafka.aws-us-west-2.test-gvc.cpln.local:9092".
Proof. repeat split; vm_compute; reflexivity. Qed.

End DiscoveryProps.

(* ===================================================================== *)
(** * Properties of pkg/sidecar/health                                    *)
(* ===================================================================== *)

Module HealthProps.
Import GoStd Health HealthSpec.

(** ** Membership loops *)

Lemma containsID_elem (xs : list Z) (id : Z) :
  containsID xs id = true <-> id ∈ xs.
Proof.
  induction xs as [|x xs IH]; simpl.
  - split; [discriminate | intros H; inversion H].
  - destruct (Z.eqb_spec x id) as [->|Hne].
    + split; [intros _; left | reflexivity].
    + rewrite IH. split; [intros H; now right|].
      intros H. inversion H; subst; [congruence | assumption].
Qed.

Lemma brokerListed_elem (bs : list BrokerDetail) (id : Z) :
  brokerListed bs id = true <-> id ∈ NodeID <$> bs.
Proof.
  induction bs as [|b bs IH]; simpl.
  - split; [discriminate | intros H; inversion H].
  - destruct (Z.eqb_spec (NodeID b) id) as [->|Hne].
    + split; [intros _; left | reflexivity].
    + rewrite IH. split; [intros H; now right|].
      intros H. inversion H; subst; [congruence | assumption].
Qed.

Lemma brokerListed_absent (bs : list BrokerDetail) (id : Z) :
  id ∉ NodeID <$> bs -> brokerListed bs id = false.
Proof.
  intros H. destruct (brokerListed bs id) eqn:E; [|reflexivity].
  apply brokerListed_elem in E. contradiction.
Qed.

(** ** Under-replicated partitions *)

Lemma countPartition_spec (id : Z) (p : PartitionDetail) (n : Z) :
  countPartition id p n
  = n + (if decide (underReplicatedFor id p) then 1 else 0).
Proof.
  unfold countPartition, underReplicatedFor.
  destruct (containsID (Replicas p) id) eqn:Hr; simpl.
  - apply containsID_elem in Hr.
    destruct (containsID (ISR p) id) eqn:Hi; simpl.
    + apply containsID_elem in Hi.
      destruct (decide _) as [[_ H]|_]; [contradiction | lia].
    + destruct (decide _) as [_|H]; [reflexivity|].
      exfalso. apply H. split; [assumption|].
      intros Hin. apply containsID_elem in Hin. congruence.
  - destruct (decide _) as [[H _]|_]; [|lia].
    apply containsID_elem in H. congruence.
Qed.

Lemma count_partitions_loop (id : Z) (l : list (Z * PartitionDetail)) :
  forall n,
  fold_left (fun n '(_, partition) => countPartition id partition n) l n
  = n + Z.of_nat (length (filter (underReplicatedFor id) (l.*2))).
Proof.
  induction l as [|[k p] l IH]; intros n; [simpl; lia|].
  cbn [fold_left]. rewrite fmap_cons. cbn [snd].
  rewrite IH, countPartition_spec, filter_cons.
  destruct (decide (underReplicatedFor id p)); cbn [length]; lia.
Qed.

(** The order in which [range] visits the partitions has no effect. *)
Lemma count_partitions_order (id : Z) (l l' : list (Z * PartitionDetail)) n :
  l ≡ₚ l' ->
  fold_left (fun n '(_, partition) => countPartition id partition n) l n
  = fold_left (fun n '(_, partition) => countPartition id partition n) l' n.
Proof.
  intros Hp. rewrite !count_partitions_loop. now rewrite Hp.
Qed.

Lemma count_topics_loop (id : Z) (l : list (string * TopicDetail)) :
  forall n,
  fold_left (fun n '(_, topic) =>
    fold_left (fun n '(_, partition) => countPartition id partition n)
      (range_map (Partitions topic)) n) l n
  = n + Z.of_nat (length (filter (underReplicatedFor id)
        (concat ((fun kt => (map_to_list (Partitions kt.2)).*2) <$> l)))).
Proof.
  induction l as [|[k t] l IH]; intros n; [simpl; lia|].
  cbn [fold_left]. rewrite fmap_cons. cbn [concat snd].
  rewrite IH, count_partitions_loop.
  rewrite filter_app, length_app. unfold range_map. lia.
Qed.

Lemma countUnderReplicated_spec (id : Z) (metadata : MetadataT) :
  countUnderReplicated id metadata
  = Z.of_nat (length (filter (underReplicatedFor id) (allPartitions metadata))).
Proof.
  unfold countUnderReplicated, allPartitions, range_map.
  rewrite count_topics_loop. lia.
Qed.

(** C2.  When the metadata call succeeds, [UnderReplicatedPartitions]
    returns, with a nil error, the number of partitions (taken over all
    topics, each partition counted once) whose replica list holds the
    broker ID and whose ISR list does not.  One such partition in each of
    two topics gives 2, and a broker that is in no replica list gives 0
    whatever the ISR lists hold. *)
Theorem UnderReplicatedPartitions_spec (c : Checker) (adm : KafkaAdminClient)
  (log : list Call) (metadata : MetadataT) :
  Metadata adm log = Ok metadata ->
  UnderReplicatedPartitions c adm log
  = ((Z.of_nat (length (filter (underReplicatedFor (brokerID c))
                          (allPartitions metadata))), None),
     log ++ [CallMetadata]) /\
  ((forall p, p ∈ allPartitions metadata -> brokerID c ∉ Replicas p) ->
   UnderReplicatedPartitions c adm log = ((0, None), log ++ [CallMetadata])) /\
  countUnderReplicated 0 twoTopics = 2.
Proof.
  intros Hmd.
  assert (Hrun : UnderReplicatedPartitions c adm log
                 = ((countUnderReplicated (brokerID c) metadata, None),
                    log ++ [CallMetadata])).
  { unfold UnderReplicatedPartitions, mbind, M_bind, bind, callMetadata.
    rewrite Hmd. reflexivity. }
  rewrite Hrun, countUnderReplicated_spec.
  split; [reflexivity|]. split; [|vm_compute; reflexivity].
  intros Hno. do 3 f_equal.
  destruct (filter _ (allPartitions metadata)) as [|p l] eqn:E; [reflexivity|].
  assert (Hp : p ∈ filter (underReplicatedFor (brokerID c))
                      (allPartitions metadata)) by (rewrite E; left).
  apply list_elem_of_filter in Hp as [[Hr _] Hp].
  exfalso. exact (Hno p Hp Hr).
Qed.

(** The theorem at the two-topic snapshot, for broker 0. *)
Lemma UnderReplicatedPartitions_spec_witness :
  UnderReplicatedPartitions
    (testChecker 0 (Ok (fakeClient (Ok twoTopics) (Ok ∅))))
    (fakeClient (Ok twoTopics) (Ok ∅)) []
  = ((2, None), [CallMetadata]).
Proof.
  exact (proj1 (UnderReplicatedPartitions_spec
                  (testChecker 0 (Ok (fakeClient (Ok twoTopics) (Ok ∅))))
                  (fakeClient (Ok twoTopics) (Ok ∅)) [] twoTopics eq_refl)).
Defined.

(** ** Log directories *)

Lemma firstDirErr_None (l : list (string * DescribedLogDir)) :
  firstDirErr l = None <-> forall k d, (k, d) ∈ l -> DirErr d = None.
Proof.
  induction l as [|[k d] l IH]; simpl.
  - split; [intros _ k d H; inversion H | reflexivity].
  - destruct (DirErr d) as [e|] eqn:He.
    + split; [discriminate|]. intros H.
      specialize (H k d ltac:(left)). congruence.
    + rewrite IH. split.
      * intros H k' d' Hin. inversion Hin; subst; eauto.
      * intros H k' d' Hin. apply (H k'). now right.
Qed.

Lemma DescribedLogDirs_Error_None (ds : gmap string DescribedLogDir) :
  DescribedLogDirs_Error ds = None <-> ~ dirError ds.
Proof.
  unfold DescribedLogDirs_Error, range_map, dirError.
  rewrite firstDirErr_None. split.
  - intros H (path & d & Hd & He).
    apply elem_of_map_to_list in Hd. rewrite (H _ _ Hd) in He.
    destruct He; discriminate.
  - intros H k d Hin. apply elem_of_map_to_list in Hin.
    destruct (DirErr d) eqn:He; [|reflexivity].
    exfalso. apply H. exists k, d. rewrite He. eauto.
Qed.

(** A loop that only ever sets the flag ends with the flag set exactly
    when it was set before or some visited element sets it. *)
Lemma flag_loop {A} (step : bool -> A -> bool) (sets : A -> Prop)
  (l : list A) :
  (forall b x, step b x = true <-> b = true \/ sets x) ->
  forall b, fold_left step l b = true <-> b = true \/ exists x, x ∈ l /\ sets x.
Proof.
  intros Hstep. induction l as [|a l IH]; intros b; simpl.
  - split; [now left | intros [H|(x & H & _)]; [assumption | inversion H]].
  - rewrite IH, Hstep. split.
    + intros [[H|H]|(x & Hin & Hx)].
      * now left.
      * right. exists a. split; [left | assumption].
      * right. exists x. split; [now right | assumption].
    + intros [H|(x & Hin & Hx)].
      * left. now left.
      * inversion Hin; subst.
        -- left. now right.
        -- right. eauto.
Qed.

Lemma EachPartition_markFuture (ds : gmap string DescribedLogDir) :
  DescribedLogDirs_EachPartition ds markFuture false = true
  <-> futurePlacement ds.
Proof.
  unfold DescribedLogDirs_EachPartition, range_map.
  rewrite (flag_loop _ (fun kd : string * DescribedLogDir =>
             exists topic ps n p, DirTopics kd.2 !! topic = Some ps /\
               ps !! n = Some p /\ IsFuture p = true)).
  - unfold futurePlacement. split.
    + intros [H|([path d] & Hin & topic & ps & n & p & H)]; [discriminate|].
      apply elem_of_map_to_list in Hin. exists path, d, topic, ps, n, p. eauto.
    + intros (path & d & topic & ps & n & p & Hd & H). right.
      exists (path, d). split; [now apply elem_of_map_to_list|].
      exists topic, ps, n, p. exact H.
  - intros b [path d]. cbn [snd].
    rewrite (flag_loop _ (fun kps : string * gmap Z DescribedLogDirPartition =>
               exists n p, kps.2 !! n = Some p /\ IsFuture p = true)).
    + split.
      * intros [H|([topic ps] & Hin & n & p & H)]; [now left|].
        apply elem_of_map_to_list in Hin. right. exists topic, ps, n, p. eauto.
      * intros [H|(topic & ps & n & p & Ht & H)]; [now left|]. right.
        exists (topic, ps). split; [now apply elem_of_map_to_list|].
        exists n, p. exact H.
    + intros b' [topic ps]. cbn [snd].
      rewrite (flag_loop _ (fun np : Z * DescribedLogDirPartition =>
                 IsFuture np.2 = true)).
      * split.
        -- intros [H|([n p] & Hin & H)]; [now left|].
           apply elem_of_map_to_list in Hin. right. exists n, p. eauto.
        -- intros [H|(n & p & Hn & H)]; [now left|]. right.
           exists (n, p). split; [now apply elem_of_map_to_list | exact H].
      * intros b'' [n p]. unfold markFuture. cbn [snd].
        destruct (IsFuture p), b''; intuition discriminate.
Qed.

(** C5.  [LogDirsHealthy] returns an error exactly when the describe call
    fails, and the error carries the text of the transport error.  When
    the call succeeds the error is nil and the verdict is [false] as soon
    as a directory carries its own error or a placement in any directory
    is flagged future, each of the two being enough on its own; it is
    [true] when neither is the case. *)
Theorem LogDirsHealthy_spec (c : Checker) (adm : KafkaAdminClient)
  (log : list Call) :
  match DescribeBrokerLogDirs adm log (brokerID c) with
  | Err e =>
      LogDirsHealthy c adm log
      = ((false, Some ("failed to describe log dirs: " +:+ e)),
         log ++ [CallDescribeBrokerLogDirs (brokerID c)])
  | Ok logDirs =>
      exists healthy,
        LogDirsHealthy c adm log
        = ((healthy, None), log ++ [CallDescribeBrokerLogDirs (brokerID c)]) /\
        (dirError logDirs -> healthy = false) /\
        (futurePlacement logDirs -> healthy = false) /\
        (~ dirError logDirs -> ~ futurePlacement logDirs -> healthy = true)
  end.
Proof.
  unfold LogDirsHealthy, mbind, M_bind, bind, callDescribeBrokerLogDirs.
  destruct (DescribeBrokerLogDirs adm log (brokerID c)) as [logDirs|e];
    [|reflexivity].
  pose proof (DescribedLogDirs_Error_None logDirs) as Herr.
  pose proof (EachPartition_markFuture logDirs) as Hfut.
  unfold markFuture in Hfut.
  destruct (DescribedLogDirs_Error logDirs) as [e|].
  - exists false. split; [reflexivity|]. repeat split; try reflexivity.
    intros Hno _. destruct Herr as [_ Herr]. specialize (Herr Hno).
    discriminate.
  - eexists. split; [reflexivity|].
    destruct (DescribedLogDirs_EachPartition logDirs _ false) eqn:Hf; simpl.
    + repeat split; try reflexivity.
      intros _ Hno. exfalso. apply Hno, Hfut. reflexivity.
    + split; [|split; [|reflexivity]].
      * intros Hd. exfalso. exact (proj1 Herr eq_refl Hd).
      * intros Hp. apply Hfut in Hp. discriminate.
Qed.

(** The theorem at [futureOnly]: a future placement, no directory error. *)
Lemma LogDirsHealthy_spec_witness :
  futurePlacement futureOnly /\
  fst (LogDirsHealthy (testChecker 0 (Ok (fakeClient (Ok twoTopics) (Ok futureOnly))))
         (fakeClient (Ok twoTopics) (Ok futureOnly)) [])
  = (false, None).
Proof.
  assert (Hf : futurePlacement futureOnly).
  { exists "/var/kafka-logs", (mkLogDir "/var/kafka-logs" None
         {[ "test-topic" := {[ 0 := mkLogDirPartition "test-topic" 0 true ]} ]}),
      "test-topic", {[ 0 := mkLogDirPartition "test-topic" 0 true ]},
      0, (mkLogDirPartition "test-topic" 0 true).
    repeat split. }
  split; [exact Hf|].
  destruct (LogDirsHealthy_spec
              (testChecker 0 (Ok (fakeClient (Ok twoTopics) (Ok futureOnly))))
              (fakeClient (Ok twoTopics) (Ok futureOnly)) [])
    as (healthy & Hrun & _ & Hfut & _).
  rewrite Hrun. simpl. rewrite (Hfut Hf). reflexivity.
Defined.

(** The directory error alone, and a directory with neither error nor
    future placement, evaluated. *)
Example LogDirsHealthy_dir_error_only :
  LogDirsHealthy (testChecker 0 (Ok (fakeClient (Ok twoTopics) (Ok dirErrorOnly))))
    (fakeClient (Ok twoTopics) (Ok dirErrorOnly)) []
  = ((false, None), [CallDescribeBrokerLogDirs 0]).
Proof. vm_compute. reflexivity. Qed.

Example LogDirsHealthy_no_directory :
  LogDirsHealthy (testChecker 0 (Ok (fakeClient (Ok twoTopics) (Ok ∅))))
    (fakeClient (Ok twoTopics) (Ok ∅)) []
  = ((true, None), [CallDescribeBrokerLogDirs 0]).
Proof. vm_compute. reflexivity. Qed.

Example LogDirsHealthy_transport_error :
  LogDirsHealthy
    (testChecker 0 (Ok (fakeClient (Ok twoTopics) (Err "broker not available"))))
    (fakeClient (Ok twoTopics) (Err "broker not available")) []
  = ((false, Some "failed to describe log dirs: broker not available"),
     [CallDescribeBrokerLogDirs 0]).
Proof. vm_compute. reflexivity. Qed.

(** ** What each check asks of the client *)

Lemma BrokerInMetadata_log (c : Checker) (adm : KafkaAdminClient) log :
  snd (BrokerInMetadata c adm log) = log ++ [CallMetadata].
Proof.
  unfold BrokerInMetadata, mbind, M_bind, bind, callMetadata.
  destruct (Metadata adm log); reflexivity.
Qed.

Lemma ControllerElected_log (c : Checker) (adm : KafkaAdminClient) log :
  snd (ControllerElected c adm log) = log ++ [CallMetadata].
Proof.
  unfold ControllerElected, mbind, M_bind, bind, callMetadata.
  destruct (Metadata adm log); reflexivity.
Qed.

Lemma UnderReplicatedPartitions_log (c : Checker) (adm : KafkaAdminClient) log :
  snd (UnderReplicatedPartitions c adm log) = log ++ [CallMetadata].
Proof.
  unfold UnderReplicatedPartitions, mbind, M_bind, bind, callMetadata.
  destruct (Metadata adm log); reflexivity.
Qed.

Lemma LogDirsHealthy_log (c : Checker) (adm : KafkaAdminClient) log :
  snd (LogDirsHealthy c adm log)
  = log ++ [CallDescribeBrokerLogDirs (brokerID c)].
Proof.
  unfold LogDirsHealthy, mbind, M_bind, bind, callDescribeBrokerLogDirs.
  destruct (DescribeBrokerLogDirs adm log (brokerID c)) as [logDirs|e];
    [|reflexivity].
  destruct (DescribedLogDirs_Error logDirs); reflexivity.
Qed.

Lemma BrokerInMetadata_run (c : Checker) (adm : KafkaAdminClient) log md :
  Metadata adm log = Ok md ->
  BrokerInMetadata c adm log
  = ((brokerListed (Brokers md) (brokerID c), None), log ++ [CallMetadata]).
Proof.
  intros H. unfold BrokerInMetadata, mbind, M_bind, bind, callMetadata.
  rewrite H. reflexivity.
Qed.

Lemma ControllerElected_run (c : Checker) (adm : KafkaAdminClient) log md :
  Metadata adm log = Ok md ->
  ControllerElected c adm log
  = ((Controller md >=? 0, None), log ++ [CallMetadata]).
Proof.
  intros H. unfold ControllerElected, mbind, M_bind, bind, callMetadata.
  rewrite H. reflexivity.
Qed.

Lemma UnderReplicatedPartitions_run (c : Checker) (adm : KafkaAdminClient)
  log md :
  Metadata adm log = Ok md ->
  UnderReplicatedPartitions c adm log
  = ((countUnderReplicated (brokerID c) md, None), log ++ [CallMetadata]).
Proof.
  intros H. unfold UnderReplicatedPartitions, mbind, M_bind, bind, callMetadata.
  rewrite H. reflexivity.
Qed.

(** ** Liveness and readiness *)

Ltac unfold_run :=
  unfold run, CheckReadiness, CheckLiveness, ReadinessHandler,
    LivenessHandler, withCleanup, callCleanup, mbind, M_bind, bind, ret.

(** C1.  [CheckReadiness] runs registration, controller election, replica
    synchronization and log-directory health in this order and stops at
    the first check that fails.  Against a client that answers every
    metadata call with the same snapshot, the client sees one metadata
    call when registration fails, two when the controller check fails,
    three when the replica check fails, and the log-directory call only
    after all three have passed.  For any client whose first metadata
    answer lacks the broker ID, the verdict is unhealthy with the message
    "broker not registered in cluster metadata", and the client has
    received that one metadata call and the cleanup, nothing else. *)
Theorem CheckReadiness_order (c : Checker) :
  (forall adm md,
     clientFactory c = Ok adm -> Metadata adm [] = Ok md ->
     brokerID c ∉ NodeID <$> Brokers md ->
     run (CheckReadiness c)
     = (mkResult false "broker not registered in cluster metadata",
        [CallMetadata; CallCleanup])) /\
  (forall md logDirs,
     clientFactory c = Ok (fakeClient (Ok md) logDirs) ->
     brokerID c ∈ NodeID <$> Brokers md ->
     (Controller md < 0 ->
      run (CheckReadiness c)
      = (mkResult false "no controller elected",
         [CallMetadata; CallMetadata; CallCleanup])) /\
     (0 <= Controller md -> 0 < countUnderReplicated (brokerID c) md ->
      run (CheckReadiness c)
      = (mkResult false "broker has under-replicated partitions",
         [CallMetadata; CallMetadata; CallMetadata; CallCleanup])) /\
     (0 <= Controller md -> countUnderReplicated (brokerID c) md <= 0 ->
      snd (run (CheckReadiness c))
      = [CallMetadata; CallMetadata; CallMetadata;
         CallDescribeBrokerLogDirs (brokerID c); CallCleanup])).
Proof.
  split.
  - intros adm md Hf Hmd Habs. unfold_run. rewrite Hf.
    rewrite (BrokerInMetadata_run c adm [] md Hmd).
    rewrite (brokerListed_absent _ _ Habs). reflexivity.
  - intros md logDirs Hf Hin.
    apply brokerListed_elem in Hin.
    set (adm := fakeClient (Ok md) logDirs) in *.
    assert (Hmd : forall log, Metadata adm log = Ok md) by reflexivity.
    repeat split.
    + intros Hc. unfold_run. rewrite Hf.
      rewrite (BrokerInMetadata_run c adm _ md (Hmd _)), Hin. cbn [negb].
      rewrite (ControllerElected_run c adm _ md (Hmd _)).
      destruct (Z.geb_spec (Controller md) 0); [lia | reflexivity].
    + intros Hc Hu. unfold_run. rewrite Hf.
      rewrite (BrokerInMetadata_run c adm _ md (Hmd _)), Hin. cbn [negb].
      rewrite (ControllerElected_run c adm _ md (Hmd _)).
      destruct (Z.geb_spec (Controller md) 0); [|lia]. cbn [negb].
      rewrite (UnderReplicatedPartitions_run c adm _ md (Hmd _)).
      destruct (Z.gtb_spec (countUnderReplicated (brokerID c) md) 0);
        [reflexivity | lia].
    + intros Hc Hu. unfold_run. rewrite Hf.
      rewrite (BrokerInMetadata_run c adm _ md (Hmd _)), Hin. cbn [negb].
      rewrite (ControllerElected_run c adm _ md (Hmd _)).
      destruct (Z.geb_spec (Controller md) 0); [|lia]. cbn [negb].
      rewrite (UnderReplicatedPartitions_run c adm _ md (Hmd _)).
      destruct (Z.gtb_spec (countUnderReplicated (brokerID c) md) 0); [lia|].
      pose proof (LogDirsHealthy_log c adm
                    ((([] ++ [CallMetadata]) ++ [CallMetadata]) ++ [CallMetadata]))
        as Hl.
      destruct (LogDirsHealthy c adm _) as [[h [e|]] l4]; simpl in Hl; subst l4.
      * reflexivity.
      * destruct h; reflexivity.
Qed.

Lemma brokers01_lacks_5 : 5 ∉ NodeID <$> Brokers brokers01.
Proof.
  intros H. apply list_elem_of_In in H. simpl in H.
  destruct H as [H|[H|[]]]; discriminate.
Qed.

Lemma CheckReadiness_order_witness :
  (5 ∉ NodeID <$> Brokers brokers01) /\
  run (CheckReadiness (testChecker 5 (Ok (fakeClient (Ok brokers01) (Ok ∅)))))
  = (mkResult false "broker not registered in cluster metadata",
     [CallMetadata; CallCleanup]).
Proof.
  split; [exact brokers01_lacks_5|].
  exact (proj1 (CheckReadiness_order
                  (testChecker 5 (Ok (fakeClient (Ok brokers01) (Ok ∅)))))
           (fakeClient (Ok brokers01) (Ok ∅)) brokers01 eq_refl eq_refl
           brokers01_lacks_5).
Defined.

(** C7.  [CheckLiveness] performs the registration check and nothing
    else: whatever the client answers, it receives one metadata call and
    the cleanup, and never a log-directory call (each of the controller
    and replica checks would add a metadata call of its own).  When the
    snapshot lacks the broker ID the verdict is unhealthy with the
    message "broker not found in cluster metadata"; when it holds the
    broker ID the verdict is healthy with the empty message. *)
Theorem CheckLiveness_spec (c : Checker) (adm : KafkaAdminClient) :
  clientFactory c = Ok adm ->
  snd (run (CheckLiveness c)) = [CallMetadata; CallCleanup] /\
  (forall md, Metadata adm [] = Ok md ->
     (brokerID c ∉ NodeID <$> Brokers md ->
      fst (run (CheckLiveness c))
      = mkResult false "broker not found in cluster metadata") /\
     (brokerID c ∈ NodeID <$> Brokers md ->
      fst (run (CheckLiveness c)) = mkResult true "")).
Proof.
  intros Hf. split.
  - unfold_run. rewrite Hf.
    pose proof (BrokerInMetadata_log c adm []) as Hl.
    destruct (BrokerInMetadata c adm []) as [[found [e|]] l1];
      simpl in Hl; subst l1; [reflexivity|].
    destruct found; reflexivity.
  - intros md Hmd. split; intros Hb; unfold_run; rewrite Hf;
      rewrite (BrokerInMetadata_run c adm [] md Hmd).
    + rewrite (brokerListed_absent _ _ Hb). reflexivity.
    + apply brokerListed_elem in Hb. rewrite Hb. reflexivity.
Qed.

Lemma CheckLiveness_spec_witness :
  run (CheckLiveness (testChecker 5 (Ok (fakeClient (Ok brokers01) (Ok ∅)))))
  = (mkResult false "broker not found in cluster metadata",
     [CallMetadata; CallCleanup]).
Proof.
  destruct (CheckLiveness_spec
              (testChecker 5 (Ok (fakeClient (Ok brokers01) (Ok ∅))))
              (fakeClient (Ok brokers01) (Ok ∅)) eq_refl) as [Hlog Hres].
  apply injective_projections; [|exact Hlog].
  apply (proj1 (Hres brokers01 eq_refl)).
  exact brokers01_lacks_5.
Defined.

(** C6, as the code has it.  When the first three readiness checks pass
    and the log-directory check returns a structural failure (no error),
    [CheckReadiness] reports exactly "log directories unhealthy"; the
    HTTP handler answers 503 with the error field
    "log directories unhealthy (future partitions detected)". *)
Theorem Readiness_log_directories_message (c : Checker)
  (adm : KafkaAdminClient) (l1 l2 l3 l4 : list Call) (n : Z) :
  clientFactory c = Ok adm ->
  BrokerInMetadata c adm [] = ((true, None), l1) ->
  ControllerElected c adm l1 = ((true, None), l2) ->
  UnderReplicatedPartitions c adm l2 = ((n, None), l3) -> n <= 0 ->
  LogDirsHealthy c adm l3 = ((false, None), l4) ->
  fst (run (CheckReadiness c)) = mkResult false "log directories unhealthy" /\
  fst (run (ReadinessHandler c))
  = (StatusServiceUnavailable,
     mkReadiness "unhealthy" (brokerID c) true true n false
       "log directories unhealthy (future partitions detected)").
Proof.
  intros Hf H1 H2 H3 Hn H4.
  split; unfold_run; rewrite Hf, H1; cbn [negb]; rewrite H2; cbn [negb];
    rewrite H3; (destruct (Z.gtb_spec n 0); [lia|]); rewrite H4; reflexivity.
Qed.

(** The theorem at [futureChecker]. *)
Lemma Readiness_log_directories_message_witness :
  fst (run (CheckReadiness futureChecker))
  = mkResult false "log directories unhealthy" /\
  fst (run (ReadinessHandler futureChecker))
  = (StatusServiceUnavailable,
     mkReadiness "unhealthy" 0 true true 0 false
       "log directories unhealthy (future partitions detected)").
Proof.
  apply (Readiness_log_directories_message futureChecker
           (fakeClient (Ok broker0) (Ok futureOnly))
           [CallMetadata] [CallMetadata; CallMetadata]
           [CallMetadata; CallMetadata; CallMetadata]
           [CallMetadata; CallMetadata; CallMetadata;
            CallDescribeBrokerLogDirs 0] 0);
    first [reflexivity | lia].
Defined.

(** C6 as worded does not hold for the HTTP response: at
    [futureChecker] the three first checks pass, the log-directory check
    fails without error, and the error field of the response is not
    "log directories unhealthy". *)
Lemma ReadinessHandler_message_differs :
  BrokerInMetadata futureChecker (fakeClient (Ok broker0) (Ok futureOnly)) []
  = ((true, None), [CallMetadata]) /\
  ControllerElected futureChecker (fakeClient (Ok broker0) (Ok futureOnly))
    [CallMetadata]
  = ((true, None), [CallMetadata; CallMetadata]) /\
  UnderReplicatedPartitions futureChecker
    (fakeClient (Ok broker0) (Ok futureOnly)) [CallMetadata; CallMetadata]
  = ((0, None), [CallMetadata; CallMetadata; CallMetadata]) /\
  fst (LogDirsHealthy futureChecker (fakeClient (Ok broker0) (Ok futureOnly))
         [CallMetadata; CallMetadata; CallMetadata])
  = (false, None) /\
  RErrorMessage (snd (fst (run (ReadinessHandler futureChecker))))
  <> "log directories unhealthy".
Proof.
  repeat split; try (vm_compute; reflexivity).
  vm_compute. discriminate.
Qed.

(** ** SASL mechanism selection *)

Lemma map_bytes_no_lower (s : string) :
  all_bytes (fun c => negb (is_ascii_lower c)) s = true ->
  map_bytes upper_byte s = s.
Proof.
  induction s as [|a s IH]; cbn [all_bytes map_bytes]; [reflexivity|].
  intros H. apply andb_prop in H as [Ha Hs].
  rewrite (IH Hs). unfold upper_byte.
  apply negb_true_iff in Ha. rewrite Ha. reflexivity.
Qed.

(** On ASCII strings [ToUpper] maps every byte with [upper_byte]. *)
Lemma ToUpper_ascii `{Unicode} (s : string) :
  all_bytes (fun c => byte c <? RuneSelf) s = true ->
  ToUpper s = map_bytes upper_byte s.
Proof.
  intros Ha. unfold ToUpper. rewrite Ha.
  destruct (all_bytes (fun c => negb (is_ascii_lower c)) s) eqn:Hl; simpl.
  - symmetry. apply map_bytes_no_lower. assumption.
  - reflexivity.
Qed.

(** C8.  [getSASLOpt] selects an authentication option exactly when the
    upper-cased mechanism is "PLAIN", "SCRAM-SHA-256" or "SCRAM-SHA-512",
    and fails with the unsupported-mechanism error for every other
    string.  The match does not see the case of ASCII letters ("plain"
    and "Scram-Sha-512" are accepted); the empty string and "GSSAPI" are
    refused; with SASL enabled the refusal makes the client construction
    fail. *)
Theorem getSASLOpt_spec `{Unicode} (c : Checker) :
  let cfg := saslConfig c in
  let m := ToUpper (Mechanism cfg) in
  (is_ok (getSASLOpt c) = true <-> m ∈ supportedMechanisms) /\
  (m ∉ supportedMechanisms -> getSASLOpt c = Err (unsupported m)) /\
  (m = "PLAIN" ->
   getSASLOpt c = Ok (SASLPlain (Username cfg) (Password cfg))) /\
  (m = "SCRAM-SHA-256" ->
   getSASLOpt c = Ok (SASLScramSha256 (Username cfg) (Password cfg))) /\
  (m = "SCRAM-SHA-512" ->
   getSASLOpt c = Ok (SASLScramSha512 (Username cfg) (Password cfg))) /\
  (all_bytes (fun b => byte b <? RuneSelf) (Mechanism cfg) = true ->
   m = map_bytes upper_byte (Mechanism cfg)) /\
  (Mechanism cfg = "" \/ Mechanism cfg = "GSSAPI" ->
   is_err (getSASLOpt c) = true) /\
  (Mechanism cfg = "plain" \/ Mechanism cfg = "Scram-Sha-512" ->
   is_ok (getSASLOpt c) = true) /\
  (forall NewClient, Enabled cfg = true -> m ∉ supportedMechanisms ->
   defaultClientFactory NewClient c
   = Err ("failed to configure SASL: " +:+ unsupported m)).
Proof.
  intros cfg m.
  assert (Hcases :
    (m = "PLAIN" /\
     getSASLOpt c = Ok (SASLPlain (Username cfg) (Password cfg))) \/
    (m = "SCRAM-SHA-256" /\
     getSASLOpt c = Ok (SASLScramSha256 (Username cfg) (Password cfg))) \/
    (m = "SCRAM-SHA-512" /\
     getSASLOpt c = Ok (SASLScramSha512 (Username cfg) (Password cfg))) \/
    ((m ∉ supportedMechanisms) /\ getSASLOpt c = Err (unsupported m))).
  { unfold getSASLOpt. fold cfg. fold m.
    destruct (String.eqb_spec m "PLAIN") as [E1|N1]; [left; auto|].
    destruct (String.eqb_spec m "SCRAM-SHA-256") as [E2|N2]; [right; left; auto|].
    destruct (String.eqb_spec m "SCRAM-SHA-512") as [E3|N3];
      [right; right; left; auto|].
    right; right; right. split; [|reflexivity].
    unfold supportedMechanisms. intros Hin.
    apply list_elem_of_In in Hin. simpl in Hin. intuition congruence. }
  assert (Hin : forall x, x ∈ supportedMechanisms <->
                x = "PLAIN" \/ x = "SCRAM-SHA-256" \/ x = "SCRAM-SHA-512").
  { intros x. unfold supportedMechanisms. rewrite list_elem_of_In. simpl.
    intuition congruence. }
  assert (Hok : is_ok (getSASLOpt c) = true <-> m ∈ supportedMechanisms).
  { rewrite Hin.
    destruct Hcases as [[E ->]|[[E ->]|[[E ->]|[N ->]]]]; simpl; try tauto.
    split; [discriminate|]. intros Hm. exfalso. apply N, Hin, Hm. }
  assert (Hbad : m ∉ supportedMechanisms -> getSASLOpt c = Err (unsupported m)).
  { intros N. destruct Hcases as [[E _]|[[E _]|[[E _]|[_ Hr]]]];
      try exact Hr; exfalso; apply N, Hin; tauto. }
  split; [exact Hok|]. split; [exact Hbad|].
  split; [|split; [|split]].
  1-3: intros E; destruct Hcases as [[E' Hr]|[[E' Hr]|[[E' Hr]|[N _]]]];
       try exact Hr; try congruence; exfalso; apply N, Hin; tauto.
  split; [apply ToUpper_ascii|].
  split; [|split].
  - intros Hm. unfold is_err. rewrite Hbad; [reflexivity|].
    subst m. destruct Hm as [-> | ->]; intros Hx; apply Hin in Hx;
      vm_compute in Hx; intuition discriminate.
  - intros Hm. apply Hok, Hin. subst m.
    destruct Hm as [-> | ->]; vm_compute; tauto.
  - intros NewClient He N. unfold defaultClientFactory. fold cfg.
    rewrite He, (Hbad N). reflexivity.
Qed.

(** The theorem at the lower-case mechanism "plain". *)
Lemma getSASLOpt_spec_witness :
  is_ok (@getSASLOpt asciiOnly
           (mkChecker 0 ["localhost:9092"] (mkSASL true "plain" "user" "pass")
              (Err "unused"))) = true.
Proof.
  apply (@getSASLOpt_spec asciiOnly
           (mkChecker 0 ["localhost:9092"] (mkSASL true "plain" "user" "pass")
              (Err "unused"))).
  left. reflexivity.
Defined.

(** ** The cases of the package's tests, evaluated *)

Example TestUnderReplicatedPartitions :
  countUnderReplicated 0
    (mkMetadata 0 []
       {[ "test-topic" := mkTopic
            (<[0 := mkPartition 0 [0; 1; 2] [0; 1; 2]]>
               {[ 1 := mkPartition 1 [0; 1; 2] [0; 1; 2] ]}) ]}) = 0 /\
  countUnderReplicated 0
    (mkMetadata 0 []
       {[ "test-topic" := mkTopic
            (<[0 := mkPartition 0 [0; 1; 2] [1; 2]]>
               {[ 1 := mkPartition 1 [0; 1; 2] [0; 1; 2] ]}) ]}) = 1 /\
  countUnderReplicated 3
    (mkMetadata 0 []
       {[ "test-topic" := mkTopic
            {[ 0 := mkPartition 0 [0; 1; 2] [0; 1] ]} ]}) = 0 /\
  UnderReplicatedPartitions (testChecker 0 (Err "unused"))
    (fakeClient (Err "connection lost") (Ok ∅)) []
  = ((-1, Some "failed to fetch metadata: connection lost"), [CallMetadata]).
Proof. repeat split; vm_compute; reflexivity. Qed.

Example TestCheckLiveness :
  run (CheckLiveness (testChecker 0 (Ok (fakeClient (Ok broker0) (Ok ∅)))))
  = (mkResult true "", [CallMetadata; CallCleanup]) /\
  run (CheckLiveness (testChecker 5 (Ok (fakeClient (Ok broker0) (Ok ∅)))))
  = (mkResult false "broker not found in cluster metadata",
     [CallMetadata; CallCleanup]) /\
  run (CheckLiveness (testChecker 0 (Err "connection refused")))
  = (mkResult false "connection refused", []) /\
  run (CheckLiveness
         (testChecker 0 (Ok (fakeClient (Err "network error") (Ok ∅)))))
  = (mkResult false "failed to fetch metadata: network error",
     [CallMetadata; CallCleanup]).
Proof. repeat split; vm_compute; reflexivity. Qed.

Example TestCheckReadiness :
  run (CheckReadiness (testChecker 0 (Ok (fakeClient (Ok broker0) (Ok ∅)))))
  = (mkResult true "",
     [CallMetadata; CallMetadata; CallMetadata;
      CallDescribeBrokerLogDirs 0; CallCleanup]) /\
  run (CheckReadiness (testChecker 0 (Err "connection refused")))
  = (mkResult false "connection refused", []) /\
  run (CheckReadiness (testChecker 5 (Ok (fakeClient (Ok broker0) (Ok ∅)))))
  = (mkResult false "broker not registered in cluster metadata",
     [CallMetadata; CallCleanup]) /\
  run (CheckReadiness
         (testChecker 0
            (Ok (fakeClient (Ok (mkMetadata (-1) [mkBroker 0] ∅)) (Ok ∅)))))
  = (mkResult false "no controller elected",
     [CallMetadata; CallMetadata; CallCleanup]) /\
  run (CheckReadiness
         (testChecker 0
            (Ok (fakeClient
                   (Ok (mkMetadata 0 [mkBroker 0]
                          {[ "test" := mkTopic
                               {[ 0 := mkPartition 0 [0] [] ]} ]}))
                   (Ok ∅)))))
  = (mkResult false "broker has under-replicated partitions",
     [CallMetadata; CallMetadata; CallMetadata; CallCleanup]) /\
  run (CheckReadiness futureChecker)
  = (mkResult false "log directories unhealthy",
     [CallMetadata; CallMetadata; CallMetadata;
      CallDescribeBrokerLogDirs 0; CallCleanup]) /\
  run (CheckReadiness
         (testChecker 0
            (Ok (fakeClient (Ok broker0) (Err "log dir error")))))
  = (mkResult false "failed to describe log dirs: log dir error",
     [CallMetadata; CallMetadata; CallMetadata;
      CallDescribeBrokerLogDirs 0; CallCleanup]).
Proof. repeat split; vm_compute; reflexivity. Qed.

Example TestGetSASLOpt :
  let checker m :=
    mkChecker 0 ["localhost:9092"] (mkSASL true m "user" "pass") (Err "unused") in
  @getSASLOpt asciiOnly (checker "PLAIN") = Ok (SASLPlain "user" "pass") /\
  @getSASLOpt asciiOnly (checker "plain") = Ok (SASLPlain "user" "pass") /\
  @getSASLOpt asciiOnly (checker "SCRAM-SHA-256")
  = Ok (SASLScramSha256 "user" "pass") /\
  @getSASLOpt asciiOnly (checker "SCRAM-SHA-512")
  = Ok (SASLScramSha512 "user" "pass") /\
  @getSASLOpt asciiOnly (checker "GSSAPI") = Err (unsupported "GSSAPI") /\
  @getSASLOpt asciiOnly (checker "") = Err (unsupported "").
Proof. repeat split; vm_compute; reflexivity. Qed.

End HealthProps.

(* ===================================================================== *)
(** * Properties of pkg/sidecar/metrics                                   *)
(* ===================================================================== *)

Module MetricsProps.
Import GoStd GoStdSpec GoStdFacts Metrics MetricsSpec.

Lemma readUint64FromFile_range `{Unicode} (os : OS) (path : string) (v : Z) :
  readUint64FromFile os path = (v, None) -> is_uint64 v.
Proof.
  unfold readUint64FromFile, is_uint64.
  destruct (ReadFile os path) as [data|e]; [|discriminate].
  destruct (String.eqb (TrimSpace data) "max").
  - intros [= <-]. lia.
  - destruct (ParseUint (TrimSpace data) 10 64) as [w [e|]] eqn:Hp;
      [discriminate|].
    intros [= <-]. apply (ParseUint_ok_range _ 64 w) in Hp; lia.
Qed.


Lemma statLine_range `{Unicode} (stats : gmap string Z) (line : string) :
  map_Forall (fun _ v => is_uint64 v) stats ->
  map_Forall (fun _ v => is_uint64 v) (statLine stats line).
Proof.
  intros Hs. unfold statLine.
  destruct (Fields line) as [|key [|val [|? ?]]]; try assumption.
  destruct (ParseUint val 10 64) as [w [e|]] eqn:Hp; [assumption|].
  apply map_Forall_insert_2; [|assumption].
  apply (ParseUint_ok_range _ 64 w) in Hp; [exact Hp | lia].
Qed.

Lemma stat_lines_range `{Unicode} (lines : list string) :
  forall stats,
  map_Forall (fun _ v => is_uint64 v) stats ->
  map_Forall (fun _ v => is_uint64 v) (fold_left statLine lines stats).
Proof.
  induction lines as [|line lines IH]; intros stats Hs; simpl; [assumption|].
  apply IH, statLine_range, Hs.
Qed.

Lemma stat_range (stats : gmap string Z) (key : string) :
  map_Forall (fun _ v => is_uint64 v) stats -> is_uint64 (stat stats key).
Proof.
  intros Hs. unfold stat.
  destruct (stats !! key) as [v|] eqn:Hk; simpl.
  - exact (Hs key v Hk).
  - unfold is_uint64. lia.
Qed.

Lemma V1_readMemoryStat_range `{Unicode} os r stats :
  V1.readMemoryStat os r = Ok stats ->
  map_Forall (fun _ v => is_uint64 v) stats.
Proof.
  unfold V1.readMemoryStat.
  destruct (ScanFile os _) as [[lines [e|]]|e]; try discriminate.
  intros [= <-]. apply stat_lines_range, map_Forall_empty.
Qed.

Lemma V2_readMemoryStat_range `{Unicode} os r stats :
  V2.readMemoryStat os r = Ok stats ->
  map_Forall (fun _ v => is_uint64 v) stats.
Proof.
  unfold V2.readMemoryStat.
  destruct (ScanFile os _) as [[lines [e|]]|e]; try discriminate.
  intros [= <-]. apply stat_lines_range, map_Forall_empty.
Qed.

(** The derived fields computed from raw values of the [uint64] range. *)
Lemma derived_of_raw (usage limit rss inactiveFile : Z) (m : MemoryMetrics) :
  is_uint64 usage -> is_uint64 limit -> is_uint64 inactiveFile ->
  m = (let metrics :=
         setInactiveFile inactiveFile
           (setRSS rss (setLimit limit (setUsage usage zeroMetrics))) in
       let metrics :=
         if Usage metrics >=? InactiveFile metrics
         then setWorkingSet
                ((Usage metrics - InactiveFile metrics) mod 2 ^ 64) metrics
         else metrics in
       if Limit metrics >? 0 then
         let metrics :=
           setOOMRatio (float64_div (float64_of_uint64 (WorkingSet metrics))
                                    (float64_of_uint64 (Limit metrics)))
             metrics in
         setOOMFloorRatio (float64_div (float64_of_uint64 (RSS metrics))
                                       (float64_of_uint64 (Limit metrics)))
           metrics
       else metrics) ->
  Usage m = usage /\ Limit m = limit /\ RSS m = rss /\
  InactiveFile m = inactiveFile /\ derivedFrom m.
Proof.
  unfold is_uint64, derivedFrom. intros Hu Hl Hi ->.
  cbv [setInactiveFile setRSS setLimit setUsage zeroMetrics setWorkingSet
       setOOMRatio setOOMFloorRatio Usage InactiveFile Limit RSS].
  destruct (Z.geb_spec usage inactiveFile) as [Hge|Hlt];
    destruct (Z.gtb_spec limit 0) as [Hpos|Hzero];
    cbv [WorkingSet OOMRatio OOMFloorRatio Usage InactiveFile Limit RSS];
    try rewrite (Z.mod_small (usage - inactiveFile)) by lia;
    repeat match goal with
           | |- _ /\ _ => split
           | |- _ -> _ => intros ?
           | |- context [(?x >=? ?y)] => destruct (Z.geb_spec x y)
           end; try reflexivity; try lia.
Qed.

Lemma V1_ReadMemoryMetrics_inv `{Unicode} (os : OS) (r : V1.CgroupV1Reader)
  (m : MemoryMetrics) :
  V1.ReadMemoryMetrics os r = Ok m ->
  exists usage limit stats,
    readUint64FromFile os (V1.basePath r +:+ "/memory.usage_in_bytes")
    = (usage, None) /\
    readUint64FromFile os (V1.basePath r +:+ "/memory.limit_in_bytes")
    = (limit, None) /\
    V1.readMemoryStat os r = Ok stats /\
    Usage m = usage /\ Limit m = limit /\ RSS m = stat stats "rss" /\
    InactiveFile m = stat stats "inactive_file" /\ derivedFrom m.
Proof.
  unfold V1.ReadMemoryMetrics. cbv zeta.
  destruct (readUint64FromFile os (V1.basePath r +:+ "/memory.usage_in_bytes"))
    as [usage [e|]] eqn:Hu; [discriminate|].
  destruct (readUint64FromFile os (V1.basePath r +:+ "/memory.limit_in_bytes"))
    as [limit [e|]] eqn:Hl; [discriminate|].
  destruct (V1.readMemoryStat os r) as [stats|e] eqn:Hs; [|discriminate].
  intros [= Hm]. symmetry in Hm.
  exists usage, limit, stats. do 3 (split; [reflexivity|]).
  apply (derived_of_raw usage limit (stat stats "rss")
           (stat stats "inactive_file") m).
  - eapply readUint64FromFile_range; eauto.
  - eapply readUint64FromFile_range; eauto.
  - apply stat_range. eapply V1_readMemoryStat_range; eauto.
  - exact Hm.
Qed.

Lemma V2_ReadMemoryMetrics_inv `{Unicode} (os : OS) (r : V2.CgroupV2Reader)
  (m : MemoryMetrics) :
  V2.ReadMemoryMetrics os r = Ok m ->
  exists usage limit stats,
    readUint64FromFile os (V2.basePath r +:+ "/memory.current")
    = (usage, None) /\
    readUint64FromFile os (V2.basePath r +:+ "/memory.max") = (limit, None) /\
    V2.readMemoryStat os r = Ok stats /\
    Usage m = usage /\ Limit m = limit /\ RSS m = stat stats "anon" /\
    InactiveFile m = stat stats "inactive_file" /\ derivedFrom m.
Proof.
  unfold V2.ReadMemoryMetrics. cbv zeta.
  destruct (readUint64FromFile os (V2.basePath r +:+ "/memory.current"))
    as [usage [e|]] eqn:Hu; [discriminate|].
  destruct (readUint64FromFile os (V2.basePath r +:+ "/memory.max"))
    as [limit [e|]] eqn:Hl; [discriminate|].
  destruct (V2.readMemoryStat os r) as [stats|e] eqn:Hs; [|discriminate].
  intros [= Hm]. symmetry in Hm.
  exists usage, limit, stats. do 3 (split; [reflexivity|]).
  apply (derived_of_raw usage limit (stat stats "anon")
           (stat stats "inactive_file") m).
  - eapply readUint64FromFile_range; eauto.
  - eapply readUint64FromFile_range; eauto.
  - apply stat_range. eapply V2_readMemoryStat_range; eauto.
  - exact Hm.
Qed.

(** ** Numerals in files *)

Lemma max_is_no_numeral : decimalValue "max" = None.
Proof. reflexivity. Qed.

(** [ParseUint] with base 10 and 64 bits succeeds on the decimal numerals
    of the [uint64] range and on nothing else. *)
Lemma ParseUint64_ok_iff (s : string) (v : Z) :
  ParseUint s 10 64 = (v, None) <-> decimalValue s = Some v /\ v < 2 ^ 64.
Proof.
  pose proof (ParseUint_spec s 64 ltac:(lia)) as Hs.
  destruct (decimalValue s) as [w|] eqn:Hw.
  - rewrite Hs. destruct (Z.leb_spec w (2 ^ 64 - 1)); split.
    + intros [= <-]. split; [reflexivity | lia].
    + intros [[= <-] _]. reflexivity.
    + discriminate.
    + intros [[= <-] ?]. lia.
  - destruct Hs as (x & e & -> & _). split; [discriminate|].
    intros [? _]. discriminate.
Qed.

Lemma ParseUint64_overflow (s : string) (w : Z) :
  decimalValue s = Some w -> 2 ^ 64 <= w ->
  ParseUint s 10 64 = (2 ^ 64 - 1, Some (mkNumError "ParseUint" s ErrRange)).
Proof.
  intros Hw Hbig. pose proof (ParseUint_spec s 64 ltac:(lia)) as Hs.
  rewrite Hw in Hs. rewrite Hs.
  destruct (Z.leb_spec w (2 ^ 64 - 1)); [lia | reflexivity].
Qed.

Lemma readUint64FromFile_ok `{Unicode} (os : OS) (path data : string) (v : Z) :
  ReadFile os path = Ok data ->
  (readUint64FromFile os path = (v, None) <->
   (TrimSpace data = "max" /\ v = 0) \/
   (decimalValue (TrimSpace data) = Some v /\ v < 2 ^ 64)).
Proof.
  intros Hr. unfold readUint64FromFile. rewrite Hr.
  destruct (String.eqb_spec (TrimSpace data) "max") as [Hmax|Hmax].
  - rewrite Hmax, max_is_no_numeral. split.
    + intros [= <-]. left. split; reflexivity.
    + intros [[_ ->] | [? _]]; [reflexivity | discriminate].
  - pose proof (ParseUint64_ok_iff (TrimSpace data) v) as Hp.
    destruct (ParseUint (TrimSpace data) 10 64) as [w [e|]]; split.
    + discriminate.
    + intros [[? _] | Hd]; [contradiction|].
      apply Hp in Hd. discriminate.
    + intros [= <-]. right. apply Hp. reflexivity.
    + intros [[? _] | Hd]; [contradiction|].
      apply Hp in Hd. injection Hd as ->. reflexivity.
Qed.

(** ** Lines of memory.stat *)

Lemma statLine_entry `{Unicode} (stats : gmap string Z) (line key : string)
  (v : Z) :
  entry line key v -> statLine stats line !! key = Some v.
Proof.
  intros (val & Hf & Hv). unfold statLine. rewrite Hf.
  rewrite (proj2 (ParseUint64_ok_iff val v) Hv). apply lookup_insert_eq.
Qed.

Lemma statLine_silent `{Unicode} (stats : gmap string Z) (line key : string) :
  silentOn line key -> statLine stats line !! key = stats !! key.
Proof.
  intros Hs. unfold statLine.
  destruct (Fields line) as [|k [|val [|? ?]]] eqn:Hf; try reflexivity.
  destruct (ParseUint val 10 64) as [w [e|]] eqn:Hp; [reflexivity|].
  apply ParseUint64_ok_iff in Hp.
  destruct (decide (k = key)) as [->|Hne].
  - exfalso. apply (Hs w). exists val. split; assumption.
  - apply lookup_insert_ne. exact Hne.
Qed.

Lemma stat_lines_silent `{Unicode} (lines : list string) (key : string) :
  (forall line, line ∈ lines -> silentOn line key) ->
  forall stats, fold_left statLine lines stats !! key = stats !! key.
Proof.
  induction lines as [|line lines IH]; intros Hs stats; [reflexivity|].
  cbn [fold_left]. rewrite IH.
  - apply statLine_silent, Hs. left.
  - intros l Hl. apply Hs. right. exact Hl.
Qed.

Lemma stat_lines_lastEntries `{Unicode} (lines : list string) :
  lastEntries lines (fold_left statLine lines ∅).
Proof.
  split.
  - intros key Hs.
    assert (Hk : fold_left statLine lines ∅ !! key = None)
      by (rewrite (stat_lines_silent lines key Hs); apply lookup_empty).
    split; [exact Hk|]. unfold stat. rewrite Hk. reflexivity.
  - intros before line after key v -> He Hs.
    assert (Hk : fold_left statLine (before ++ line :: after) ∅ !! key = Some v).
    { rewrite fold_left_app. cbn [fold_left].
      rewrite (stat_lines_silent after key Hs).
      apply statLine_entry, He. }
    split; [exact Hk|]. unfold stat. rewrite Hk. reflexivity.
Qed.

(** ** What a read yields *)






(** C10.  The two readers agree up to the name of the RSS key: when the
    usage files give the same value, the limit files give the same
    value, and the statistics give under "rss" (v1) what they give under
    "anon" (v2) and the same under "inactive_file", both reads succeed
    with the same [MemoryMetrics], raw and derived fields alike. *)
Theorem readers_equivalent `{Unicode} (os1 os2 : OS)
  (r1 : V1.CgroupV1Reader) (r2 : V2.CgroupV2Reader)
  (usage limit : Z) (stats1 stats2 : gmap string Z) :
  readUint64FromFile os1 (V1.basePath r1 +:+ "/memory.usage_in_bytes")
  = (usage, None) ->
  readUint64FromFile os2 (V2.basePath r2 +:+ "/memory.current")
  = (usage, None) ->
  readUint64FromFile os1 (V1.basePath r1 +:+ "/memory.limit_in_bytes")
  = (limit, None) ->
  readUint64FromFile os2 (V2.basePath r2 +:+ "/memory.max") = (limit, None) ->
  V1.readMemoryStat os1 r1 = Ok stats1 ->
  V2.readMemoryStat os2 r2 = Ok stats2 ->
  stats1 !! "rss" = stats2 !! "anon" ->
  stats1 !! "inactive_file" = stats2 !! "inactive_file" ->
  exists m,
    V1.ReadMemoryMetrics os1 r1 = Ok m /\ V2.ReadMemoryMetrics os2 r2 = Ok m /\
    Usage m = usage /\ Limit m = limit /\ RSS m = stat stats1 "rss" /\
    InactiveFile m = stat stats1 "inactive_file".
Proof.
  intros Hu1 Hu2 Hl1 Hl2 Hs1 Hs2 Hrss Hin.
  unfold V1.ReadMemoryMetrics, V2.ReadMemoryMetrics. cbv zeta.
  rewrite Hu1, Hu2, Hl1, Hl2, Hs1, Hs2.
  unfold stat. rewrite <- Hrss, <- Hin.
  eexists. split; [reflexivity|]. split; [reflexivity|].
  cbv [setInactiveFile setRSS setLimit setUsage zeroMetrics setWorkingSet
       setOOMRatio setOOMFloorRatio Usage InactiveFile Limit RSS].
  destruct (usage >=? _), (limit >? 0); repeat split.
Qed.

(** The theorem at [bothHierarchies]. *)
Lemma readers_equivalent_witness :
  exists m,
    @V1.ReadMemoryMetrics asciiOnly bothHierarchies
      (V1.mkReader "/sys/fs/cgroup/memory") = Ok m /\
    @V2.ReadMemoryMetrics asciiOnly bothHierarchies
      (V2.mkReader "/sys/fs/cgroup") = Ok m /\
    Usage m = 1000 /\ Limit m = 3000 /\ RSS m = stat legacyStats "rss" /\
    InactiveFile m = stat legacyStats "inactive_file".
Proof.
  apply (@readers_equivalent asciiOnly bothHierarchies bothHierarchies
           (V1.mkReader "/sys/fs/cgroup/memory") (V2.mkReader "/sys/fs/cgroup")
           1000 3000 legacyStats unifiedStats);
    vm_compute; reflexivity.
Defined.

(** ** The cases of the package's tests, evaluated *)

(** [TestCgroupV1ReaderReadMemoryStat_MalformedLines]: lines that are not
    "name value" with an integer value are skipped. *)
Example TestMalformedLines :
  @V1.ReadMemoryMetrics asciiOnly
    (mkOS (fun path =>
             if String.eqb path "/tmp/memory.usage_in_bytes" then Ok "100
"
             else if String.eqb path "/tmp/memory.limit_in_bytes" then Ok "200
"
             else Err "no such file or directory")
          (fun _ => Ok (["rss 50"; "invalid_line_without_value"; "  ";
                         "three fields here"; "inactive_file notanumber";
                         "active_file 30"], None)))
    (V1.mkReader "/tmp")
  = Ok (mkMetrics 100 200 50 0 100
          (float64_div (float64_of_uint64 100) (float64_of_uint64 200))
          (float64_div (float64_of_uint64 50) (float64_of_uint64 200))).
Proof. vm_compute. reflexivity. Qed.

(** One half and one quarter, as binary64 numbers. *)
Example quotients :
  float64_div (float64_of_uint64 100) (float64_of_uint64 200)
  = S754_finite false 4503599627370496 (-53) /\
  float64_div (float64_of_uint64 50) (float64_of_uint64 200)
  = S754_finite false 4503599627370496 (-54).
Proof. split; vm_compute; reflexivity. Qed.

(** A missing file is an error of the read. *)
Example TestFileNotFound :
  @V1.ReadMemoryMetrics asciiOnly lowUsageFiles (V1.mkReader "/nonexistent")
  = Err (Wrapped "failed to read memory usage"
           (OsError "no such file or directory")) /\
  @V2.ReadMemoryMetrics asciiOnly lowUsageFiles (V2.mkReader "/nonexistent")
  = Err (Wrapped "failed to read memory.current"
           (OsError "no such file or directory")).
Proof. split; vm_compute; reflexivity. Qed.

End MetricsProps.

(* ===================================================================== *)
(** * Further properties: strings as byte lists                           *)
(* ===================================================================== *)

Module StringFacts.
Import GoStd GoStdSpec GoStdFacts DiscoverySpec DiscoveryProps.

(** ** From strings to lists of bytes and back *)

Lemma bytes_inj (a b : string) : bytes a = bytes b -> a = b.
Proof.
  intros H. rewrite <- (string_of_list_ascii_of_string a),
    <- (string_of_list_ascii_of_string b).
  unfold bytes in H. now rewrite H.
Qed.

Lemma length_bytes (s : string) : length (bytes s) = String.length s.
Proof. induction s as [|a s IH]; simpl; [reflexivity | now rewrite IH]. Qed.

Lemma get_lookup (s : string) : forall i, String.get i s = bytes s !! i.
Proof.
  induction s as [|a s IH]; intros [|i]; simpl; try reflexivity. apply IH.
Qed.

Lemma bytes_substring (s : string) : forall i n,
  bytes (String.substring i n s) = take n (drop i (bytes s)).
Proof.
  induction s as [|a s IH]; intros i n.
  - destruct i, n; reflexivity.
  - destruct i as [|i]; simpl.
    + destruct n as [|n]; [reflexivity|]. simpl. f_equal. apply (IH 0%nat n).
    + apply IH.
Qed.

Lemma bytes_slice_from (s : string) (i : Z) :
  0 <= i -> bytes (slice_from s i) = drop (Z.to_nat i) (bytes s).
Proof.
  intros Hi. unfold slice_from. rewrite bytes_substring.
  apply take_ge. rewrite length_drop, length_bytes. lia.
Qed.

Lemma bytes_slice_to (s : string) (i : Z) :
  bytes (slice_to s i) = take (Z.to_nat i) (bytes s).
Proof. unfold slice_to. rewrite bytes_substring, drop_0. reflexivity. Qed.

Lemma slice_from_app_gen (a b : string) : slice_from (a +:+ b) (len a) = b.
Proof.
  apply bytes_inj. unfold len. rewrite bytes_slice_from by lia.
  rewrite bytes_app, Nat2Z.id. apply drop_app_length'.
  now rewrite length_bytes.
Qed.

Lemma slice_to_app (a b : string) : slice_to (a +:+ b) (len a) = a.
Proof.
  apply bytes_inj. unfold len. rewrite bytes_slice_to, bytes_app, Nat2Z.id.
  apply take_app_length'. now rewrite length_bytes.
Qed.

Lemma slice_from_zero (s : string) : slice_from s 0 = s.
Proof.
  apply bytes_inj. rewrite bytes_slice_from by lia. apply drop_0.
Qed.

(** A string that holds [c] splits at its last [c]. *)
Lemma split_last (s : string) (c : ascii) :
  In c (bytes s) ->
  exists p t, s = p +:+ String c t /\ ~ In c (bytes t).
Proof.
  induction s as [|a s IH]; simpl; [tauto|]. intros Hin.
  destruct (in_dec ascii_dec c (bytes s)) as [Hs|Hs].
  - destruct (IH Hs) as (p & t & -> & Ht).
    exists (String a p), t. split; [reflexivity | assumption].
  - destruct Hin as [->|Hin]; [|contradiction].
    exists EmptyString, s. split; [reflexivity | assumption].
Qed.

(** ** The first occurrence of a byte *)

Lemma IndexByte_lower (s : string) (c : ascii) : -1 <= IndexByte s c.
Proof.
  induction s as [|a s IH]; simpl; [lia|].
  destruct (Ascii.eqb a c); [lia|].
  destruct (Z.ltb_spec (IndexByte s c) 0); lia.
Qed.

Lemma IndexByte_absent (s : string) (c : ascii) :
  ~ In c (bytes s) -> IndexByte s c = -1.
Proof.
  induction s as [|a s IH]; simpl; [reflexivity|]. intros H.
  destruct (Ascii.eqb_spec a c) as [->|_]; [tauto|].
  rewrite IH by tauto. reflexivity.
Qed.

(** A found index splits the string at its first [c]. *)
Lemma IndexByte_found (s : string) (c : ascii) :
  0 <= IndexByte s c ->
  exists a r, s = a +:+ String c r /\ ~ In c (bytes a) /\
              IndexByte s c = len a.
Proof.
  induction s as [|x s IH]; simpl; [lia|].
  destruct (Ascii.eqb_spec x c) as [->|Hne].
  - intros _. exists EmptyString, s. repeat split. simpl. tauto.
  - destruct (Z.ltb_spec (IndexByte s c) 0) as [Hlt|Hge]; [lia|].
    intros _. destruct (IH Hge) as (a & r & -> & Ha & Hi).
    exists (String x a), r. split; [reflexivity|]. split.
    + simpl. intros [E|E]; [congruence | contradiction].
    + rewrite Hi. unfold len. simpl String.length. lia.
Qed.

Lemma IndexByte_app (a r : string) (c : ascii) :
  ~ In c (bytes a) -> IndexByte (a +:+ String c r) c = len a.
Proof.
  induction a as [|x a IH]; intros H.
  - simpl. now rewrite Ascii.eqb_refl.
  - change (String x a +:+ String c r) with (String x (a +:+ String c r)).
    change (IndexByte (String x (a +:+ String c r)) c)
      with (if Ascii.eqb x c then 0
            else let j := IndexByte (a +:+ String c r) c in
                 if j <? 0 then -1 else j + 1).
    destruct (Ascii.eqb_spec x c) as [->|_]; [simpl in H; tauto|]. cbv zeta.
    rewrite IH by (simpl in H; tauto). unfold len. cbn [String.length].
    destruct (Z.ltb_spec (Z.of_nat (String.length a)) 0); lia.
Qed.

Lemma IndexByte_none (s : string) (c : ascii) :
  IndexByte s c = -1 -> ~ In c (bytes s).
Proof.
  intros H Hin. apply split_last in Hin as (p & t & -> & _).
  clear -H. induction p as [|x p IH]; simpl in H.
  - rewrite Ascii.eqb_refl in H. discriminate.
  - destruct (Ascii.eqb x c); [discriminate|].
    destruct (Z.ltb_spec (IndexByte (p +:+ String c t) c) 0) as [Hlt|Hge].
    + apply IH. pose proof (IndexByte_lower (p +:+ String c t) c). lia.
    + lia.
Qed.

(** ** Counting and splitting *)

Lemma CountByte_absent (s : string) (c : ascii) :
  ~ In c (bytes s) -> CountByte s c = O.
Proof.
  induction s as [|a s IH]; simpl; [reflexivity|]. intros H.
  destruct (Ascii.eqb_spec a c) as [->|_]; [tauto|]. apply IH. tauto.
Qed.

Lemma CountByte_app (a b : string) (c : ascii) :
  CountByte (a +:+ b) c = (CountByte a c + CountByte b c)%nat.
Proof.
  induction a as [|x a IH]; simpl; [reflexivity|].
  destruct (Ascii.eqb x c); rewrite IH; reflexivity.
Qed.

Lemma CountByte_cons_sep (a r : string) (c : ascii) :
  ~ In c (bytes a) -> CountByte (a +:+ String c r) c = S (CountByte r c).
Proof.
  intros H. rewrite CountByte_app, (CountByte_absent a c H). simpl.
  now rewrite Ascii.eqb_refl.
Qed.

(** The loop fills one slot for every separator it is given fuel for. *)
Lemma genSplit_loop_length (s : string) (sep : ascii) : forall fuel a,
  fuel = CountByte s sep ->
  length (genSplit_loop fuel s sep a) = (length a + fuel + 1)%nat.
Proof.
  intros fuel. revert s.
  induction fuel as [|fuel IH]; intros s a Hf; cbn [genSplit_loop].
  - rewrite length_app. simpl. lia.
  - destruct (Z.ltb_spec (IndexByte s sep) 0) as [Hlt|Hge].
    + exfalso.
      assert (Hn : IndexByte s sep = -1)
        by (pose proof (IndexByte_lower s sep); lia).
      apply IndexByte_none, CountByte_absent in Hn. lia.
    + destruct (IndexByte_found s sep Hge) as (x & r & -> & Hx & Hi).
      rewrite Hi, slice_from_app.
      rewrite CountByte_cons_sep in Hf by assumption.
      rewrite IH by lia. rewrite length_app. simpl. lia.
Qed.

(** With enough fuel, splitting a string put together from fields that
    hold no separator gives back the fields. *)
Lemma genSplit_loop_commaJoined (rest : list string) : forall e a fuel,
  ~ In ","%char (bytes e) ->
  Forall (fun x => ~ In ","%char (bytes x)) rest ->
  (length rest <= fuel)%nat ->
  genSplit_loop fuel (commaJoined (e :: rest)) "," a = a ++ e :: rest.
Proof.
  induction rest as [|x rest IH]; intros e a fuel He Hrest Hfuel.
  - simpl commaJoined. destruct fuel; simpl; [reflexivity|].
    rewrite (IndexByte_absent e "," He). reflexivity.
  - change (commaJoined (e :: x :: rest))
      with (e +:+ String "," (commaJoined (x :: rest))).
    destruct fuel as [|fuel]; [simpl in Hfuel; lia|]. cbn [genSplit_loop].
    rewrite (IndexByte_app e _ "," He).
    destruct (Z.ltb_spec (len e) 0) as [Hlt|_]; [unfold len in Hlt; lia|].
    rewrite slice_from_app, slice_to_app.
    inversion Hrest as [|? ? Hx Hrest']; subst.
    rewrite IH; [|assumption|assumption|simpl in Hfuel; lia].
    rewrite <- app_assoc. reflexivity.
Qed.

Lemma CountByte_commaJoined (rest : list string) : forall e,
  ~ In ","%char (bytes e) ->
  Forall (fun x => ~ In ","%char (bytes x)) rest ->
  CountByte (commaJoined (e :: rest)) "," = length rest.
Proof.
  induction rest as [|x rest IH]; intros e He Hrest.
  - simpl. apply CountByte_absent, He.
  - change (commaJoined (e :: x :: rest))
      with (e +:+ String "," (commaJoined (x :: rest))).
    inversion Hrest as [|? ? Hx Hrest']; subst.
    rewrite CountByte_cons_sep by assumption. rewrite IH by assumption.
    reflexivity.
Qed.

(** [Split] undoes [Join] on fields without separator. *)
Lemma SplitByte_commaJoined (e : string) (rest : list string) :
  Forall (fun x => ~ In ","%char (bytes x)) (e :: rest) ->
  SplitByte (commaJoined (e :: rest)) "," = e :: rest.
Proof.
  intros H. inversion H as [|? ? He Hrest]; subst. unfold SplitByte.
  rewrite CountByte_commaJoined by assumption.
  apply (genSplit_loop_commaJoined rest e []); auto.
Qed.

End StringFacts.

(* ===================================================================== *)
(** * Further properties of pkg/sidecar/discovery                         *)
(* ===================================================================== *)

Module DiscoveryExtra.
Import GoStd GoStdSpec GoStdFacts Discovery DiscoverySpec DiscoveryProps
  StringFacts.

(** ** Decimal rendering read back *)

Lemma of_uint_acc_value (d : Decimal.uint) : forall acc,
  Z.pos (Pos.of_uint_acc d acc) = uintValue d (Z.pos acc).
Proof.
  induction d; intros acc; simpl; try reflexivity; rewrite IHd; f_equal; lia.
Qed.

Lemma of_uint_value (d : Decimal.uint) :
  Z.of_N (Pos.of_uint d) = uintValue d 0.
Proof.
  induction d; simpl; try reflexivity; try exact IHd;
    apply of_uint_acc_value.
Qed.

Lemma digitsValue_string_of_uint (d : Decimal.uint) : forall acc,
  digitsValue (NilEmpty.string_of_uint d) acc = Some (uintValue d acc).
Proof.
  induction d; intros acc; simpl; try reflexivity; apply IHd.
Qed.

Lemma string_of_uint_digits (d : Decimal.uint) :
  Forall (fun c => is_digit c = true) (bytes (NilEmpty.string_of_uint d)).
Proof.
  induction d; simpl; constructor; try reflexivity; assumption.
Qed.

(** What [%d] writes for an integer that is not negative: digits only,
    denoting the integer. *)
Lemma FormatInt_digits (n : Z) :
  0 <= n ->
  decimalValue (FormatInt n) = Some n /\
  Forall (fun c => is_digit c = true) (bytes (FormatInt n)).
Proof.
  intros Hn. unfold FormatInt.
  pose proof (DecimalZ.of_to n) as Hn'.
  destruct (Z.to_int n) as [d|d] eqn:Hd.
  - simpl in Hn'. unfold Z.of_uint in Hn'. rewrite of_uint_value in Hn'.
    unfold NilZero.string_of_int, NilZero.string_of_uint.
    destruct d.
    1: { simpl in Hn'. subst n. split; [reflexivity|].
         constructor; [reflexivity | constructor]. }
    all: split;
      [ rewrite <- Hn'; exact (digitsValue_string_of_uint _ 0)
      | apply string_of_uint_digits ].
  - exfalso. destruct n; simpl in Hd; try discriminate. lia.
Qed.

Lemma digits_no_hyphen (s : string) :
  Forall (fun c => is_digit c = true) (bytes s) -> ~ In "-"%char (bytes s).
Proof.
  intros H Hin. rewrite Forall_forall in H.
  apply list_elem_of_In in Hin. specialize (H _ Hin). discriminate.
Qed.

Lemma digits_unsigned (s : string) :
  Forall (fun c => is_digit c = true) (bytes s) ->
  signedDecimalValue s = decimalValue s.
Proof.
  destruct s as [|c r]; [reflexivity|]. intros H.
  inversion H as [|? ? Hc _]; subst. unfold signedDecimalValue.
  destruct (Ascii.eqb_spec c "+") as [->|_]; [discriminate|].
  destruct (Ascii.eqb_spec c "-") as [->|_]; [discriminate|]. reflexivity.
Qed.

(** ** Broker identity *)

(** The parse of a host name cut at its last hyphen. *)
Lemma ParseBrokerIDFromHostname_split (p t : string) :
  ~ In "-"%char (bytes t) ->
  ParseBrokerIDFromHostname (p +:+ String "-" t)
  = if String.eqb t "" then Err (ErrTrailingHyphen (p +:+ String "-" t))
    else match ParseInt t 10 32 with
         | (_, Some e) => Err (ErrParseIndex (p +:+ String "-" t) e)
         | (index, None) => Ok (int32 index)
         end.
Proof.
  intros Hno. unfold ParseBrokerIDFromHostname.
  rewrite LastIndexByte_app by assumption. rewrite slice_from_app.
  unfold len. rewrite string_length_app. cbn [String.length].
  destruct (Z.eqb_spec (Z.of_nat (String.length p)) (-1)); [lia|].
  destruct t as [|c t]; simpl String.length.
  - destruct (Z.eqb_spec (Z.of_nat (String.length p))
                (Z.of_nat (String.length p + 1) - 1)); [reflexivity | lia].
  - destruct (Z.eqb_spec (Z.of_nat (String.length p))
                (Z.of_nat (String.length p + S (S (String.length t))) - 1));
      [lia | reflexivity].
Qed.

(** X1.  A broker ID parsed from a host name is never negative and fits
    an [int32]; the host name then holds a hyphen.  [DiscoverBrokerID]
    inherits the range and fails when HOSTNAME is not set. *)
Theorem discovered_broker_id_range (hostname : string) (getenv : Env) (id : Z) :
  (ParseBrokerIDFromHostname hostname = Ok id ->
   0 <= id < 2 ^ 31 /\ In "-"%char (bytes hostname)) /\
  (DiscoverBrokerID getenv = Ok id -> 0 <= id < 2 ^ 31) /\
  (getenv "HOSTNAME" = "" ->
   DiscoverBrokerID getenv = Err (ErrEnvNotSet "HOSTNAME")).
Proof.
  assert (Hparse : forall h, ParseBrokerIDFromHostname h = Ok id ->
                   0 <= id < 2 ^ 31 /\ In "-"%char (bytes h)).
  { intros h Hok.
    destruct (in_dec ascii_dec "-"%char (bytes h)) as [Hin|Hno].
    - split; [|assumption].
      destruct (split_last h "-" Hin) as (p & t & -> & Ht).
      rewrite (ParseBrokerIDFromHostname_split p t Ht) in Hok.
      destruct (String.eqb t ""); [discriminate|].
      pose proof (ParseInt32_spec t) as Hs.
      pose proof (signedDecimalValue_nonneg t) as Hnn.
      destruct (signedDecimalValue t) as [v|].
      + specialize (Hnn v Ht eq_refl).
        destruct (Z.leb_spec (-2147483648) v); [|lia].
        destruct (Z.ltb_spec v 2147483648); simpl in Hs.
        * rewrite Hs in Hok. injection Hok as <-.
          rewrite int32_id; change (2 ^ 31) with 2147483648; lia.
        * destruct Hs as (x & Hs). rewrite Hs in Hok. discriminate.
      + destruct Hs as (x & e & Hs). rewrite Hs in Hok. discriminate.
    - unfold ParseBrokerIDFromHostname in Hok.
      rewrite LastIndexByte_absent in Hok by assumption. discriminate. }
  split; [apply Hparse|]. split.
  - unfold DiscoverBrokerID.
    destruct (String.eqb (getenv "HOSTNAME") ""); [discriminate|].
    destruct (ParseBrokerIDFromHostname (getenv "HOSTNAME")) as [v|e] eqn:E;
      [|discriminate].
    intros [= <-]. apply (Hparse _ E).
  - intros E. unfold DiscoverBrokerID. rewrite E. reflexivity.
Qed.

Lemma discovered_broker_id_range_witness :
  0 <= 7 < 2 ^ 31 /\ In "-"%char (bytes "kafka-7").
Proof.
  apply (proj1 (discovered_broker_id_range "kafka-7" (fun _ => "") 7)).
  reflexivity.
Defined.

(** X2.  The host name of replica [n] of any workload, "<workload>-<n>"
    with [n] rendered by [%d], is parsed back to [n], whatever the
    workload name holds (hyphens included), for every [n] of the
    non-negative [int32] range. *)
Theorem hostname_round_trip (workload : string) (n : Z) (getenv : Env) :
  0 <= n < 2 ^ 31 ->
  ParseBrokerIDFromHostname (workload +:+ "-" +:+ FormatInt n) = Ok n /\
  (getenv "HOSTNAME" = workload +:+ "-" +:+ FormatInt n ->
   DiscoverBrokerID getenv = Ok n).
Proof.
  intros Hn.
  destruct (FormatInt_digits n ltac:(lia)) as [Hval Hdig].
  assert (Hparse : ParseBrokerIDFromHostname (workload +:+ "-" +:+ FormatInt n)
                   = Ok n).
  { change (workload +:+ "-" +:+ FormatInt n)
      with (workload +:+ String "-" (FormatInt n)).
    rewrite ParseBrokerIDFromHostname_split by (apply digits_no_hyphen, Hdig).
    destruct (String.eqb_spec (FormatInt n) "") as [E|_];
      [exfalso; exact (FormatInt_nonempty n E)|].
    pose proof (ParseInt32_spec (FormatInt n)) as Hs.
    rewrite (digits_unsigned _ Hdig), Hval in Hs.
    change (2 ^ 31) with 2147483648 in Hn.
    destruct (Z.leb_spec (-2147483648) n); [|lia].
    destruct (Z.ltb_spec n 2147483648); [|lia]. simpl in Hs.
    rewrite Hs. rewrite int32_id; [reflexivity|].
    change (2 ^ 31) with 2147483648. lia. }
  split; [exact Hparse|].
  intros Henv. unfold DiscoverBrokerID. rewrite Henv, Hparse.
  destruct (String.eqb_spec (workload +:+ "-" +:+ FormatInt n) "") as [E|_];
    [|reflexivity].
  destruct workload; discriminate.
Qed.

Lemma hostname_round_trip_witness :
  ParseBrokerIDFromHostname ("my-kafka-cluster" +:+ "-" +:+ FormatInt 12)
  = Ok 12.
Proof.
  apply (hostname_round_trip "my-kafka-cluster" 12 (fun _ => "")).
  change (2 ^ 31) with 2147483648. lia.
Defined.

(** ** The last occurrence of a substring *)

Lemma append_empty_r (s : string) : s +:+ "" = s.
Proof.
  induction s as [|a s IH]; [reflexivity|].
  change (String a (s +:+ "") = String a s). now f_equal.
Qed.

Lemma substring_at_app (p sub t : string) :
  String.substring (String.length p) (String.length sub) (p +:+ sub +:+ t)
  = sub.
Proof.
  apply bytes_inj. rewrite bytes_substring, !bytes_app.
  rewrite drop_app_length' by (now rewrite length_bytes).
  apply take_app_length'. now rewrite length_bytes.
Qed.

Lemma LastIndex_from_lower (s sub : string) (k : nat) :
  -1 <= LastIndex_from s sub k.
Proof.
  induction k as [|k IH]; simpl; [lia|].
  destruct (String.eqb _ sub); lia.
Qed.

(** What the scan returns is a position where [sub] stands. *)
Lemma LastIndex_from_sound (s sub : string) (k : nat) (i : Z) :
  LastIndex_from s sub k = i -> 0 <= i ->
  String.substring (Z.to_nat i) (String.length sub) s = sub /\
  (Z.to_nat i < k)%nat.
Proof.
  induction k as [|k IH]; simpl; [lia|].
  destruct (String.eqb_spec (String.substring k (String.length sub) s) sub)
    as [E|_].
  - intros <- _. rewrite Nat2Z.id. split; [exact E | lia].
  - intros H Hi. destruct (IH H Hi). split; [assumption | lia].
Qed.

(** The scan stops at the greatest position below [n] where [sub]
    stands. *)
Lemma LastIndex_from_found (s sub : string) (k n : nat) :
  (k < n)%nat -> String.substring k (String.length sub) s = sub ->
  (forall j, (k < j < n)%nat ->
             String.substring j (String.length sub) s <> sub) ->
  LastIndex_from s sub n = Z.of_nat k.
Proof.
  induction n as [|n IH]; intros Hk Hat Hlast; [lia|]. simpl.
  destruct (Nat.eq_dec k n) as [->|Hne].
  - rewrite Hat, String.eqb_refl. reflexivity.
  - destruct (String.eqb_spec (String.substring n (String.length sub) s) sub)
      as [E|_].
    + exfalso. apply (Hlast n); [lia | exact E].
    + apply IH; [lia | assumption | intros j Hj; apply Hlast; lia].
Qed.

(** An occurrence below [n] is not missed. *)
Lemma LastIndex_from_complete (s sub : string) (k n : nat) :
  (k < n)%nat -> String.substring k (String.length sub) s = sub ->
  Z.of_nat k <= LastIndex_from s sub n.
Proof.
  induction n as [|n IH]; intros Hk Hat; [lia|]. simpl.
  destruct (String.eqb_spec (String.substring n (String.length sub) s) sub)
    as [_|Hn]; [lia|].
  apply IH; [|assumption].
  destruct (Nat.eq_dec k n) as [->|]; [contradiction | lia].
Qed.

(** In [p + "/workload/" + t] with no slash in [t], the marker shown is
    the last one. *)
Lemma LastIndex_workload_app (p t : string) :
  ~ In "/"%char (bytes t) ->
  LastIndex (p +:+ "/workload/" +:+ t) "/workload/" = len p.
Proof.
  intros Hno. unfold LastIndex.
  change (String.length "/workload/") with 10%nat. cbv iota zeta.
  rewrite !string_length_app. change (String.length "/workload/") with 10%nat.
  destruct (Nat.eqb_spec 10 (String.length p + (10 + String.length t))) as [E|_].
  - destruct p; [|simpl in E; lia]. destruct t; [|simpl in E; lia].
    reflexivity.
  - destruct (Nat.ltb_spec (String.length p + (10 + String.length t)) 10);
      [lia|].
    unfold len. apply LastIndex_from_found.
    + lia.
    + apply (substring_at_app p "/workload/" t).
    + intros j Hj Hsub.
      apply (f_equal bytes) in Hsub. rewrite bytes_substring in Hsub.
      apply (f_equal (fun l => l !! 9%nat)) in Hsub.
      change (String.length "/workload/") with 10%nat in Hsub.
      rewrite lookup_take_lt in Hsub by lia. rewrite lookup_drop in Hsub.
      change (bytes "/workload/" !! 9%nat) with (Some "/"%char) in Hsub.
      rewrite !bytes_app in Hsub.
      rewrite lookup_app_r in Hsub by (rewrite length_bytes; lia).
      rewrite lookup_app_r in Hsub
        by (rewrite !length_bytes;
            change (String.length "/workload/") with 10%nat; lia).
      apply Hno, list_elem_of_In. eapply list_elem_of_lookup_2. exact Hsub.
Qed.

Lemma LastIndex_workload_lower (s : string) : -1 <= LastIndex s "/workload/".
Proof.
  unfold LastIndex. change (String.length "/workload/") with 10%nat.
  cbv iota zeta.
  destruct (10 =? String.length s)%nat.
  - destruct (String.eqb "/workload/" s); lia.
  - destruct (String.length s <? 10)%nat; [lia|]. apply LastIndex_from_lower.
Qed.

(** A position returned for the marker is the length of what stands
    before an occurrence of it. *)
Lemma LastIndex_workload_sound (s : string) :
  0 <= LastIndex s "/workload/" ->
  exists p t, s = p +:+ "/workload/" +:+ t /\
              LastIndex s "/workload/" = len p.
Proof.
  unfold LastIndex. change (String.length "/workload/") with 10%nat.
  cbv iota zeta.
  destruct (Nat.eqb_spec 10 (String.length s)) as [E|_].
  - destruct (String.eqb_spec "/workload/" s) as [<-|_]; [|lia].
    intros _. exists "", "". split; reflexivity.
  - destruct (Nat.ltb_spec (String.length s) 10); [lia|]. intros Hi.
    destruct (LastIndex_from_sound s "/workload/" _ _ eq_refl Hi)
      as [Hsub Hlt].
    set (i := Z.to_nat (LastIndex_from s "/workload/"
                          (String.length s - 10 + 1))) in *.
    exists (String.substring 0 i s),
           (String.substring (i + 10) (String.length s - (i + 10)) s).
    split.
    + apply bytes_inj. rewrite !bytes_app, !bytes_substring.
      apply (f_equal bytes) in Hsub. rewrite bytes_substring in Hsub.
      change (String.length "/workload/") with 10%nat in Hsub.
      rewrite <- Hsub, drop_0.
      rewrite (take_ge (drop (i + 10) (bytes s)))
        by (rewrite length_drop, length_bytes; lia).
      rewrite <- drop_drop, take_drop, take_drop. reflexivity.
    + unfold len.
      assert (Hl : String.length (String.substring 0 i s) = i).
      { rewrite <- length_bytes, bytes_substring, drop_0, length_take,
          length_bytes. lia. }
      rewrite Hl. unfold i. lia.
Qed.

Lemma LastIndex_workload_complete (s : string) :
  occursIn "/workload/" s -> 0 <= LastIndex s "/workload/".
Proof.
  intros (p & t & ->). unfold LastIndex.
  change (String.length "/workload/") with 10%nat. cbv iota zeta.
  rewrite !string_length_app. change (String.length "/workload/") with 10%nat.
  destruct (Nat.eqb_spec 10 (String.length p + (10 + String.length t))) as [E|_].
  - destruct p; [|simpl in E; lia]. destruct t; [|simpl in E; lia].
    simpl. lia.
  - destruct (Nat.ltb_spec (String.length p + (10 + String.length t)) 10);
      [lia|].
    pose proof (LastIndex_from_complete (p +:+ "/workload/" +:+ t)
                  "/workload/" (String.length p)
                  (String.length p + (10 + String.length t) - 10 + 1)
                  ltac:(lia) (substring_at_app p "/workload/" t)).
    lia.
Qed.


(** ** Workload name and location *)

Lemma len_workload_marker (p : string) :
  len p + len "/workload/" = len (p +:+ "/workload/").
Proof. unfold len. rewrite string_length_app. lia. Qed.

(** X3.  From a link that ends in "/workload/<name>", with a name that
    is not empty and holds no slash, [ParseWorkloadNameFromLink] returns
    the name, whatever stands before the marker (earlier "/workload/"
    segments included); [DiscoverWorkloadName] returns it when
    CPLN_WORKLOAD holds such a link. *)
Theorem workload_name_extracted (p name : string) (getenv : Env) :
  name <> "" -> ~ In "/"%char (bytes name) ->
  ParseWorkloadNameFromLink (p +:+ "/workload/" +:+ name) = Ok name /\
  (getenv "CPLN_WORKLOAD" = p +:+ "/workload/" +:+ name ->
   DiscoverWorkloadName getenv = Ok name).
Proof.
  intros Hne Hno.
  assert (Hparse : ParseWorkloadNameFromLink (p +:+ "/workload/" +:+ name)
                   = Ok name).
  { unfold ParseWorkloadNameFromLink. cbv zeta.
    rewrite (LastIndex_workload_app p name Hno).
    destruct (Z.eqb_spec (len p) (-1)) as [E|_]; [unfold len in E; lia|].
    rewrite len_workload_marker.
    rewrite <- append_assoc, slice_from_app_gen.
    destruct (String.eqb_spec name "") as [E|_]; [contradiction|].
    rewrite (IndexByte_absent name "/" Hno). reflexivity. }
  split; [exact Hparse|].
  intros Henv. unfold DiscoverWorkloadName. rewrite Henv.
  destruct (String.eqb_spec (p +:+ "/workload/" +:+ name) "") as [E|_];
    [|exact Hparse].
  destruct p; discriminate.
Qed.

Lemma workload_name_extracted_witness :
  ParseWorkloadNameFromLink
    ("/org/gitops/gvc/igor-kafka" +:+ "/workload/" +:+ "kafka-fix-cluster")
  = Ok "kafka-fix-cluster".
Proof.
  apply (workload_name_extracted "/org/gitops/gvc/igor-kafka"
           "kafka-fix-cluster" (fun _ => "")).
  - discriminate.
  - simpl. intuition discriminate.
Defined.

Lemma ParseWorkloadNameFromLink_marker_last (p : string) :
  ParseWorkloadNameFromLink (p +:+ "/workload/")
  = Err (ErrEmptyWorkload (p +:+ "/workload/")).
Proof.
  unfold ParseWorkloadNameFromLink. cbv zeta.
  pose proof (LastIndex_workload_app p "" ltac:(simpl; tauto)) as Hl.
  change ("/workload/" +:+ "") with "/workload/" in Hl. rewrite Hl.
  destruct (Z.eqb_spec (len p) (-1)) as [E|_]; [unfold len in E; lia|].
  rewrite len_workload_marker.
  rewrite <- (append_empty_r (p +:+ "/workload/")) at 1.
  rewrite slice_from_app_gen. reflexivity.
Qed.

(** X4.  [ParseWorkloadNameFromLink] fails with the missing-marker error
    exactly when "/workload/" does not occur in the link, and with the
    empty-name error when the link ends in the marker.  A name it returns
    never holds a slash; it can be empty, when a slash follows the marker
    at once. *)
Theorem workload_name_failures (link : string) :
  (ParseWorkloadNameFromLink link = Err (ErrMissingWorkload link)
   <-> ~ occursIn "/workload/" link) /\
  (forall p, link = p +:+ "/workload/" ->
   ParseWorkloadNameFromLink link = Err (ErrEmptyWorkload link)) /\
  (forall name, ParseWorkloadNameFromLink link = Ok name ->
   ~ In "/"%char (bytes name) /\ occursIn "/workload/" link) /\
  ParseWorkloadNameFromLink "/org/o/workload//x" = Ok "".
Proof.
  pose proof (LastIndex_workload_lower link) as Hlow.
  split; [|split; [|split; [|reflexivity]]].
  - unfold ParseWorkloadNameFromLink. cbv zeta. split.
    + intros Herr Hocc. apply LastIndex_workload_complete in Hocc.
      destruct (Z.eqb_spec (LastIndex link "/workload/") (-1)) as [E|_];
        [lia|].
      destruct (String.eqb _ ""); [discriminate|].
      destruct (negb _); discriminate.
    + intros Hno.
      destruct (Z.eqb_spec (LastIndex link "/workload/") (-1)) as [_|Hne];
        [reflexivity|].
      exfalso. apply Hno.
      destruct (LastIndex_workload_sound link ltac:(lia)) as (p & t & -> & _).
      exists p, t. reflexivity.
  - intros p ->. exact (ParseWorkloadNameFromLink_marker_last p).
  - intros name. unfold ParseWorkloadNameFromLink. cbv zeta.
    destruct (Z.eqb_spec (LastIndex link "/workload/") (-1)) as [_|Hne];
      [discriminate|].
    destruct (String.eqb _ ""); [discriminate|].
    set (rest := slice_from link _).
    assert (Hocc : occursIn "/workload/" link).
    { destruct (LastIndex_workload_sound link ltac:(lia)) as (p & t & E & _).
      exists p, t. exact E. }
    pose proof (IndexByte_lower rest "/") as Hl.
    destruct (Z.eqb_spec (IndexByte rest "/") (-1)) as [E|Hfound]; simpl.
    + intros [= <-]. split; [apply IndexByte_none, E | exact Hocc].
    + intros [= <-]. split; [|exact Hocc].
      destruct (IndexByte_found rest "/" ltac:(lia)) as (a & r & Er & Ha & Hi).
      rewrite Hi, Er, slice_to_app. exact Ha.
Qed.

Lemma workload_name_failures_witness :
  ParseWorkloadNameFromLink "/org/gitops/gvc/igor-kafka/workload/"
  = Err (ErrEmptyWorkload "/org/gitops/gvc/igor-kafka/workload/").
Proof.
  apply (proj1 (proj2 (workload_name_failures
                         "/org/gitops/gvc/igor-kafka/workload/"))
           "/org/gitops/gvc/igor-kafka").
  reflexivity.
Defined.

(** X5.  [DiscoverLocation] fails when CPLN_LOCATION is not set;
    otherwise it returns what follows the last slash of the variable, and
    the whole variable when it holds no slash.  What it returns never
    holds a slash. *)
Theorem location_last_segment (getenv : Env) :
  (getenv "CPLN_LOCATION" = "" ->
   DiscoverLocation getenv = Err (ErrEnvNotSet "CPLN_LOCATION")) /\
  (forall p t, getenv "CPLN_LOCATION" = p +:+ "/" +:+ t ->
   ~ In "/"%char (bytes t) -> DiscoverLocation getenv = Ok t) /\
  (getenv "CPLN_LOCATION" <> "" ->
   ~ In "/"%char (bytes (getenv "CPLN_LOCATION")) ->
   DiscoverLocation getenv = Ok (getenv "CPLN_LOCATION")) /\
  (forall t, DiscoverLocation getenv = Ok t -> ~ In "/"%char (bytes t)).
Proof.
  assert (Hseg : forall p t, getenv "CPLN_LOCATION" = p +:+ "/" +:+ t ->
                 ~ In "/"%char (bytes t) -> DiscoverLocation getenv = Ok t).
  { intros p t E Hno. unfold DiscoverLocation. rewrite E.
    destruct (String.eqb_spec (p +:+ "/" +:+ t) "") as [E'|_];
      [destruct p; discriminate|].
    change (p +:+ "/" +:+ t) with (p +:+ String "/" t).
    rewrite LastIndexByte_app by assumption. rewrite slice_from_app.
    reflexivity. }
  assert (Hwhole : getenv "CPLN_LOCATION" <> "" ->
                   ~ In "/"%char (bytes (getenv "CPLN_LOCATION")) ->
                   DiscoverLocation getenv = Ok (getenv "CPLN_LOCATION")).
  { intros Hne Hno. unfold DiscoverLocation.
    destruct (String.eqb_spec (getenv "CPLN_LOCATION") "") as [E|_];
      [contradiction|].
    rewrite LastIndexByte_absent by assumption. simpl (-1 + 1).
    rewrite slice_from_zero. reflexivity. }
  split; [|split; [exact Hseg | split; [exact Hwhole|]]].
  - intros E. unfold DiscoverLocation. rewrite E. reflexivity.
  - intros t Hok.
    destruct (String.eqb_spec (getenv "CPLN_LOCATION") "") as [E|Hne].
    { unfold DiscoverLocation in Hok. rewrite E in Hok. discriminate. }
    destruct (in_dec ascii_dec "/"%char (bytes (getenv "CPLN_LOCATION")))
      as [Hin|Hno].
    + destruct (split_last _ _ Hin) as (p & t' & E & Ht').
      rewrite (Hseg p t' E Ht') in Hok. injection Hok as <-. exact Ht'.
    + rewrite (Hwhole Hne Hno) in Hok. injection Hok as <-. exact Hno.
Qed.

Lemma location_last_segment_witness :
  DiscoverLocation
    (fun v => if String.eqb v "CPLN_LOCATION"
              then "/org/gitops/location" +:+ "/" +:+ "aws-us-west-2" else "")
  = Ok "aws-us-west-2".
Proof.
  apply (proj1 (proj2 (location_last_segment
           (fun v => if String.eqb v "CPLN_LOCATION"
                     then "/org/gitops/location" +:+ "/" +:+ "aws-us-west-2"
                     else "")))
           "/org/gitops/location" "aws-us-west-2").
  - reflexivity.
  - simpl. intuition discriminate.
Defined.


End DiscoveryExtra.

(* ===================================================================== *)
(** * Further properties of pkg/sidecar/health                            *)
(* ===================================================================== *)

Module HealthExtra.
Import GoStd GoStdSpec GoStdFacts Discovery DiscoverySpec DiscoveryProps
  StringFacts DiscoveryExtra Health HealthSpec HealthProps.

(** ** The server list of a new checker *)

Lemma In_bytes_app (c : ascii) (a b : string) :
  In c (bytes (a +:+ b)) <-> In c (bytes a) \/ In c (bytes b).
Proof. rewrite bytes_app. apply in_app_iff. Qed.

Lemma replicaAddress_no_comma (w l g : string) (port i : Z) :
  ~ In ","%char (bytes w) -> ~ In ","%char (bytes l) ->
  ~ In ","%char (bytes g) ->
  ~ In ","%char (bytes (replicaAddress w l g port i)).
Proof.
  intros Hw Hl Hg. unfold replicaAddress.
  pose proof (FormatInt_no_comma i) as Hi.
  pose proof (FormatInt_no_comma port) as Hp.
  rewrite !In_bytes_app. simpl. intuition discriminate.
Qed.

(** The last byte of a rendered integer is a digit. *)
Lemma FormatInt_last_digit (z : Z) :
  exists c, lastByte (FormatInt z) = Some c /\ is_digit c = true.
Proof.
  assert (Hu : forall d, exists c,
            lastByte (NilZero.string_of_uint d) = Some c /\ is_digit c = true).
  { intros d. unfold lastByte.
    destruct (last (bytes (NilZero.string_of_uint d))) as [c|] eqn:E.
    - exists c. split; [reflexivity|].
      assert (Hin : c ∈ bytes (NilZero.string_of_uint d))
        by (eapply last_Some_elem_of; eauto).
      unfold NilZero.string_of_uint in Hin.
      destruct d.
      1: { apply list_elem_of_In in Hin. simpl in Hin.
           destruct Hin as [<-|[]]. reflexivity. }
      all: match type of Hin with
           | _ ∈ bytes (NilEmpty.string_of_uint ?u) =>
               pose proof (string_of_uint_digits u) as Hd
           end;
           rewrite Forall_forall in Hd; exact (Hd _ Hin).
    - apply last_None in E. unfold NilZero.string_of_uint in E.
      destruct d; discriminate. }
  unfold FormatInt, NilZero.string_of_int.
  destruct (Z.to_int z) as [d|d]; [apply Hu|].
  destruct (Hu d) as (c & Hc & Hd). exists c. split; [|exact Hd].
  change (String "-" (NilZero.string_of_uint d))
    with ("-" +:+ NilZero.string_of_uint d).
  rewrite lastByte_app; [exact Hc|].
  unfold NilZero.string_of_uint. destruct d; discriminate.
Qed.

(** A string that starts and ends with ASCII bytes that are not spaces is
    left as it is by [TrimSpace]. *)
Lemma TrimSpace_fixed `{Unicode} (a z : ascii) (s : string) :
  byte a < RuneSelf -> asciiSpace a = false ->
  byte z < RuneSelf -> asciiSpace z = false ->
  lastByte (String a s) = Some z ->
  TrimSpace (String a s) = String a s.
Proof.
  intros Ha Hsa Hz Hsz Hlast. cbn [TrimSpace].
  destruct (Z.leb_spec RuneSelf (byte a)); [lia|]. rewrite Hsa.
  unfold lastByte in Hlast. apply last_Some in Hlast as (init & Hinit).
  unfold bytes in Hinit. rewrite Hinit, rev_app_distr. simpl rev at 1.
  cbn [app trim_right_rev].
  destruct (Z.leb_spec RuneSelf (byte z)); [lia|]. rewrite Hsz.
  change (z :: rev init) with (rev [z] ++ rev init).
  rewrite <- rev_app_distr, rev_involutive, <- Hinit.
  apply string_of_list_ascii_of_string.
Qed.

Lemma digit_ascii (c : ascii) :
  is_digit c = true -> byte c < RuneSelf /\ asciiSpace c = false.
Proof.
  unfold is_digit, asciiSpace, RuneSelf. intros H.
  apply andb_prop in H as [H1 H2]. apply Z.leb_le in H1, H2.
  split; [lia|].
  repeat match goal with
         | |- context [(?x =? ?y)] => destruct (Z.eqb_spec x y); [lia|]
         end.
  reflexivity.
Qed.

Lemma TrimSpace_replicaAddress `{Unicode} (w l g : string) (port i : Z) :
  TrimSpace (replicaAddress w l g port i) = replicaAddress w l g port i.
Proof.
  destruct (FormatInt_last_digit port) as (z & Hz & Hd).
  destruct (digit_ascii z Hd) as [Hz1 Hz2].
  pose proof (replicaAddress_last w l g port i) as Hlast. rewrite Hz in Hlast.
  unfold replicaAddress in *.
  change ("replica-" +:+ ?x) with (String "r" ("eplica-" +:+ x)) in *.
  apply (TrimSpace_fixed "r" z); try assumption; reflexivity.
Qed.

(** X6.  Round trip of the bootstrap list: a checker built from the
    string [BuildBootstrapServers] returns has as servers the replica
    addresses themselves, one for each index from 0 to
    [max(replicaCount, 1) - 1], provided workload, location and GVC name
    hold no comma. *)
Theorem NewChecker_of_BuildBootstrapServers `{Unicode}
  (NewClient : list Opt -> result string KafkaAdminClient)
  (id : Z) (sasl : SASLConfig) (w l g : string) (rc port : Z) :
  ~ In ","%char (bytes w) -> ~ In ","%char (bytes l) ->
  ~ In ","%char (bytes g) ->
  bootstrapServers
    (NewChecker NewClient id (BuildBootstrapServers w l g rc port) sasl)
  = replicaAddress w l g port <$> seqZ 0 (Z.max rc 1).
Proof.
  intros Hw Hl Hg. unfold NewChecker. cbn [bootstrapServers].
  rewrite BuildBootstrapServers_joined.
  assert (Hsplit : SplitByte
            (commaJoined (replicaAddress w l g port <$> seqZ 0 (Z.max rc 1))) ","
          = replicaAddress w l g port <$> seqZ 0 (Z.max rc 1)).
  { rewrite (seqZ_cons 0) by lia. rewrite fmap_cons.
    apply SplitByte_commaJoined.
    rewrite <- fmap_cons. apply Forall_fmap, Forall_forall.
    intros x _. simpl. apply replicaAddress_no_comma; assumption. }
  rewrite Hsplit. clear Hsplit.
  induction (seqZ 0 (Z.max rc 1)) as [|i rest IH]; [reflexivity|].
  rewrite !fmap_cons, TrimSpace_replicaAddress. f_equal. exact IH.
Qed.

Lemma NewChecker_of_BuildBootstrapServers_witness :
  bootstrapServers
    (@NewChecker asciiOnly (fun _ => Err "no network") 0
       (BuildBootstrapServers "kafka" "aws-us-west-2" "test-gvc" 3 9092)
       (mkSASL false "" "" ""))
  = replicaAddress "kafka" "aws-us-west-2" "test-gvc" 9092 <$> seqZ 0 (Z.max 3 1).
Proof.
  apply (@NewChecker_of_BuildBootstrapServers asciiOnly);
    simpl; intuition discriminate.
Defined.

(** X7.  A new checker has one seed server more than its argument has
    commas: the list is never empty, and an argument that is empty, or
    ends in a comma, contributes an entry of its own. *)
Theorem NewChecker_server_count `{Unicode}
  (NewClient : list Opt -> result string KafkaAdminClient)
  (id : Z) (sasl : SASLConfig) (servers : string) :
  length (bootstrapServers (NewChecker NewClient id servers sasl))
  = S (CountByte servers ",") /\
  bootstrapServers (NewChecker NewClient id "" sasl) = [""] /\
  brokerID (NewChecker NewClient id servers sasl) = id /\
  saslConfig (NewChecker NewClient id servers sasl) = sasl.
Proof.
  unfold NewChecker. cbn [bootstrapServers brokerID saslConfig].
  split; [|repeat split].
  rewrite length_fmap. unfold SplitByte.
  rewrite genSplit_loop_length by reflexivity. simpl. lia.
Qed.

(** ** Handlers and verdicts *)

(** The error of a check is a prefixed text, hence not empty. *)
Lemma BrokerInMetadata_error_text c adm log b e :
  fst (BrokerInMetadata c adm log) = (b, Some e) -> e <> "".
Proof.
  unfold BrokerInMetadata, mbind, M_bind, bind, callMetadata, ret.
  destruct (Metadata adm log); cbn; intros [= ? <-]; discriminate.
Qed.

Lemma ControllerElected_error_text c adm log b e :
  fst (ControllerElected c adm log) = (b, Some e) -> e <> "".
Proof.
  unfold ControllerElected, mbind, M_bind, bind, callMetadata, ret.
  destruct (Metadata adm log); cbn; intros [= ? <-]; discriminate.
Qed.

Lemma UnderReplicatedPartitions_error_text c adm log n e :
  fst (UnderReplicatedPartitions c adm log) = (n, Some e) -> e <> "".
Proof.
  unfold UnderReplicatedPartitions, mbind, M_bind, bind, callMetadata, ret.
  destruct (Metadata adm log); cbn; intros [= ? <-]; discriminate.
Qed.

Lemma LogDirsHealthy_error_text c adm log b e :
  fst (LogDirsHealthy c adm log) = (b, Some e) -> e <> "".
Proof.
  unfold LogDirsHealthy, mbind, M_bind, bind, callDescribeBrokerLogDirs, ret.
  destruct (DescribeBrokerLogDirs adm log (brokerID c)) as [ds|?]; cbn.
  - destruct (DescribedLogDirs_Error ds); cbn; discriminate.
  - intros [= ? <-]. discriminate.
Qed.

(** Names the result of the next check in the goal, replaces its call
    log by what the check is known to append, and records that its error
    text is not empty. *)
Ltac next_check c adm :=
  let L := fresh "L" in
  let P := fresh "P" in
  match goal with
  | |- context [BrokerInMetadata c adm ?log] =>
      pose proof (BrokerInMetadata_log c adm log) as L;
      pose proof (BrokerInMetadata_error_text c adm log) as P;
      destruct (BrokerInMetadata c adm log) as [[? [?|]] ?]
  | |- context [ControllerElected c adm ?log] =>
      pose proof (ControllerElected_log c adm log) as L;
      pose proof (ControllerElected_error_text c adm log) as P;
      destruct (ControllerElected c adm log) as [[? [?|]] ?]
  | |- context [UnderReplicatedPartitions c adm ?log] =>
      pose proof (UnderReplicatedPartitions_log c adm log) as L;
      pose proof (UnderReplicatedPartitions_error_text c adm log) as P;
      destruct (UnderReplicatedPartitions c adm log) as [[? [?|]] ?]
  | |- context [LogDirsHealthy c adm ?log] =>
      pose proof (LogDirsHealthy_log c adm log) as L;
      pose proof (LogDirsHealthy_error_text c adm log) as P;
      destruct (LogDirsHealthy c adm log) as [[? [?|]] ?]
  end;
  cbn [fst snd] in L, P; subst.

(** Runs an evaluation through every outcome of every check. *)
Ltac all_outcomes c adm :=
  repeat (next_check c adm; cbn [negb];
          repeat match goal with
                 | b : bool |- _ => destruct b; cbn [negb]
                 | |- context [(?n >? 0)] => destruct (n >? 0)
                 end).

(** X8.  The liveness endpoint and [CheckLiveness] agree for every
    checker and every client: the status code is 200 exactly when the
    verdict is healthy and 503 otherwise, the error field is the
    verdict's message, the status text matches, and the client receives
    the same calls. *)
Theorem LivenessHandler_agrees (c : Checker) :
  let '(code, response) := fst (run (LivenessHandler c)) in
  let verdict := fst (run (CheckLiveness c)) in
  (code = StatusOK <-> Healthy verdict = true) /\
  (code = StatusOK \/ code = StatusServiceUnavailable) /\
  LErrorMessage response = Message verdict /\
  LStatus response = (if Healthy verdict then "healthy" else "unhealthy") /\
  BrokerFound response = Healthy verdict /\
  LBrokerID response = brokerID c /\
  snd (run (LivenessHandler c)) = snd (run (CheckLiveness c)).
Proof.
  unfold_run. destruct (clientFactory c) as [adm|e]; cbn.
  - all_outcomes c adm; cbn; repeat split; auto; discriminate.
  - repeat split; auto; discriminate.
Qed.

(** X9.  The readiness endpoint and [CheckReadiness] agree for every
    checker and every client: 200 exactly when the verdict is healthy,
    503 otherwise, the same calls to the client, and the same message,
    but for the log-directory failure, where the endpoint's message is
    the longer text. *)
Theorem ReadinessHandler_agrees (c : Checker) :
  let '(code, response) := fst (run (ReadinessHandler c)) in
  let verdict := fst (run (CheckReadiness c)) in
  (code = StatusOK <-> Healthy verdict = true) /\
  (code = StatusOK \/ code = StatusServiceUnavailable) /\
  RStatus response = (if Healthy verdict then "healthy" else "unhealthy") /\
  RBrokerID response = brokerID c /\
  (RErrorMessage response = Message verdict \/
   (Message verdict = "log directories unhealthy" /\
    RErrorMessage response
    = "log directories unhealthy (future partitions detected)")) /\
  snd (run (ReadinessHandler c)) = snd (run (CheckReadiness c)).
Proof.
  unfold_run. destruct (clientFactory c) as [adm|e]; cbn.
  - all_outcomes c adm; cbn; repeat split; auto; discriminate.
  - repeat split; auto; discriminate.
Qed.

Lemma cleanup_not_among (calls : list Call) :
  Forall (fun x => x <> CallCleanup) calls -> CallCleanup ∉ calls.
Proof.
  intros H Hin. rewrite Forall_forall in H. exact (H _ Hin eq_refl).
Qed.

Ltac released :=
  match goal with
  | |- exists calls, ?log = _ /\ _ =>
      exists (removelast log); split;
      [ reflexivity
      | apply cleanup_not_among; simpl; repeat constructor; discriminate ]
  end.

(** X10.  The cleanup handed out by the client factory is called exactly
    once, after the last call to the client, by both evaluations and both
    endpoints and on every path; when the factory fails nothing is
    called at all. *)
Theorem cleanup_exactly_once (c : Checker) :
  (forall adm, clientFactory c = Ok adm ->
     releasedOnce (snd (run (CheckLiveness c))) /\
     releasedOnce (snd (run (LivenessHandler c))) /\
     releasedOnce (snd (run (CheckReadiness c))) /\
     releasedOnce (snd (run (ReadinessHandler c)))) /\
  (forall e, clientFactory c = Err e ->
     snd (run (CheckLiveness c)) = [] /\
     snd (run (LivenessHandler c)) = [] /\
     snd (run (CheckReadiness c)) = [] /\
     snd (run (ReadinessHandler c)) = []).
Proof.
  split.
  - intros adm Hf. unfold releasedOnce.
    repeat split; unfold_run; rewrite Hf;
      all_outcomes c adm; cbn; released.
  - intros e Hf. repeat split; unfold_run; rewrite Hf; reflexivity.
Qed.

Lemma cleanup_exactly_once_witness :
  releasedOnce (snd (run (CheckReadiness futureChecker))).
Proof.
  apply (proj1 (cleanup_exactly_once futureChecker)
           (fakeClient (Ok broker0) (Ok futureOnly)) eq_refl).
Defined.

(** X11.  A healthy verdict carries the empty message; an unhealthy
    verdict reached with a client carries a message that is not empty
    (one of the fixed texts, or a prefixed transport error).  Only a
    factory that fails with an empty error text gives an unhealthy
    verdict without message. *)
Theorem verdict_message (c : Checker) :
  (Healthy (fst (run (CheckLiveness c))) = true ->
   Message (fst (run (CheckLiveness c))) = "") /\
  (Healthy (fst (run (CheckReadiness c))) = true ->
   Message (fst (run (CheckReadiness c))) = "") /\
  (forall adm, clientFactory c = Ok adm ->
     (Healthy (fst (run (CheckLiveness c))) = false ->
      Message (fst (run (CheckLiveness c))) <> "") /\
     (Healthy (fst (run (CheckReadiness c))) = false ->
      Message (fst (run (CheckReadiness c))) <> "")) /\
  (forall e, clientFactory c = Err e ->
     fst (run (CheckLiveness c)) = mkResult false e /\
     fst (run (CheckReadiness c)) = mkResult false e).
Proof.
  split; [|split; [|split]].
  - unfold_run. destruct (clientFactory c) as [adm|e]; cbn;
      [all_outcomes c adm; cbn|]; auto; discriminate.
  - unfold_run. destruct (clientFactory c) as [adm|e]; cbn;
      [all_outcomes c adm; cbn|]; auto; discriminate.
  - intros adm Hf. split; unfold_run; rewrite Hf;
      all_outcomes c adm; cbn; intros Hh;
      first [discriminate | eauto].
  - intros e Hf. split; unfold_run; rewrite Hf; reflexivity.
Qed.


Lemma verdict_message_witness :
  Message (fst (run (CheckReadiness futureChecker))) <> "".
Proof.
  apply (proj2 (proj1 (proj2 (proj2 (verdict_message futureChecker)))
                  (fakeClient (Ok broker0) (Ok futureOnly)) eq_refl)).
  reflexivity.
Defined.

(** ** What a healthy verdict means *)

Lemma count_zero_iff (id : Z) (metadata : MetadataT) :
  countUnderReplicated id metadata <= 0 <-> inSyncEverywhere id metadata.
Proof.
  rewrite countUnderReplicated_spec. unfold inSyncEverywhere. split.
  - intros Hc p Hp Hr.
    destruct (decide (id ∈ ISR p)) as [Hi|Hi]; [assumption|].
    assert (Hin : p ∈ filter (underReplicatedFor id) (allPartitions metadata)).
    { apply list_elem_of_filter. split; [split|]; assumption. }
    destruct (filter _ _); [inversion Hin | simpl in Hc; lia].
  - intros Hs.
    destruct (filter _ (allPartitions metadata)) as [|p l] eqn:E;
      [simpl; lia|].
    assert (Hin : p ∈ filter (underReplicatedFor id) (allPartitions metadata))
      by (rewrite E; left).
    apply list_elem_of_filter in Hin as [[Hr Hi] Hp].
    exfalso. exact (Hi (Hs p Hp Hr)).
Qed.

(** The log-directory check when the describe call succeeds. *)
Lemma LogDirsHealthy_ok (c : Checker) (adm : KafkaAdminClient) log ds :
  DescribeBrokerLogDirs adm log (brokerID c) = Ok ds ->
  exists healthy,
    LogDirsHealthy c adm log
    = ((healthy, None), log ++ [CallDescribeBrokerLogDirs (brokerID c)]) /\
    (healthy = true <-> ~ dirError ds /\ ~ futurePlacement ds).
Proof.
  intros Hd.
  unfold LogDirsHealthy, mbind, M_bind, bind, callDescribeBrokerLogDirs.
  rewrite Hd.
  pose proof (DescribedLogDirs_Error_None ds) as Herr.
  pose proof (EachPartition_markFuture ds) as Hfut. unfold markFuture in Hfut.
  destruct (DescribedLogDirs_Error ds) as [e|].
  - exists false. split; [reflexivity|]. split; [discriminate|].
    intros [Hno _]. apply Herr in Hno. discriminate.
  - eexists. split; [reflexivity|].
    destruct (DescribedLogDirs_EachPartition ds _ false); simpl.
    + split; [discriminate|]. intros [_ Hno]. exfalso. apply Hno, Hfut.
      reflexivity.
    + split; [|reflexivity]. intros _. split.
      * apply Herr. reflexivity.
      * intros Hp. apply Hfut in Hp. discriminate.
Qed.

(** X12.  Against an unchanged snapshot and log-directory description,
    [CheckReadiness] is healthy exactly when all four conditions hold:
    the broker is registered, a controller is elected, the broker is in
    the ISR of every partition it replicates, and no log directory has an
    error or a future placement. *)
Theorem readiness_healthy_iff (c : Checker) (md : MetadataT)
  (ds : gmap string DescribedLogDir) :
  clientFactory c = Ok (fakeClient (Ok md) (Ok ds)) ->
  (Healthy (fst (run (CheckReadiness c))) = true <->
   brokerID c ∈ NodeID <$> Brokers md /\
   0 <= Controller md /\
   inSyncEverywhere (brokerID c) md /\
   ~ dirError ds /\ ~ futurePlacement ds).
Proof.
  intros Hf. set (adm := fakeClient (Ok md) (Ok ds)) in *.
  assert (Hmd : forall log, Metadata adm log = Ok md) by reflexivity.
  pose proof (brokerListed_elem (Brokers md) (brokerID c)) as Hreg.
  pose proof (count_zero_iff (brokerID c) md) as Hsync.
  unfold_run. rewrite Hf.
  rewrite (BrokerInMetadata_run c adm _ md (Hmd _)).
  destruct (brokerListed (Brokers md) (brokerID c)); cbn [negb].
  2: { cbn. split; [discriminate|]. intros [H _]. apply Hreg in H.
       discriminate. }
  rewrite (ControllerElected_run c adm _ md (Hmd _)).
  destruct (Z.geb_spec (Controller md) 0) as [Hc|Hc]; cbn [negb].
  2: { cbn. split; [discriminate | lia]. }
  rewrite (UnderReplicatedPartitions_run c adm _ md (Hmd _)).
  destruct (Z.gtb_spec (countUnderReplicated (brokerID c) md) 0) as [Hu|Hu].
  { cbn. split; [discriminate|]. intros (_ & _ & Hs & _).
    apply Hsync in Hs. lia. }
  destruct (LogDirsHealthy_ok c adm
              ((([] ++ [CallMetadata]) ++ [CallMetadata]) ++ [CallMetadata])
              ds eq_refl) as (h & -> & Hh).
  destruct h; cbn.
  - split; [|reflexivity]. intros _.
    destruct (proj1 Hh eq_refl) as [Hd Hp].
    assert (Hs : inSyncEverywhere (brokerID c) md) by (apply Hsync; lia).
    split; [apply Hreg; reflexivity|].
    split; [lia|]. split; [exact Hs|]. split; assumption.
  - split; [discriminate|]. intros (_ & _ & _ & Hd & Hp).
    destruct Hh as [_ Hh]. specialize (Hh (conj Hd Hp)). discriminate.
Qed.

Lemma readiness_healthy_iff_witness :
  Healthy (fst (run (CheckReadiness
    (testChecker 0 (Ok (fakeClient (Ok broker0) (Ok futureOnly))))))) = true
  <-> 0 ∈ NodeID <$> Brokers broker0 /\ 0 <= Controller broker0 /\
      inSyncEverywhere 0 broker0 /\
      ~ dirError futureOnly /\ ~ futurePlacement futureOnly.
Proof.
  apply (readiness_healthy_iff
           (testChecker 0 (Ok (fakeClient (Ok broker0) (Ok futureOnly))))
           broker0 futureOnly).
  reflexivity.
Defined.

(** ** Calls that fail and snapshots that change *)

(** X13.  Each of the three metadata checks fetches a snapshot of its
    own: registration is judged on the first answer, the controller on
    the second, replication on the third, whatever the other answers
    hold. *)
Theorem readiness_snapshot_per_check (c : Checker) (adm : KafkaAdminClient)
  (md1 md2 : MetadataT) :
  clientFactory c = Ok adm ->
  Metadata adm [] = Ok md1 -> brokerID c ∈ NodeID <$> Brokers md1 ->
  Metadata adm [CallMetadata] = Ok md2 ->
  (Controller md2 < 0 ->
   run (CheckReadiness c)
   = (mkResult false "no controller elected",
      [CallMetadata; CallMetadata; CallCleanup])) /\
  (forall md3,
     0 <= Controller md2 ->
     Metadata adm [CallMetadata; CallMetadata] = Ok md3 ->
     (~ inSyncEverywhere (brokerID c) md3 ->
      run (CheckReadiness c)
      = (mkResult false "broker has under-replicated partitions",
         [CallMetadata; CallMetadata; CallMetadata; CallCleanup])) /\
     (inSyncEverywhere (brokerID c) md3 ->
      snd (run (CheckReadiness c))
      = [CallMetadata; CallMetadata; CallMetadata;
         CallDescribeBrokerLogDirs (brokerID c); CallCleanup])).
Proof.
  intros Hf H1 Hreg H2. apply brokerListed_elem in Hreg.
  split.
  - intros Hc. unfold_run. rewrite Hf.
    rewrite (BrokerInMetadata_run c adm [] md1 H1), Hreg. cbn [negb app].
    rewrite (ControllerElected_run c adm _ md2 H2).
    destruct (Z.geb_spec (Controller md2) 0); [lia | reflexivity].
  - intros md3 Hc H3.
    pose proof (count_zero_iff (brokerID c) md3) as Hsync.
    split; intros Hs; unfold_run; rewrite Hf;
      rewrite (BrokerInMetadata_run c adm [] md1 H1), Hreg; cbn [negb app];
      rewrite (ControllerElected_run c adm _ md2 H2);
      (destruct (Z.geb_spec (Controller md2) 0); [|lia]); cbn [negb app];
      rewrite (UnderReplicatedPartitions_run c adm _ md3 H3).
    + destruct (Z.gtb_spec (countUnderReplicated (brokerID c) md3) 0);
        [reflexivity|]. exfalso. apply Hs, Hsync. lia.
    + destruct (Z.gtb_spec (countUnderReplicated (brokerID c) md3) 0) as [Hu|_];
        [apply Hsync in Hs; lia|].
      pose proof (LogDirsHealthy_log c adm
                    ((([] ++ [CallMetadata]) ++ [CallMetadata]) ++ [CallMetadata]))
        as Hl.
      destruct (LogDirsHealthy c adm _) as [[h [e|]] l4]; simpl in Hl; subst l4;
        [reflexivity | destruct h; reflexivity].
Qed.

Lemma readiness_snapshot_per_check_witness :
  run (CheckReadiness (testChecker 0 (Ok changingClient)))
  = (mkResult false "no controller elected",
     [CallMetadata; CallMetadata; CallCleanup]).
Proof.
  apply (proj1 (readiness_snapshot_per_check
                  (testChecker 0 (Ok changingClient)) changingClient
                  broker0 (mkMetadata (-1) [] ∅) eq_refl eq_refl
                  ltac:(simpl; left) eq_refl)).
  simpl. lia.
Defined.

(** X14.  A call that fails ends the readiness evaluation at once: the
    verdict is unhealthy, its message is the text of the error behind the
    prefix of the call ("failed to fetch metadata: " or "failed to
    describe log dirs: "), no later call reaches the client, and the
    cleanup still runs. *)
Theorem readiness_transport_errors (c : Checker) (adm : KafkaAdminClient)
  (e : string) :
  clientFactory c = Ok adm ->
  (Metadata adm [] = Err e ->
   run (CheckReadiness c)
   = (mkResult false ("failed to fetch metadata: " +:+ e),
      [CallMetadata; CallCleanup])) /\
  (forall md1,
     Metadata adm [] = Ok md1 -> brokerID c ∈ NodeID <$> Brokers md1 ->
     (Metadata adm [CallMetadata] = Err e ->
      run (CheckReadiness c)
      = (mkResult false ("failed to fetch metadata: " +:+ e),
         [CallMetadata; CallMetadata; CallCleanup])) /\
     (forall md2,
        Metadata adm [CallMetadata] = Ok md2 -> 0 <= Controller md2 ->
        (Metadata adm [CallMetadata; CallMetadata] = Err e ->
         run (CheckReadiness c)
         = (mkResult false ("failed to fetch metadata: " +:+ e),
            [CallMetadata; CallMetadata; CallMetadata; CallCleanup])) /\
        (forall md3,
           Metadata adm [CallMetadata; CallMetadata] = Ok md3 ->
           inSyncEverywhere (brokerID c) md3 ->
           DescribeBrokerLogDirs adm
             [CallMetadata; CallMetadata; CallMetadata] (brokerID c) = Err e ->
           run (CheckReadiness c)
           = (mkResult false ("failed to describe log dirs: " +:+ e),
              [CallMetadata; CallMetadata; CallMetadata;
               CallDescribeBrokerLogDirs (brokerID c); CallCleanup])))).
Proof.
  intros Hf.
  split.
  - intros H1. unfold_run. rewrite Hf.
    unfold BrokerInMetadata, mbind, M_bind, bind, callMetadata. rewrite H1.
    reflexivity.
  - intros md1 H1 Hreg. apply brokerListed_elem in Hreg. split.
    + intros H2. unfold_run. rewrite Hf.
      rewrite (BrokerInMetadata_run c adm [] md1 H1), Hreg. cbn [negb app].
      unfold ControllerElected, mbind, M_bind, bind, callMetadata.
      simpl app. rewrite H2. reflexivity.
    + intros md2 H2 Hc. split.
      * intros H3. unfold_run. rewrite Hf.
        rewrite (BrokerInMetadata_run c adm [] md1 H1), Hreg. cbn [negb app].
        rewrite (ControllerElected_run c adm _ md2 H2).
        destruct (Z.geb_spec (Controller md2) 0); [|lia]. cbn [negb app].
        unfold UnderReplicatedPartitions, mbind, M_bind, bind, callMetadata.
        simpl app. rewrite H3. reflexivity.
      * intros md3 H3 Hs Hd. unfold_run. rewrite Hf.
        rewrite (BrokerInMetadata_run c adm [] md1 H1), Hreg. cbn [negb app].
        rewrite (ControllerElected_run c adm _ md2 H2).
        destruct (Z.geb_spec (Controller md2) 0); [|lia]. cbn [negb app].
        rewrite (UnderReplicatedPartitions_run c adm _ md3 H3).
        apply count_zero_iff in Hs.
        destruct (Z.gtb_spec (countUnderReplicated (brokerID c) md3) 0);
          [lia|].
        cbv beta iota.
        unfold LogDirsHealthy, mbind, M_bind, bind, callDescribeBrokerLogDirs.
        cbn [app]. rewrite Hd. reflexivity.
Qed.

Lemma readiness_transport_errors_witness :
  run (CheckReadiness (testChecker 0 (Ok flakyClient)))
  = (mkResult false ("failed to fetch metadata: " +:+ "connection lost"),
     [CallMetadata; CallMetadata; CallCleanup]).
Proof.
  apply (proj1 (proj2 (readiness_transport_errors
                         (testChecker 0 (Ok flakyClient)) flakyClient
                         "connection lost" eq_refl)
                  broker0 eq_refl ltac:(simpl; left))).
  reflexivity.
Defined.


(** ** The default client factory *)

Lemma getSASLOpt_supported `{Unicode} (c : Checker) :
  ToUpper (Mechanism (saslConfig c)) ∈ supportedMechanisms ->
  exists opt, getSASLOpt c = Ok opt /\
    credentials opt
    = Some (Username (saslConfig c), Password (saslConfig c)).
Proof.
  intros Hin. unfold getSASLOpt.
  destruct (String.eqb_spec (ToUpper (Mechanism (saslConfig c))) "PLAIN");
    [eexists; split; reflexivity|].
  destruct (String.eqb_spec (ToUpper (Mechanism (saslConfig c)))
              "SCRAM-SHA-256");
    [eexists; split; reflexivity|].
  destruct (String.eqb_spec (ToUpper (Mechanism (saslConfig c)))
              "SCRAM-SHA-512");
    [eexists; split; reflexivity|].
  exfalso. unfold supportedMechanisms in Hin.
  apply list_elem_of_In in Hin. simpl in Hin. intuition congruence.
Qed.

(** X24.  The client of a new checker is asked of the library with the
    trimmed seed servers first.  With SASL disabled this is the only
    option: no credentials are handed over, and the mechanism is not
    looked at, so that an unsupported one does no harm.  With SASL
    enabled and a supported mechanism, one authentication option follows,
    carrying the configured user name and password.  When the library
    refuses, both evaluations report its error behind the prefix "failed
    to create kafka client: " and reach no client. *)
Theorem default_factory_options `{Unicode}
  (NewClient : list Opt -> result string KafkaAdminClient)
  (id : Z) (servers : string) (sasl : SASLConfig) :
  let c := NewChecker NewClient id servers sasl in
  let seed := SeedBrokers (TrimSpace <$> SplitByte servers ",") in
  (Enabled sasl = false -> clientFactory c = created (NewClient [seed])) /\
  (Enabled sasl = true ->
   ToUpper (Mechanism sasl) ∈ supportedMechanisms ->
   exists opt,
     credentials opt = Some (Username sasl, Password sasl) /\
     clientFactory c = created (NewClient [seed; opt])) /\
  (forall opts e,
     clientFactory c = created (NewClient opts) -> NewClient opts = Err e ->
     run (CheckLiveness c)
     = (mkResult false ("failed to create kafka client: " +:+ e), []) /\
     run (CheckReadiness c)
     = (mkResult false ("failed to create kafka client: " +:+ e), [])).
Proof.
  intros c seed. split; [|split].
  - intros Hoff. subst c seed. unfold NewChecker, defaultClientFactory.
    cbn [clientFactory saslConfig bootstrapServers]. rewrite Hoff.
    reflexivity.
  - intros Hon Hin. subst c seed. unfold NewChecker, defaultClientFactory.
    cbn [clientFactory saslConfig bootstrapServers]. rewrite Hon.
    set (c0 := mkChecker id (TrimSpace <$> SplitByte servers ",") sasl (Err "")).
    destruct (getSASLOpt_supported c0 Hin) as (opt & -> & Hcred).
    exists opt. split; [exact Hcred | reflexivity].
  - intros opts e Hf He. rewrite He in Hf. cbn [created] in Hf.
    split; unfold_run; rewrite Hf; reflexivity.
Qed.

Lemma default_factory_options_witness :
  clientFactory
    (@NewChecker asciiOnly (fun _ => Err "no network") 0 "a:9092, b:9092"
       (mkSASL false "GSSAPI" "user" "secret"))
  = created (Err "no network").
Proof.
  apply (proj1 (@default_factory_options asciiOnly (fun _ => Err "no network")
                  0 "a:9092, b:9092" (mkSASL false "GSSAPI" "user" "secret"))).
  reflexivity.
Defined.

(** ** The fields of the readiness response *)

Lemma UnderReplicatedPartitions_nonneg (c : Checker) (adm : KafkaAdminClient)
  log n :
  fst (UnderReplicatedPartitions c adm log) = (n, None) -> 0 <= n.
Proof.
  unfold UnderReplicatedPartitions, mbind, M_bind, bind, callMetadata, ret.
  destruct (Metadata adm log) as [md|e]; cbn; [|discriminate].
  intros [= <-]. rewrite countUnderReplicated_spec. lia.
Qed.

(** Records, before the check is run, that a count it returns is not
    negative. *)
Ltac count_nonneg c adm :=
  match goal with
  | |- context [UnderReplicatedPartitions c adm ?log] =>
      let N := fresh "N" in
      pose proof (UnderReplicatedPartitions_nonneg c adm log) as N
  end.

(** X25.  The fields of the readiness response follow the order of the
    checks.  The flag of the log directories is true exactly when the
    status code is 200; a true controller flag comes with a true
    registration flag; the count of under-replicated partitions is never
    negative (the -1 of a failed call stays inside), it is 0 in a healthy
    response, and a positive count comes with the message of the third
    check. *)
Theorem ReadinessHandler_flags (c : Checker) :
  let '(code, response) := fst (run (ReadinessHandler c)) in
  (RLogDirsHealthy response = true <-> code = StatusOK) /\
  (RControllerElected response = true -> BrokerRegistered response = true) /\
  (code = StatusOK ->
   BrokerRegistered response = true /\ RControllerElected response = true /\
   RUnderReplicatedPartitions response = 0 /\ RErrorMessage response = "" /\
   RStatus response = "healthy") /\
  0 <= RUnderReplicatedPartitions response /\
  (0 < RUnderReplicatedPartitions response ->
   code = StatusServiceUnavailable /\
   RErrorMessage response = "broker has under-replicated partitions").
Proof.
  unfold_run. destruct (clientFactory c) as [adm|e]; cbn.
  2: { repeat split; intros; try discriminate; lia. }
  next_check c adm; cbn [negb].
  1: { cbn. repeat split; intros; try discriminate; lia. }
  destruct b; cbn [negb].
  2: { cbn. repeat split; intros; try discriminate; lia. }
  next_check c adm; cbn [negb].
  1: { cbn. repeat split; intros; try discriminate; lia. }
  destruct b; cbn [negb].
  2: { cbn. repeat split; intros; try discriminate; lia. }
  count_nonneg c adm. next_check c adm; cbn [negb].
  1: { cbn. repeat split; intros; try discriminate; lia. }
  specialize (N _ eq_refl).
  destruct (Z.gtb_spec z 0) as [Hpos|Hzero].
  1: { cbn. repeat split; intros; try discriminate; lia. }
  assert (z = 0) as -> by lia.
  next_check c adm; cbn [negb].
  1: { cbn. repeat split; intros; try discriminate; lia. }
  destruct b; cbn; repeat split; intros; try discriminate; lia.
Qed.


End HealthExtra.

(* ===================================================================== *)
(** * Further properties of pkg/sidecar/metrics                           *)
(* ===================================================================== *)

Module MetricsExtra.
Import GoStd GoStdSpec GoStdFacts Metrics MetricsSpec MetricsProps.

(** ** Numerals in files *)

Lemma readUint64FromFile_holdsAmount `{Unicode} (os : OS) (path : string) :
  snd (readUint64FromFile os path) = None <-> holdsAmount os path.
Proof.
  unfold holdsAmount. split.
  - intros Hok. destruct (ReadFile os path) as [data|e] eqn:Hr.
    + exists data. split; [reflexivity|].
      destruct (readUint64FromFile os path) as [v o] eqn:Hv.
      simpl in Hok; subst o.
      apply (readUint64FromFile_ok os path data v Hr) in Hv.
      destruct Hv as [[? _] | ?]; [left | right; exists v]; assumption.
    + unfold readUint64FromFile in Hok. rewrite Hr in Hok. discriminate.
  - intros (data & Hr & [Hmax | (v & Hv)]).
    + rewrite (proj2 (readUint64FromFile_ok os path data 0 Hr)); [reflexivity|].
      left. split; [assumption | reflexivity].
    + rewrite (proj2 (readUint64FromFile_ok os path data v Hr));
        [reflexivity | right; assumption].
Qed.

(** X15.  [readUint64FromFile] fails with the error of the read when the
    file cannot be read.  Of a file that can, it returns a value exactly
    when the trimmed content is "max" (the value is 0) or an unsigned
    decimal numeral below 2^64 (the value is the numeral's): no sign, no
    underscore, no other base, no empty file.  A numeral of 2^64 or more
    is a range error of [ParseUint]. *)
Theorem readUint64FromFile_spec `{Unicode} (os : OS) (path : string) :
  (forall e, ReadFile os path = Err e ->
             readUint64FromFile os path = (0, Some (OsError e))) /\
  (forall data v,
     ReadFile os path = Ok data ->
     (readUint64FromFile os path = (v, None) <->
      (TrimSpace data = "max" /\ v = 0) \/
      (decimalValue (TrimSpace data) = Some v /\ v < 2 ^ 64))) /\
  (forall data w,
     ReadFile os path = Ok data ->
     decimalValue (TrimSpace data) = Some w -> 2 ^ 64 <= w ->
     readUint64FromFile os path
     = (2 ^ 64 - 1,
        Some (ParseError (mkNumError "ParseUint" (TrimSpace data) ErrRange)))).
Proof.
  split; [|split].
  - intros e Hr. unfold readUint64FromFile. rewrite Hr. reflexivity.
  - intros data v Hr. exact (readUint64FromFile_ok os path data v Hr).
  - intros data w Hr Hw Hbig. unfold readUint64FromFile. rewrite Hr.
    destruct (String.eqb_spec (TrimSpace data) "max") as [Hmax|_].
    + rewrite Hmax in Hw. discriminate.
    + rewrite (ParseUint64_overflow _ w Hw Hbig). reflexivity.
Qed.

Lemma readUint64FromFile_spec_witness :
  @readUint64FromFile asciiOnly lowUsageFiles "/sys/fs/cgroup/memory.current"
  = (50, None)
  <-> (@TrimSpace asciiOnly "50
" = "max" /\ 50 = 0) \/
      (decimalValue (@TrimSpace asciiOnly "50
") = Some 50 /\ 50 < 2 ^ 64).
Proof.
  apply (proj1 (proj2 (@readUint64FromFile_spec asciiOnly lowUsageFiles
                         "/sys/fs/cgroup/memory.current"))).
  reflexivity.
Defined.

(** ** Lines of memory.stat *)

(** X16.  Both [readMemoryStat] functions read the file line by line into
    a map: a line that is not "key value" with a [uint64] numeral is
    skipped without error, a key given by several lines has the value of
    the last of them, and a key that no line gives is absent and reads as
    0.  A scan that ends in an error gives the error and no statistics,
    whatever lines were read before. *)
Theorem readMemoryStat_lastEntries `{Unicode} (os : OS)
  (r1 : V1.CgroupV1Reader) (r2 : V2.CgroupV2Reader) :
  (forall lines,
     ScanFile os (V1.basePath r1 +:+ "/memory.stat") = Ok (lines, None) ->
     exists stats, V1.readMemoryStat os r1 = Ok stats /\
                   lastEntries lines stats) /\
  (forall lines,
     ScanFile os (V2.basePath r2 +:+ "/memory.stat") = Ok (lines, None) ->
     exists stats, V2.readMemoryStat os r2 = Ok stats /\
                   lastEntries lines stats) /\
  (forall lines e,
     ScanFile os (V1.basePath r1 +:+ "/memory.stat") = Ok (lines, Some e) ->
     V1.readMemoryStat os r1 = Err (OsError e)) /\
  (forall lines e,
     ScanFile os (V2.basePath r2 +:+ "/memory.stat") = Ok (lines, Some e) ->
     V2.readMemoryStat os r2 = Err (OsError e)).
Proof.
  repeat split.
  - intros lines Hs. unfold V1.readMemoryStat. rewrite Hs.
    eexists. split; [reflexivity | apply stat_lines_lastEntries].
  - intros lines Hs. unfold V2.readMemoryStat. rewrite Hs.
    eexists. split; [reflexivity | apply stat_lines_lastEntries].
  - intros lines e Hs. unfold V1.readMemoryStat. rewrite Hs. reflexivity.
  - intros lines e Hs. unfold V2.readMemoryStat. rewrite Hs. reflexivity.
Qed.

Lemma readMemoryStat_lastEntries_witness :
  exists stats,
    @V2.readMemoryStat asciiOnly lowUsageFiles (V2.mkReader "/sys/fs/cgroup")
    = Ok stats /\
    @lastEntries asciiOnly ["anon 25"; "inactive_file 100"] stats.
Proof.
  apply (proj1 (proj2 (@readMemoryStat_lastEntries asciiOnly lowUsageFiles
                         (V1.mkReader "/sys/fs/cgroup")
                         (V2.mkReader "/sys/fs/cgroup")))).
  reflexivity.
Defined.

(** ** When a read succeeds *)

Lemma V1_readMemoryStat_scans `{Unicode} (os : OS) (r : V1.CgroupV1Reader) :
  is_ok (V1.readMemoryStat os r) = true
  <-> scans os (V1.basePath r +:+ "/memory.stat").
Proof.
  unfold V1.readMemoryStat, scans.
  destruct (ScanFile os _) as [[lines [e|]]|e]; cbn; split;
    try discriminate; try (intros [? [=]]); eauto.
Qed.

Lemma V2_readMemoryStat_scans `{Unicode} (os : OS) (r : V2.CgroupV2Reader) :
  is_ok (V2.readMemoryStat os r) = true
  <-> scans os (V2.basePath r +:+ "/memory.stat").
Proof.
  unfold V2.readMemoryStat, scans.
  destruct (ScanFile os _) as [[lines [e|]]|e]; cbn; split;
    try discriminate; try (intros [? [=]]); eauto.
Qed.

(** X17.  [ReadMemoryMetrics] succeeds exactly when the usage file and
    the limit file each hold "max" or a [uint64] numeral and the
    statistics file can be scanned to its end.  The content of the
    statistics file never makes it fail. *)
Theorem ReadMemoryMetrics_succeeds_iff `{Unicode} (os : OS) (base : string) :
  (is_ok (V1.ReadMemoryMetrics os (V1.mkReader base)) = true <->
   holdsAmount os (base +:+ "/memory.usage_in_bytes") /\
   holdsAmount os (base +:+ "/memory.limit_in_bytes") /\
   scans os (base +:+ "/memory.stat")) /\
  (is_ok (V2.ReadMemoryMetrics os (V2.mkReader base)) = true <->
   holdsAmount os (base +:+ "/memory.current") /\
   holdsAmount os (base +:+ "/memory.max") /\
   scans os (base +:+ "/memory.stat")).
Proof.
  split.
  - rewrite <- !readUint64FromFile_holdsAmount.
    rewrite <- (V1_readMemoryStat_scans os (V1.mkReader base)).
    unfold V1.ReadMemoryMetrics. cbn [V1.basePath].
    destruct (readUint64FromFile os (base +:+ "/memory.usage_in_bytes"))
      as [u [e|]]; cbn [snd];
      [split; [discriminate | intros [[=] _]]|].
    destruct (readUint64FromFile os (base +:+ "/memory.limit_in_bytes"))
      as [l [e|]]; cbn [snd];
      [split; [discriminate | intros (_ & [=] & _)]|].
    destruct (V1.readMemoryStat os (V1.mkReader base)) as [stats|e].
    + split; [intros _; repeat split | intros _; reflexivity].
    + split; [discriminate | intros (_ & _ & [=])].
  - rewrite <- !readUint64FromFile_holdsAmount.
    rewrite <- (V2_readMemoryStat_scans os (V2.mkReader base)).
    unfold V2.ReadMemoryMetrics. cbn [V2.basePath].
    destruct (readUint64FromFile os (base +:+ "/memory.current"))
      as [u [e|]]; cbn [snd];
      [split; [discriminate | intros [[=] _]]|].
    destruct (readUint64FromFile os (base +:+ "/memory.max"))
      as [l [e|]]; cbn [snd];
      [split; [discriminate | intros (_ & [=] & _)]|].
    destruct (V2.readMemoryStat os (V2.mkReader base)) as [stats|e].
    + split; [intros _; repeat split | intros _; reflexivity].
    + split; [discriminate | intros (_ & _ & [=])].
Qed.


(** ** The hierarchy that is read *)

(** X18.  [NewCgroupReader] returns the reader of the legacy hierarchy
    exactly when the file of the unified hierarchy is absent and the
    legacy file present, and in every other case, also when neither file
    is found, the reader of the unified hierarchy.  The file probed is
    the usage file of the reader returned: a successful read reports its
    content as usage, and an unreadable one fails the read. *)
Theorem NewCgroupReader_probed `{Unicode} (Stat : string -> option string)
  (os : OS) :
  (NewCgroupReader Stat = ReaderV1 (V1.mkReader "/sys/fs/cgroup/memory") <->
   Stat "/sys/fs/cgroup/memory.current" <> None /\
   Stat "/sys/fs/cgroup/memory/memory.usage_in_bytes" = None) /\
  (NewCgroupReader Stat = ReaderV2 (V2.mkReader "/sys/fs/cgroup") <->
   ~ (Stat "/sys/fs/cgroup/memory.current" <> None /\
      Stat "/sys/fs/cgroup/memory/memory.usage_in_bytes" = None)) /\
  (forall m,
     ReadMemoryMetrics os (NewCgroupReader Stat) = Ok m ->
     readUint64FromFile os (probedFile Stat) = (Usage m, None)) /\
  (forall e,
     ReadFile os (probedFile Stat) = Err e ->
     exists step,
       ReadMemoryMetrics os (NewCgroupReader Stat)
       = Err (Wrapped step (OsError e))).
Proof.
  unfold NewCgroupReader, DetectCgroupVersion, probedFile.
  destruct (Stat "/sys/fs/cgroup/memory.current") as [e2|];
    [destruct (Stat "/sys/fs/cgroup/memory/memory.usage_in_bytes") as [e1|]|];
    cbv zeta iota.
  - split; [|split; [|split]].
    + split; [discriminate | intros [_ [=]]].
    + split; [intros _ [_ [=]] | reflexivity].
    + intros m Hm. cbn [ReadMemoryMetrics] in Hm.
      apply V2_ReadMemoryMetrics_inv in Hm.
      destruct Hm as (u & l & stats & Hu & _ & _ & -> & _). exact Hu.
    + intros e He. eexists. cbn [ReadMemoryMetrics].
      unfold V2.ReadMemoryMetrics, readUint64FromFile.
      change (V2.basePath V2.NewCgroupV2Reader +:+ "/memory.current")
        with "/sys/fs/cgroup/memory.current".
      rewrite He. reflexivity.
  - split; [|split; [|split]].
    + split; [intros _; split; [discriminate | reflexivity] | reflexivity].
    + split; [discriminate|]. intros Hn. exfalso. apply Hn.
      split; [discriminate | reflexivity].
    + intros m Hm. cbn [ReadMemoryMetrics] in Hm.
      apply V1_ReadMemoryMetrics_inv in Hm.
      destruct Hm as (u & l & stats & Hu & _ & _ & -> & _). exact Hu.
    + intros e He. eexists. cbn [ReadMemoryMetrics].
      unfold V1.ReadMemoryMetrics, readUint64FromFile.
      change (V1.basePath V1.NewCgroupV1Reader +:+ "/memory.usage_in_bytes")
        with "/sys/fs/cgroup/memory/memory.usage_in_bytes".
      rewrite He. reflexivity.
  - split; [|split; [|split]].
    + split; [discriminate | intros [Hn _]; contradiction].
    + split; [intros _ [Hn _]; contradiction | reflexivity].
    + intros m Hm. cbn [ReadMemoryMetrics] in Hm.
      apply V2_ReadMemoryMetrics_inv in Hm.
      destruct Hm as (u & l & stats & Hu & _ & _ & -> & _). exact Hu.
    + intros e He. eexists. cbn [ReadMemoryMetrics].
      unfold V2.ReadMemoryMetrics, readUint64FromFile.
      change (V2.basePath V2.NewCgroupV2Reader +:+ "/memory.current")
        with "/sys/fs/cgroup/memory.current".
      rewrite He. reflexivity.
Qed.

Lemma NewCgroupReader_probed_witness :
  exists step,
    @ReadMemoryMetrics asciiOnly lowUsageFiles (NewCgroupReader legacyOnly)
    = Err (Wrapped step (OsError "no such file or directory")).
Proof.
  apply (proj2 (proj2 (proj2 (@NewCgroupReader_probed asciiOnly legacyOnly
                                lowUsageFiles)))).
  reflexivity.
Defined.

(** ** The collector *)

(** Evaluates the metric names in the goal. *)
Ltac metric_names :=
  repeat match goal with
         | |- context [BuildFQName ?a ?b ?n] =>
             let v := eval vm_compute in (BuildFQName a b n) in
             change (BuildFQName a b n) with v
         end.

(** X19.  The collector exports eight metrics named kafka_memory_*.  A
    collection sends nothing when the read of the memory metrics fails;
    when it succeeds, and the library accepts the eight names, it sends
    exactly one gauge for each descriptor that [Describe] announces, in
    the same order and without panic, with the values of the metrics;
    non_reclaimable_bytes repeats the value of rss_bytes. *)
Theorem Collect_matches_Describe `{Unicode} (IsValidMetricName : string -> bool)
  (os : OS) (reader : CgroupReader) :
  let c := NewCollectorWithReader IsValidMetricName reader in
  fqName <$> Describe c = metricNames /\
  (forall e, ReadMemoryMetrics os reader = Err e -> Collect os c = ([], None)) /\
  ((forall name, name ∈ metricNames -> IsValidMetricName name = true) ->
   forall m, ReadMemoryMetrics os reader = Ok m ->
   exists sent,
     Collect os c = (sent, None) /\
     desc <$> sent = Describe c /\
     valType <$> sent = replicate 8 GaugeValue /\
     val <$> sent = metricValues m).
Proof.
  intros c. subst c. split; [|split].
  - unfold Describe, NewCollectorWithReader, NewDesc.
    cbn [usageDesc limitDesc rssDesc inactiveFileDesc workingSetDesc
         nonReclaimableDesc oomRatioDesc oomFloorRatioDesc].
    metric_names.
    repeat match goal with
           | |- context [IsValidMetricName ?n] =>
               destruct (IsValidMetricName n)
           end; reflexivity.
  - intros e He. unfold Collect. cbn [Metrics.reader NewCollectorWithReader].
    rewrite He. reflexivity.
  - intros Hvalid m Hm.
    assert (Hall : Forall (fun name => IsValidMetricName name = true) metricNames)
      by (apply Forall_forall; exact Hvalid).
    unfold metricNames in Hall.
    repeat match type of Hall with
           | Forall _ (_ :: _) =>
               let Hn := fresh "Hn" in
               apply Forall_cons in Hall as [Hn Hall]
           end.
    unfold Collect, Describe, NewCollectorWithReader, NewDesc,
      MustNewConstMetric.
    cbn [Metrics.reader usageDesc limitDesc rssDesc inactiveFileDesc
         workingSetDesc nonReclaimableDesc oomRatioDesc oomFloorRatioDesc].
    rewrite Hm. metric_names.
    rewrite Hn, Hn0, Hn1, Hn2, Hn3, Hn4, Hn5, Hn6.
    cbn [descErr sendAll]. eexists. split; [reflexivity|].
    repeat split.
Qed.

Lemma Collect_matches_Describe_witness :
  exists sent,
    @Collect asciiOnly lowUsageFiles
      (NewCollectorWithReader legacyName (fixedReader (Ok zeroMetrics)))
    = (sent, None) /\
    desc <$> sent
    = Describe (NewCollectorWithReader legacyName (fixedReader (Ok zeroMetrics))) /\
    valType <$> sent = replicate 8 GaugeValue /\
    val <$> sent = metricValues zeroMetrics.
Proof.
  apply (proj2 (proj2 (@Collect_matches_Describe asciiOnly legacyName
                         lowUsageFiles (fixedReader (Ok zeroMetrics))))).
  - intros name Hn. unfold metricNames in Hn.
    repeat (apply elem_of_cons in Hn as [->|Hn]; [reflexivity|]).
    inversion Hn.
  - reflexivity.
Defined.


End MetricsExtra.

(* ===================================================================== *)
(** * Properties of the start-up: pkg/sidecar/types and cmd/sidecar       *)
(* ===================================================================== *)

Module StartupProps.
Import GoStd GoStdSpec GoStdFacts Discovery DiscoverySpec DiscoveryProps.
Import StringFacts Health HealthExtra Types TypesSpec Main.

Lemma BuildBootstrapServers_nonempty (w l g : string) (rc port : Z) :
  BuildBootstrapServers w l g rc port <> "".
Proof.
  rewrite BuildBootstrapServers_joined.
  rewrite (seqZ_cons 0) by lia. rewrite fmap_cons.
  unfold replicaAddress at 1. rewrite commaJoined_prefix. discriminate.
Qed.

Lemma DiscoverBrokerID_hostname (getenv : Env) (id : Z) :
  DiscoverBrokerID getenv = Ok id ->
  ParseBrokerIDFromHostname (getenv "HOSTNAME") = Ok id.
Proof.
  unfold DiscoverBrokerID.
  destruct (String.eqb (getenv "HOSTNAME") ""); [discriminate|].
  destruct (ParseBrokerIDFromHostname (getenv "HOSTNAME")); [|discriminate].
  intros [= <-]. reflexivity.
Qed.

Lemma keepsSettings_refl (c : ConfigSchema) : keepsSettings c c.
Proof. repeat split. Qed.

Lemma keepsSettings_setBrokerID (id : Z) (c : ConfigSchema) :
  keepsSettings c (setBrokerID id c).
Proof. repeat split. Qed.

Lemma keepsSettings_setBootstrapServers (v : string) (c d : ConfigSchema) :
  keepsSettings c d -> keepsSettings c (setBootstrapServers v d).
Proof. intros H. exact H. Qed.

(** X20.  A configuration that [Initialize] accepts has bootstrap servers
    that are not empty; servers that were set are kept, and so is a
    broker ID set through BROKER_ID, while without BROKER_ID the broker
    ID is the one parsed from HOSTNAME.  No other setting is changed: the
    workload name, location and GVC name that were discovered are used
    for the server list only and not stored. *)
Theorem Initialize_success (getenv : Env)
  (ParseSchema : ConfigSchema -> ConfigSchema * option string)
  (cfg : ConfigSchema) :
  Initialize getenv ParseSchema = (cfg, None) ->
  exists parsed,
    ParseSchema zeroConfig = (parsed, None) /\
    keepsSettings parsed cfg /\
    BootstrapServers cfg <> "" /\
    (BootstrapServers parsed <> "" ->
     BootstrapServers cfg = BootstrapServers parsed) /\
    (getenv "BROKER_ID" <> "" -> BrokerID cfg = BrokerID parsed) /\
    (getenv "BROKER_ID" = "" ->
     ParseBrokerIDFromHostname (getenv "HOSTNAME") = Ok (BrokerID cfg)).
Proof.
  unfold Initialize.
  destruct (ParseSchema zeroConfig) as [parsed [msg|]]; [discriminate|].
  intros Hinit. exists parsed. split; [reflexivity|].
  set (step1 := if String.eqb (getenv "BROKER_ID") "" then _ else _) in Hinit.
  assert (H1 : forall c1, step1 = (c1, None) ->
            keepsSettings parsed c1 /\
            BootstrapServers c1 = BootstrapServers parsed /\
            (getenv "BROKER_ID" <> "" -> BrokerID c1 = BrokerID parsed) /\
            (getenv "BROKER_ID" = "" ->
             ParseBrokerIDFromHostname (getenv "HOSTNAME") = Ok (BrokerID c1))).
  { intros c1. subst step1.
    destruct (String.eqb_spec (getenv "BROKER_ID") "") as [Hb|Hb].
    - destruct (DiscoverBrokerID getenv) as [id|e] eqn:Hd; [|discriminate].
      intros [= <-]. split; [apply keepsSettings_setBrokerID|].
      split; [reflexivity|]. split; [intros Hn; contradiction|].
      intros _. apply DiscoverBrokerID_hostname, Hd.
    - intros [= <-]. split; [apply keepsSettings_refl|].
      split; [reflexivity|]. split; [reflexivity | intros Hn; contradiction]. }
  destruct step1 as [c1 [e|]]; [discriminate|].
  destruct (H1 c1 eq_refl) as (Hkeep & Hbs & Hset & Hhost). clear H1.
  destruct (String.eqb_spec (BootstrapServers c1) "") as [Hempty|Hfull].
  - destruct (if String.eqb (WorkloadName c1) "" then _ else _) as [w|?];
      [|discriminate].
    destruct (if String.eqb (Location c1) "" then _ else _) as [l|?];
      [|discriminate].
    destruct (if String.eqb (GvcName c1) "" then _ else _) as [g|?];
      [|discriminate].
    injection Hinit as <-.
    split; [apply keepsSettings_setBootstrapServers, Hkeep|].
    split; [apply BuildBootstrapServers_nonempty|].
    split; [intros Hn; congruence|].
    split; assumption.
  - injection Hinit as <-.
    split; [exact Hkeep|]. split; [exact Hfull|].
    split; [intros _; exact Hbs|]. split; assumption.
Qed.

Lemma Initialize_success_witness :
  exists parsed,
    parseDefaults zeroConfig = (parsed, None) /\
    keepsSettings parsed (fst (Initialize replicaEnv parseDefaults)) /\
    BootstrapServers (fst (Initialize replicaEnv parseDefaults)) <> "" /\
    (BootstrapServers parsed <> "" ->
     BootstrapServers (fst (Initialize replicaEnv parseDefaults))
     = BootstrapServers parsed) /\
    (replicaEnv "BROKER_ID" <> "" ->
     BrokerID (fst (Initialize replicaEnv parseDefaults)) = BrokerID parsed) /\
    (replicaEnv "BROKER_ID" = "" ->
     ParseBrokerIDFromHostname (replicaEnv "HOSTNAME")
     = Ok (BrokerID (fst (Initialize replicaEnv parseDefaults)))).
Proof.
  apply (Initialize_success replicaEnv parseDefaults).
  vm_compute. reflexivity.
Defined.

(** X21.  [Initialize] reads of the environment, beyond what the parse of
    the schema reads, only BROKER_ID, HOSTNAME, CPLN_WORKLOAD,
    CPLN_LOCATION and CPLN_GVC; CPLN_GVC_ALIAS plays no role.  With
    BROKER_ID and the bootstrap servers set it reads none of the others
    and returns the parsed configuration as it is. *)
Theorem Initialize_environment (getenv getenv' : Env)
  (ParseSchema : ConfigSchema -> ConfigSchema * option string) :
  ((forall variable, variable ∈ discoveryVariables ->
                     getenv variable = getenv' variable) ->
   Initialize getenv ParseSchema = Initialize getenv' ParseSchema) /\
  (forall parsed,
     ParseSchema zeroConfig = (parsed, None) ->
     getenv "BROKER_ID" <> "" -> BootstrapServers parsed <> "" ->
     Initialize getenv ParseSchema = (parsed, None)).
Proof.
  split.
  - intros Hsame.
    assert (Hall : Forall (fun v => getenv v = getenv' v) discoveryVariables)
      by (apply Forall_forall; exact Hsame).
    unfold discoveryVariables in Hall.
    repeat match type of Hall with
           | Forall _ (_ :: _) =>
               let Hv := fresh "Hv" in
               apply Forall_cons in Hall as [Hv Hall]
           end.
    unfold Initialize, DiscoverBrokerID, DiscoverWorkloadName,
      DiscoverLocation, DiscoverGvcName.
    rewrite Hv, Hv0, Hv1, Hv2, Hv3. reflexivity.
  - intros parsed Hp Hb Hs. unfold Initialize. rewrite Hp.
    destruct (String.eqb_spec (getenv "BROKER_ID") ""); [contradiction|].
    destruct (String.eqb_spec (BootstrapServers parsed) "");
      [contradiction | reflexivity].
Qed.

Lemma Initialize_environment_witness :
  Initialize explicitEnv parseExplicit
  = (setBootstrapServers "broker:9092" defaults, None).
Proof.
  apply (proj2 (Initialize_environment explicitEnv explicitEnv parseExplicit)).
  - reflexivity.
  - discriminate.
  - discriminate.
Defined.

(** X22.  The steps of [Initialize] fail in order, and a failure leaves
    in [Config] what the steps before it did.  An error of the schema is
    returned before anything is discovered; without BROKER_ID a failed
    discovery of the broker ID is returned even when the bootstrap
    servers are set; and when the workload name cannot be discovered
    after the broker ID was, [Config] holds the discovered broker ID and
    no bootstrap servers. *)
Theorem Initialize_failures (getenv : Env)
  (ParseSchema : ConfigSchema -> ConfigSchema * option string) :
  (forall cfg msg,
     ParseSchema zeroConfig = (cfg, Some msg) ->
     Initialize getenv ParseSchema = (cfg, Some (SchemaError msg))) /\
  (forall parsed e,
     ParseSchema zeroConfig = (parsed, None) ->
     getenv "BROKER_ID" = "" -> DiscoverBrokerID getenv = Err e ->
     Initialize getenv ParseSchema = (parsed, Some (DiscoveryError e))) /\
  (forall parsed id e,
     ParseSchema zeroConfig = (parsed, None) ->
     getenv "BROKER_ID" = "" -> DiscoverBrokerID getenv = Ok id ->
     BootstrapServers parsed = "" -> WorkloadName parsed = "" ->
     DiscoverWorkloadName getenv = Err e ->
     Initialize getenv ParseSchema
     = (setBrokerID id parsed, Some (DiscoveryError e))).
Proof.
  split; [|split].
  - intros cfg msg Hp. unfold Initialize. rewrite Hp. reflexivity.
  - intros parsed e Hp Hb Hd. unfold Initialize. rewrite Hp, Hb, Hd.
    reflexivity.
  - intros parsed id e Hp Hb Hd Hs Hw He. unfold Initialize.
    rewrite Hp, Hb, Hd. cbn [String.eqb].
    cbn [setBrokerID BootstrapServers WorkloadName].
    rewrite Hs, Hw, He. reflexivity.
Qed.

Lemma Initialize_failures_witness :
  Initialize hostOnlyEnv parseDefaults
  = (setBrokerID 2 defaults,
     Some (DiscoveryError (ErrEnvNotSet "CPLN_WORKLOAD"))).
Proof.
  apply (proj2 (proj2 (Initialize_failures hostOnlyEnv parseDefaults))
           defaults 2 (ErrEnvNotSet "CPLN_WORKLOAD")); reflexivity.
Defined.

(** X23.  From the environment to the checker: when nothing is set and
    the broker ID, workload name, location and GVC name are discovered,
    the server that [NewServer] builds from the initialized configuration
    checks the discovered broker, and its seed servers are the replica
    addresses of the workload, one for each replica of the configured
    count (at least one), on the configured port; the SASL settings are
    those of the configuration. *)
Theorem discovered_checker `{Unicode}
  (NewClient : list Opt -> result string KafkaAdminClient)
  (getenv : Env)
  (ParseSchema : ConfigSchema -> ConfigSchema * option string)
  (parsed : ConfigSchema) (id : Z) (w l g : string) :
  ParseSchema zeroConfig = (parsed, None) ->
  getenv "BROKER_ID" = "" -> BootstrapServers parsed = "" ->
  WorkloadName parsed = "" -> Location parsed = "" -> GvcName parsed = "" ->
  DiscoverBrokerID getenv = Ok id ->
  DiscoverWorkloadName getenv = Ok w ->
  DiscoverLocation getenv = Ok l ->
  DiscoverGvcName getenv = Ok g ->
  ~ In ","%char (bytes w) -> ~ In ","%char (bytes l) ->
  ~ In ","%char (bytes g) ->
  exists cfg,
    Initialize getenv ParseSchema = (cfg, None) /\
    brokerID (healthChecker (NewServer NewClient cfg)) = id /\
    bootstrapServers (healthChecker (NewServer NewClient cfg))
    = replicaAddress w l g (KafkaPort parsed)
      <$> seqZ 0 (Z.max (ReplicaCount parsed) 1) /\
    saslConfig (healthChecker (NewServer NewClient cfg))
    = mkSASL (SASLEnabled parsed) (SASLMechanism parsed)
        (SASLUsername parsed) (SASLPassword parsed).
Proof.
  intros Hp Hb Hs Hwn Hln Hgn Hid Hw Hl Hg Hcw Hcl Hcg.
  eexists. split.
  - unfold Initialize. rewrite Hp, Hb, Hid. cbn [String.eqb].
    cbn [setBrokerID BootstrapServers WorkloadName Location GvcName
         ReplicaCount KafkaPort].
    rewrite Hs, Hwn, Hln, Hgn, Hw, Hl, Hg. cbn [String.eqb]. reflexivity.
  - unfold NewServer, NewChecker.
    cbn [healthChecker brokerID bootstrapServers saslConfig setBrokerID
         setBootstrapServers BrokerID BootstrapServers SASLEnabled
         SASLMechanism SASLUsername SASLPassword].
    split; [reflexivity|]. split; [|reflexivity].
    rewrite BuildBootstrapServers_joined.
    set (addresses := replicaAddress w l g (KafkaPort parsed)
                      <$> seqZ 0 (Z.max (ReplicaCount parsed) 1)).
    assert (Hsplit : SplitByte (commaJoined addresses) "," = addresses).
    { subst addresses. rewrite (seqZ_cons 0) by lia. rewrite fmap_cons.
      apply SplitByte_commaJoined.
      rewrite <- fmap_cons. apply Forall_fmap, Forall_forall.
      intros x _. simpl. apply replicaAddress_no_comma; assumption. }
    rewrite Hsplit. clear Hsplit. subst addresses.
    induction (seqZ 0 (Z.max (ReplicaCount parsed) 1)) as [|i rest IH];
      [reflexivity|].
    rewrite !fmap_cons, TrimSpace_replicaAddress. f_equal. exact IH.
Qed.

Lemma discovered_checker_witness :
  exists cfg,
    Initialize replicaEnv parseDefaults = (cfg, None) /\
    brokerID (healthChecker
                (@NewServer asciiOnly (fun _ => Err "no network") cfg)) = 2 /\
    bootstrapServers (healthChecker
                (@NewServer asciiOnly (fun _ => Err "no network") cfg))
    = replicaAddress "kafka" "aws-us-west-2" "prod" (KafkaPort defaults)
      <$> seqZ 0 (Z.max (ReplicaCount defaults) 1) /\
    saslConfig (healthChecker
                (@NewServer asciiOnly (fun _ => Err "no network") cfg))
    = mkSASL (SASLEnabled defaults) (SASLMechanism defaults)
        (SASLUsername defaults) (SASLPassword defaults).
Proof.
  apply (@discovered_checker asciiOnly (fun _ => Err "no network")
           replicaEnv parseDefaults defaults 2
           "kafka" "aws-us-west-2" "prod");
    try reflexivity; simpl; intuition discriminate.
Defined.

End StartupProps.
